(** * vbb: a Go client for the VBB (Berlin/Brandenburg) transport API

    A shallow embedding of the two generations of [vbb.go] found in the
    repository:
    - module [V5] is the client for [https://v5.vbb.transport.rest]
      (file [vbb.go]);
    - module [V6] is the client for [https://v6.vbb.transport.rest]
      (the later revision of the same file).

    The Go packages the client calls are embedded in modules named after
    them ([strconv], [url], [time], [utf8], [json], [http]), each limited to the
    functions the client uses. *)

From Stdlib Require Import ZArith String Ascii List Bool Lia.
From Stdlib Require Import Floats.SpecFloat.
From stdpp Require Import gmap strings list sorting.

Set Warnings "-register-all".

Local Open Scope string_scope.
Local Open Scope Z_scope.

(** ** The type float64

    A [float64] is an IEEE 754 binary64 value; the arithmetic is the one
    of the Standard Library's [SpecFloat] at precision 53 and maximal
    exponent 1024. *)

Abbreviation float64 := spec_float.

Definition prec : Z := 53.
Definition emax : Z := 1024.

(** The conversion [float64(x)] of an integer, rounded to nearest even. *)
Definition float64_of_int (x : Z) : float64 :=
  binary_normalize prec emax x 0 false.

Definition float64_add (x y : float64) : float64 := SFadd prec emax x y.
Definition float64_div (x y : float64) : float64 := SFdiv prec emax x y.

(** Neither a NaN nor an infinity. *)
Definition float64_finite (f : float64) : bool :=
  match f with
  | S754_zero _ | S754_finite _ _ _ => true
  | _ => false
  end.

(** [f == 0] *)
Definition float64_is_zero (f : float64) : bool :=
  match f with
  | S754_zero _ => true
  | _ => false
  end.

(** The conversion [int(f)]: the fraction is discarded (truncation
    towards zero). Where the value does not fit an int64 the result is
    implementation-specific; it is the one of amd64. *)
Definition int_of_float64 (f : float64) : Z :=
  match f with
  | S754_zero _ => 0
  | S754_finite s m e =>
      let a := if 0 <=? e then Z.pos m * 2 ^ e else Z.pos m / 2 ^ (- e) in
      let x := if s then - a else a in
      if (- 2 ^ 63 <=? x) && (x <? 2 ^ 63) then x else - 2 ^ 63
  | _ => - 2 ^ 63
  end.

(** ** Package strconv *)

Module strconv.

(** [strconv.FormatBool] *)
Definition FormatBool (b : bool) : string :=
  if b then "true" else "false".

Definition digit (d : Z) : ascii :=
  ascii_of_nat (48 + Z.to_nat d).

(** The digit loop of [formatBits] in base 10: the digits of [u] are
    produced from the least significant one, in front of [acc]. A 64-bit
    value has at most 20 digits, which is the fuel [Itoa] gives. *)
Fixpoint formatBits (fuel : nat) (u : Z) (acc : string) : string :=
  match fuel with
  | O => acc
  | S fuel' =>
      let acc' := String (digit (u mod 10)) acc in
      if u <? 10 then acc' else formatBits fuel' (u / 10) acc'
  end.

(** [strconv.Itoa], that is [FormatInt(int64(i), 10)]. *)
Definition Itoa (i : Z) : string :=
  if i <? 0 then String "-" (formatBits 20 (- i) "")
  else formatBits 20 i "".

(** [strconv.FormatFloat(f, 'f', 0, 64)]: the exact value of [f] rounded
    to an integer, a tie going to the even neighbour, in decimal; the
    sign of a negative value (and of the negative zero) is kept. *)
Definition FormatFloat_f_0 (f : float64) : string :=
  match f with
  | S754_nan => "NaN"
  | S754_infinity false => "+Inf"
  | S754_infinity true => "-Inf"
  | S754_zero s => (if s then "-" else "") ++ "0"
  | S754_finite s m e =>
      let n :=
        if 0 <=? e then Z.pos m * 2 ^ e
        else
          let q := Z.pos m / 2 ^ (- e) in
          let r := Z.pos m mod 2 ^ (- e) in
          let half := 2 ^ (- e - 1) in
          if (half <? r) || ((r =? half) && Z.odd q) then q + 1 else q in
      (if s then "-" else "") ++ formatBits (S (Z.to_nat (Z.log2 n))) n ""
  end.

End strconv.

(** ** Package net/url *)

Module url.

(** [url.Values] is [map[string][]string]. *)
Abbreviation Values := (gmap string (list string)).

(** [Values.Set]: the key is bound to the one value, replacing what it
    was bound to. *)
Definition Values_Set (v : Values) (key value : string) : Values :=
  <[key := [value]]> v.

(** [Values.Get]: the first value of the key, or the empty string. *)
Definition Values_Get (v : Values) (key : string) : string :=
  match v !! key with
  | Some (x :: _) => x
  | _ => ""
  end.

Definition byte_in (lo hi c : ascii) : bool :=
  (N.leb (N_of_ascii lo) (N_of_ascii c)) && (N.leb (N_of_ascii c) (N_of_ascii hi)).

(** [shouldEscape(c, encodeQueryComponent)]: letters, digits and the
    marks [-], [_], [.], [~] are kept, every other byte is escaped. *)
Definition shouldEscape (c : ascii) : bool :=
  if byte_in "a" "z" c || byte_in "A" "Z" c || byte_in "0" "9" c then false
  else if Ascii.eqb c "-" || Ascii.eqb c "_" || Ascii.eqb c "." || Ascii.eqb c "~"
  then false
  else true.

Definition upperhex (n : N) : ascii :=
  match n with
  | 0%N => "0" | 1%N => "1" | 2%N => "2" | 3%N => "3" | 4%N => "4"
  | 5%N => "5" | 6%N => "6" | 7%N => "7" | 8%N => "8" | 9%N => "9"
  | 10%N => "A" | 11%N => "B" | 12%N => "C" | 13%N => "D" | 14%N => "E"
  | _ => "F"
  end%char.

(** [url.QueryEscape]: a space becomes [+], an escaped byte becomes
    [%XX]. *)
Fixpoint QueryEscape (s : string) : string :=
  match s with
  | EmptyString => EmptyString
  | String c s' =>
      if Ascii.eqb c " " then String "+" (QueryEscape s')
      else if shouldEscape c then
        String "%" (String (upperhex (N.shiftr (N_of_ascii c) 4))
                      (String (upperhex (N.land (N_of_ascii c) 15))
                         (QueryEscape s')))
      else String c (QueryEscape s')
  end.

(** [Values.Encode]: the keys in sorted order, each value written as
    [key=value] with both sides escaped, entries joined by [&]. *)
Definition Values_Encode (v : Values) : string :=
  let keys := merge_sort String.le (elements (dom v)) in
  fold_left
    (fun buf k =>
       let keyEscaped := QueryEscape k in
       fold_left
         (fun buf x =>
            (if String.eqb buf "" then buf else buf ++ "&")
              ++ keyEscaped ++ "=" ++ QueryEscape x)
         (default [] (v !! k)) buf)
    keys "".

(** [strings.Cut(s, sep)] for a one-byte separator: the text before the
    first [sep] and the text after it, or [s] and nothing. *)
Fixpoint Cut (s : string) (sep : ascii) : string * string * bool :=
  match s with
  | EmptyString => (EmptyString, EmptyString, false)
  | String c s' =>
      if Ascii.eqb c sep then (EmptyString, s', true)
      else let '(before, after, found) := Cut s' sep in
           (String c before, after, found)
  end.

(** The byte [c] occurs in [s]. *)
Fixpoint contains (c : ascii) (s : string) : bool :=
  match s with
  | EmptyString => false
  | String c' s' => Ascii.eqb c' c || contains c s'
  end.

(** The first two cuts of [url.Parse]: the fragment is what follows the
    first [#]; in what precedes it, the raw query is what follows the
    first [?]. The result is (scheme, authority and path; RawQuery;
    Fragment). *)
Definition Parse_cut (rawURL : string) : string * string * string :=
  let '(u, frag, _) := Cut rawURL "#" in
  let '(rest, query, _) := Cut u "?" in
  (rest, query, frag).

End url.

(** ** Package time *)

Module time.

(** A [Duration] is an int64 count of nanoseconds. *)
Abbreviation Duration := Z.

Definition Nanosecond : Duration := 1.
Definition Microsecond : Duration := 1000 * Nanosecond.
Definition Millisecond : Duration := 1000 * Microsecond.
Definition Second : Duration := 1000 * Millisecond.
Definition Minute : Duration := 60 * Second.

(** [Duration.Minutes]:
    [min := d / Minute; nsec := d % Minute;
     return float64(min) + float64(nsec)/(60*1e9)]. *)
Definition Minutes (d : Duration) : float64 :=
  let min := Z.quot d Minute in
  let nsec := Z.rem d Minute in
  float64_add (float64_of_int min)
    (float64_div (float64_of_int nsec) (float64_of_int (60 * 1000000000))).

(** A [Time] is represented by what [Format] reads from it: the date and
    the clock of the instant in the time's location, and the offset of
    that location's zone, in seconds east of UTC. *)
Record Time := {
  year : Z;
  month : Z;
  day : Z;
  hour : Z;
  minute : Z;
  second : Z;
  offset : Z
}.


Fixpoint zeros (n : nat) : string :=
  match n with
  | O => ""
  | S n' => String "0" (zeros n')
  end.

(** [appendInt(b, x, width)]: the sign of a negative [x], then its
    digits, padded with zeros in front up to [width] digits. *)
Definition appendInt (b : string) (x : Z) (width : nat) : string :=
  let ds := strconv.formatBits 20 (Z.abs x) "" in
  b ++ (if x <? 0 then "-" else "") ++ zeros (width - String.length ds) ++ ds.

(** The elements of a layout that the client's two layouts hold. *)
Inductive std :=
| stdLongYear          (* 2006 *)
| stdZeroMonth         (* 01 *)
| stdZeroDay           (* 02 *)
| stdHour              (* 15 *)
| stdZeroMinute        (* 04 *)
| stdZeroSecond        (* 05 *)
| stdISO8601ColonTZ    (* Z07:00 *)
| stdNumTZ.            (* -0700 *)

(** A layout, cut by [nextStdChunk] into literal text and elements. *)
Inductive chunk :=
| Lit (s : string)
| Std (c : std).

(** The zone of [stdISO8601ColonTZ] and [stdNumTZ]. *)
Definition appendZone (b : string) (c : std) (offset : Z) : string :=
  if (offset =? 0) && (match c with stdISO8601ColonTZ => true | _ => false end)
  then b ++ "Z"
  else
    let zone := Z.quot offset 60 in
    let b := if zone <? 0 then b ++ "-" else b ++ "+" in
    let zone := if zone <? 0 then - zone else zone in
    let b := appendInt b (Z.quot zone 60) 2 in
    let b := match c with stdISO8601ColonTZ => b ++ ":" | _ => b end in
    appendInt b (Z.rem zone 60) 2.

Definition appendStd (b : string) (c : std) (t : Time) : string :=
  match c with
  | stdLongYear => appendInt b (year t) 4
  | stdZeroMonth => appendInt b (month t) 2
  | stdZeroDay => appendInt b (day t) 2
  | stdHour => appendInt b (hour t) 2
  | stdZeroMinute => appendInt b (minute t) 2
  | stdZeroSecond => appendInt b (second t) 2
  | stdISO8601ColonTZ | stdNumTZ => appendZone b c (offset t)
  end.

(** [Time.Format] *)
Definition Format (t : Time) (layout : list chunk) : string :=
  fold_left
    (fun b c => match c with Lit s => b ++ s | Std c => appendStd b c t end)
    layout "".

(** [time.RFC3339 = "2006-01-02T15:04:05Z07:00"] *)
Definition RFC3339 : list chunk :=
  [Std stdLongYear; Lit "-"; Std stdZeroMonth; Lit "-"; Std stdZeroDay;
   Lit "T"; Std stdHour; Lit ":"; Std stdZeroMinute; Lit ":";
   Std stdZeroSecond; Std stdISO8601ColonTZ].

(** The layout ["2006-01-02T15:04:05-0700"] *)
Definition layout_NumTZ : list chunk :=
  [Std stdLongYear; Lit "-"; Std stdZeroMonth; Lit "-"; Std stdZeroDay;
   Lit "T"; Std stdHour; Lit ":"; Std stdZeroMinute; Lit ":";
   Std stdZeroSecond; Std stdNumTZ].

(** The pattern [YYYY-MM-DDThh:mm:ss±hhmm]: 24 bytes, a digit at each
    letter, a sign before the four digits of the zone. *)
Definition is_digit (c : ascii) : bool := url.byte_in "0" "9" c.

Definition matches_NumTZ (s : string) : bool :=
  match list_ascii_of_string s with
  | [y1; y2; y3; y4; p1; m1; m2; p2; d1; d2; pT; h1; h2; p3; n1; n2; p4;
     s1; s2; sg; z1; z2; z3; z4] =>
      forallb is_digit
        [y1; y2; y3; y4; m1; m2; d1; d2; h1; h2; n1; n2; s1; s2; z1; z2; z3; z4]
      && Ascii.eqb p1 "-" && Ascii.eqb p2 "-" && Ascii.eqb pT "T"
      && Ascii.eqb p3 ":" && Ascii.eqb p4 ":"
      && (Ascii.eqb sg "+" || Ascii.eqb sg "-")
  | _ => false
  end.


End time.

(** ** Errors

    An [error] is either a failure reported by a package the client
    calls, or such an error wrapped by [fmt.Errorf(msg + ": %w", err)]. *)

Inductive error :=
| TransportError (msg : string)   (* from net/url or net/http *)
| JSONError                       (* from encoding/json *)
| Errorf (msg : string) (err : error).

(** ** Package unicode/utf8 *)

Module utf8.

Definition byte (c : ascii) : Z := Z.of_N (N_of_ascii c).

(** The byte is in the range from [lo] to [hi]: not
    [c < lo || hi < c]. *)
Definition accepts (lo hi : Z) (c : ascii) : bool :=
  (lo <=? byte c) && (byte c <=? hi).

(** The tables [first] and [acceptRanges] at the first byte of an
    encoding of more than one byte: the length of the encoding and the
    range of its second byte. There is none for a byte that starts no
    encoding: 80 to C1 and F5 to FF. *)
Definition first (s0 : Z) : option (nat * Z * Z) :=
  if (0xC2 <=? s0) && (s0 <=? 0xDF) then Some (2%nat, 0x80, 0xBF)
  else if s0 =? 0xE0 then Some (3%nat, 0xA0, 0xBF)
  else if s0 =? 0xED then Some (3%nat, 0x80, 0x9F)
  else if (0xE1 <=? s0) && (s0 <=? 0xEF) then Some (3%nat, 0x80, 0xBF)
  else if s0 =? 0xF0 then Some (4%nat, 0x90, 0xBF)
  else if (0xF1 <=? s0) && (s0 <=? 0xF3) then Some (4%nat, 0x80, 0xBF)
  else if s0 =? 0xF4 then Some (4%nat, 0x80, 0x8F)
  else None.

(** [DecodeRuneInString] on a string that is not empty, as far as its
    callers here look at the result: the width of the rune the string
    starts with, and [None] for the result [(RuneError, 1)] of an
    encoding that is invalid or cut short. (The encoding EF BF BD of
    U+FFFD itself is valid, of width 3.) *)
Definition DecodeRuneInString (s : string) : option nat :=
  match s with
  | EmptyString => None
  | String s0 rest =>
      if byte s0 <? 0x80 then Some 1%nat
      else
        match first (byte s0) with
        | None => None
        | Some (sz, lo, hi) =>
            match rest with
            | EmptyString => None
            | String s1 rest1 =>
                if negb (accepts lo hi s1) then None
                else if (sz <=? 2)%nat then Some 2%nat
                else
                  match rest1 with
                  | EmptyString => None
                  | String s2 rest2 =>
                      if negb (accepts 0x80 0xBF s2) then None
                      else if (sz <=? 3)%nat then Some 3%nat
                      else
                        match rest2 with
                        | EmptyString => None
                        | String s3 _ =>
                            if negb (accepts 0x80 0xBF s3) then None
                            else Some 4%nat
                        end
                  end
            end
        end
  end.

(** [ValidString]: the string is a sequence of valid encodings. [k] is
    the number of bytes still to pass of the encoding found last. *)
Fixpoint ValidString_from (k : nat) (s : string) : bool :=
  match s with
  | EmptyString => true
  | String _ rest =>
      match k with
      | S k' => ValidString_from k' rest
      | O =>
          match DecodeRuneInString s with
          | None => false
          | Some sz => ValidString_from (sz - 1) rest
          end
      end
  end.

Definition ValidString (s : string) : bool := ValidString_from 0 s.

(** U+FFFD, the replacement character, by the bytes of its encoding. *)
Definition RuneError : string :=
  String (ascii_of_nat 0xEF)
    (String (ascii_of_nat 0xBF) (String (ascii_of_nat 0xBD) EmptyString)).

End utf8.

(** ** Package encoding/json

    A JSON text is represented by the value it denotes: the members of
    an object in the order of the text, a number by the float64 it
    denotes, a string by the bytes of the text it denotes. A Go string
    is a sequence of bytes, and need not be valid UTF-8; a JSON string
    is. The encoder writes a Go string as [appendString] has it; the
    values given to the decoder are the ones read from a JSON text. *)

Module json.

Inductive value :=
| JNull
| JBool (b : bool)
| JNumber (f : float64)
| JString (s : string)
| JArray (elems : list value)
| JObject (members : list (string * value)).

(** The first member of an object with the given key. *)
Fixpoint member (key : string) (members : list (string * value)) : option value :=
  match members with
  | [] => None
  | (k, v) :: rest => if String.eqb k key then Some v else member key rest
  end.

Definition lookup (key : string) (v : value) : option value :=
  match v with
  | JObject members => member key members
  | _ => None
  end.

(** [foldName]: the key under which the decoder looks a struct field up
    when no field has exactly the key's name. Letters a-z are put in
    upper case; the Kelvin sign (E2 84 AA) and the long s (C5 BF), the
    two letters outside ASCII that fold to an ASCII one, become K and
    S. *)
Fixpoint foldName (s : string) : string :=
  match s with
  | EmptyString => EmptyString
  | String c s' =>
      if url.byte_in "a" "z" c
      then String (ascii_of_N (N_of_ascii c - 32)) (foldName s')
      else
        match s' with
        | EmptyString => String c EmptyString
        | String c1 s1 =>
            if Ascii.eqb c (ascii_of_nat 197) && Ascii.eqb c1 (ascii_of_nat 191)
            then String "S" (foldName s1)
            else
              match s1 with
              | String c2 s2 =>
                  if Ascii.eqb c (ascii_of_nat 226)
                     && Ascii.eqb c1 (ascii_of_nat 132)
                     && Ascii.eqb c2 (ascii_of_nat 170)
                  then String "K" (foldName s2)
                  else String c (foldName s')
              | EmptyString => String c (foldName s')
              end
        end
  end.

(** A key of the text selects the struct field [field]. *)
Definition names (key field : string) : bool :=
  String.eqb key field || String.eqb (foldName key) (foldName field).

(** A JSON literal stored in a field of kind string, float64 or bool:
    [null] leaves the field as it is, a literal of another kind is an
    [UnmarshalTypeError]. *)
Definition store_string (old : string) (v : value) : option string :=
  match v with
  | JString s => Some s
  | JNull => Some old
  | _ => None
  end.

Definition store_float64 (old : float64) (v : value) : option float64 :=
  match v with
  | JNumber f => Some f
  | JNull => Some old
  | _ => None
  end.

Definition store_bool (old : bool) (v : value) : option bool :=
  match v with
  | JBool b => Some b
  | JNull => Some old
  | _ => None
  end.

(** A float64 written by the encoder: a NaN or an infinity is an
    [UnsupportedValueError]. *)
Definition encode_float64 (f : float64) : option value :=
  if float64_finite f then Some (JNumber f) else None.

(** The string denoted by what the encoder writes for the Go string
    [s]: the bytes of [s] are taken rune by rune; a byte at which
    [DecodeRuneInString] finds no valid encoding is written as the
    escape of U+FFFD, and the decoding goes on at the next byte; the
    other bytes are written as they are, or as escapes that denote
    them. [k] is the number of bytes still to copy of the rune found
    last. *)
Fixpoint appendString_from (k : nat) (s : string) : string :=
  match s with
  | EmptyString => EmptyString
  | String b rest =>
      match k with
      | S k' => String b (appendString_from k' rest)
      | O =>
          match utf8.DecodeRuneInString s with
          | None => utf8.RuneError ++ appendString_from 0 rest
          | Some sz => String b (appendString_from (sz - 1) rest)
          end
      end
  end.

Definition appendString (s : string) : string := appendString_from 0 s.

(** A Go string written by the encoder. *)
Definition encode_string (s : string) : value := JString (appendString s).

Section Slices.

Context {A : Type}.
(** The zero value of the element type, and the decoding of a JSON value
    into an element holding an earlier value. *)
Variable zero : A.
Variable decode : A -> value -> option A.

(** The elements of an array decoded into a slice that holds [old]: the
    i-th into the i-th element the slice holds already, or into a zero
    value when the slice is shorter. *)
Fixpoint decode_elems (old : list A) (elems : list value) : option (list A) :=
  match elems with
  | [] => Some []
  | v :: elems' =>
      match decode (hd zero old) v with
      | None => None
      | Some a =>
          match decode_elems (tl old) elems' with
          | None => None
          | Some r => Some (a :: r)
          end
      end
  end.

(** A value decoded into a slice: [null] empties the slice, an array
    gives the slice the array's length, anything else is an error. *)
Definition decode_slice (old : list A) (v : value) : option (list A) :=
  match v with
  | JNull => Some []
  | JArray elems => decode_elems old elems
  | _ => None
  end.

(** A value decoded into a struct whose one field, named [field], is a
    slice: the members of an object are taken in order, one that names
    the field is decoded into it, the others are skipped. *)
Definition decode_struct1 (field : string) (v : value) : option (list A) :=
  match v with
  | JNull => Some []
  | JObject members =>
      fold_left
        (fun acc kv =>
           match acc with
           | None => None
           | Some cur =>
               if names (fst kv) field then decode_slice cur (snd kv)
               else Some cur
           end)
        members (Some [])
  | _ => None
  end.

End Slices.

(** [json.NewDecoder(data).Decode(&res)]: [dec] decodes the value read
    from the stream into [res]; there is an error when no value can be
    read. *)
Definition Decode {A : Type} (dec : value -> option A) (data : option value)
  : option A :=
  match data with
  | Some v => dec v
  | None => None
  end.

End json.

(** ** Package net/http *)

Module http.

Definition MethodGet : string := "GET".

Record Request := { Method : string; URL : string }.

(** A response: the status, and the JSON value that a [json.Decoder]
    reads from the body, if it reads one. *)
Record Response := {
  StatusCode : Z;
  Body : option json.value
}.

(** An [http.Client] is what its [Do] answers to a request. *)
Record Client := { Do : Request -> error + Response }.

(** [http.NewRequest(method, url, nil)]: it fails when [url.Parse]
    rejects the URL; [Parse] gives the error then. *)
Definition NewRequest (Parse : string -> option error) (method url : string)
  : error + Request :=
  match Parse url with
  | Some err => inl err
  | None => inr {| Method := method; URL := url |}
  end.

(** A client whose server answers every request with the given status
    and body, and a client whose every request fails with [err]. *)
Definition answering (status : Z) (body : option json.value) : Client :=
  {| Do := fun _ => inr {| StatusCode := status; Body := body |} |}.



End http.

(** ** Generation A: the client of the v5 API (vbb.go) *)

Module V5.

Definition BaseURL : string := "https://v5.vbb.transport.rest".

(** Client is a VBB API client *)
Record Client := { endpoint : string; c : http.Client }.

(** New returns a new instance of VBB API client; [None] is the nil
    client, replaced by [http.DefaultClient]. *)
Definition New (DefaultClient : http.Client) (endpoint : string)
  (c : option http.Client) : Client :=
  {| endpoint := endpoint; c := default DefaultClient c |}.

(** Location is a station, stop, POI or an address *)
Module Location.
Record t := { Type_ : string; ID : string; Name : string; Address : string }.
Definition zero : t := {| Type_ := ""; ID := ""; Name := ""; Address := "" |}.
End Location.

(** LocationType represents location type: a uint8; the constants are
    [1 << iota] with [iota] from 1. *)
Definition LocationTypeUnknown : Z := 0.
Definition LocationTypeStop : Z := Z.shiftl 1 1.
Definition LocationTypeAddress : Z := Z.shiftl 1 2.
Definition LocationTypePOI : Z := Z.shiftl 1 3.
Definition LocationTypeAny : Z :=
  Z.lor (Z.lor LocationTypeStop LocationTypeAddress) LocationTypePOI.

(** TransportationType represents the type transport type: a uint8; the
    constants are [1<<iota + 1] with [iota] from 0, where [<<] binds
    tighter than [+]. *)
Definition SuburbanTrain : Z := Z.shiftl 1 0 + 1.
Definition Subway : Z := Z.shiftl 1 1 + 1.
Definition Tram : Z := Z.shiftl 1 2 + 1.
Definition Bus : Z := Z.shiftl 1 3 + 1.
Definition Ferry : Z := Z.shiftl 1 4 + 1.
Definition ExpressTrain : Z := Z.shiftl 1 5 + 1.
Definition RegionalTrain : Z := Z.shiftl 1 6 + 1.

Definition UrbanTransport : Z :=
  Z.lor (Z.lor (Z.lor (Z.lor (Z.lor SuburbanTrain Subway) Tram) Bus) Ferry)
    RegionalTrain.
Definition AllTransport : Z := Z.lor UrbanTransport ExpressTrain.

(** [x&flag != 0] *)
Definition has (x flag : Z) : bool := negb (Z.land x flag =? 0).

(** Line represents a public transportation line *)
Module Line.
Record t := { Name : string; Product : string }.
Definition zero : t := {| Name := ""; Product := "" |}.
End Line.

(** Departure represents departure information *)
Module Departure.
Record t := {
  Direction : string;
  When : time.Time;
  PlannedWhen : time.Time;
  Delay : Z;
  Platform : Z;
  PlannedPlatform : Z;
  Line : Line.t
}.
End Departure.

(** What an operation does and returns: the requests its HTTP client
    was given, in order, and the operation's result or error. *)
Abbreviation outcome A := (list http.Request * (error + A))%type.

Section Operations.

(** The verdict of [url.Parse] on a URL. *)
Variable Parse : string -> option error.
(** [strconv.FormatFloat(x, 'f', -1, 64)]: the shortest decimal text
    that reads back as [x]. *)
Variable FormatFloat_shortest : float64 -> string.
(** The zero [Departure] and the decoding of a JSON value into a value
    of the two struct types, by the decoder's reflection. *)
Variable Departure_zero : Departure.t.
Variable decodeLocation : Location.t -> json.value -> option Location.t.
Variable decodeDeparture : Departure.t -> json.value -> option Departure.t.

Definition sendRequest (cl : Client) (method url : string)
  : outcome (option json.value) :=
  match http.NewRequest Parse method (endpoint cl ++ url) with
  | inl err => ([], inl (Errorf ("failed to create request to " ++ url) err))
  | inr req =>
      match http.Do (c cl) req with
      | inl err =>
          ([req], inl (Errorf ("failed to execute request to " ++ url) err))
      | inr resp => ([req], inr (http.Body resp))
      end
  end.

(** The [url.Values] that [Locations] fills. *)
Definition Locations_q (query : string) (locType : Z) (resultsNum : Z)
  : url.Values :=
  let q : url.Values := ∅ in
  let q := url.Values_Set q "results" (strconv.Itoa resultsNum) in
  let q := url.Values_Set q "query" query in
  let q := url.Values_Set q "pretty" "false" in
  let q := url.Values_Set q "stops"
             (strconv.FormatBool (has locType LocationTypeStop)) in
  let q := url.Values_Set q "addresss"
             (strconv.FormatBool (has locType LocationTypeAddress)) in
  let q := url.Values_Set q "poi"
             (strconv.FormatBool (has locType LocationTypePOI)) in
  q.

(** Locations returns first resultsNum locations matching the query *)
Definition Locations (cl : Client) (query : string) (locType : Z)
  (resultsNum : Z) : outcome (list Location.t) :=
  let q := Locations_q query locType resultsNum in
  let '(reqs, r) :=
    sendRequest cl http.MethodGet ("/locations?" ++ url.Values_Encode q) in
  match r with
  | inl err => (reqs, inl (Errorf "failed to retrieve locations" err))
  | inr data =>
      match json.Decode (json.decode_slice Location.zero decodeLocation []) data with
      | None => (reqs, inl (Errorf "failed to decode response" JSONError))
      | Some res => (reqs, inr res)
      end
  end.

(** The [url.Values] that [StopsNearby] fills. *)
Definition StopsNearby_q (lat lng : float64) (resultsNum : Z) : url.Values :=
  let q : url.Values := ∅ in
  let q := url.Values_Set q "results" (strconv.Itoa resultsNum) in
  let q := url.Values_Set q "latitude" (FormatFloat_shortest lat) in
  let q := url.Values_Set q "longitude" (FormatFloat_shortest lng) in
  let q := url.Values_Set q "pretty" "false" in
  q.

(** StopsNearby returns resultsNum stops within distance meters of
    walking from given location *)
Definition StopsNearby (cl : Client) (lat lng : float64)
  (distance resultsNum : Z) : outcome (list Location.t) :=
  let q := StopsNearby_q lat lng resultsNum in
  let '(reqs, r) :=
    sendRequest cl http.MethodGet ("/stops/nearby?" ++ url.Values_Encode q) in
  match r with
  | inl err => (reqs, inl (Errorf "failed to retrieve stops nearby" err))
  | inr data =>
      match json.Decode (json.decode_slice Location.zero decodeLocation []) data with
      | None => (reqs, inl (Errorf "failed to decode response" JSONError))
      | Some res => (reqs, inr res)
      end
  end.

(** The [url.Values] that [Departures] fills, and [Arrivals] the same
    way. *)
Definition Departures_q (when : time.Time) (duration : time.Duration)
  (transportTypes : Z) : url.Values :=
  let q : url.Values := ∅ in
  let q := url.Values_Set q "when" (time.Format when time.RFC3339) in
  let q := url.Values_Set q "duration"
             (strconv.FormatFloat_f_0 (time.Minutes duration)) in
  let q := url.Values_Set q "pretty" "false" in
  let q := url.Values_Set q "suburban"
             (strconv.FormatBool (has transportTypes SuburbanTrain)) in
  let q := url.Values_Set q "subway"
             (strconv.FormatBool (has transportTypes Subway)) in
  let q := url.Values_Set q "tram"
             (strconv.FormatBool (has transportTypes Tram)) in
  let q := url.Values_Set q "bus"
             (strconv.FormatBool (has transportTypes Bus)) in
  let q := url.Values_Set q "ferry"
             (strconv.FormatBool (has transportTypes Ferry)) in
  let q := url.Values_Set q "express"
             (strconv.FormatBool (has transportTypes ExpressTrain)) in
  let q := url.Values_Set q "regional"
             (strconv.FormatBool (has transportTypes RegionalTrain)) in
  q.

Definition Arrivals_q (when : time.Time) (duration : time.Duration)
  (transportTypes : Z) : url.Values :=
  let q : url.Values := ∅ in
  let q := url.Values_Set q "when" (time.Format when time.RFC3339) in
  let q := url.Values_Set q "duration"
             (strconv.FormatFloat_f_0 (time.Minutes duration)) in
  let q := url.Values_Set q "pretty" "false" in
  let q := url.Values_Set q "suburban"
             (strconv.FormatBool (has transportTypes SuburbanTrain)) in
  let q := url.Values_Set q "subway"
             (strconv.FormatBool (has transportTypes Subway)) in
  let q := url.Values_Set q "tram"
             (strconv.FormatBool (has transportTypes Tram)) in
  let q := url.Values_Set q "bus"
             (strconv.FormatBool (has transportTypes Bus)) in
  let q := url.Values_Set q "ferry"
             (strconv.FormatBool (has transportTypes Ferry)) in
  let q := url.Values_Set q "express"
             (strconv.FormatBool (has transportTypes ExpressTrain)) in
  let q := url.Values_Set q "regional"
             (strconv.FormatBool (has transportTypes RegionalTrain)) in
  q.

(** Departures returns a list of departures for the stop at given time.
    The values [q] are filled and not used again. *)
Definition Departures (cl : Client) (stopID : string) (when : time.Time)
  (duration : time.Duration) (transportTypes : Z)
  : outcome (list Departure.t) :=
  let q := Departures_q when duration transportTypes in
  let '(reqs, r) :=
    sendRequest cl http.MethodGet ("/stops/" ++ stopID ++ "/departures") in
  match r with
  | inl err =>
      (reqs, inl (Errorf ("failed to retrieve departures for " ++ stopID) err))
  | inr data =>
      match json.Decode (json.decode_slice Departure_zero decodeDeparture []) data with
      | None => (reqs, inl (Errorf "failed to decode response" JSONError))
      | Some res => (reqs, inr res)
      end
  end.

(** Arrivals returns a list of arrivals for the stop at given time. The
    values [q] are filled and not used again. *)
Definition Arrivals (cl : Client) (stopID : string) (when : time.Time)
  (duration : time.Duration) (transportTypes : Z)
  : outcome (list Departure.t) :=
  let q := Arrivals_q when duration transportTypes in
  let '(reqs, r) :=
    sendRequest cl http.MethodGet ("/stops/" ++ stopID ++ "/arrivals") in
  match r with
  | inl err =>
      (reqs, inl (Errorf ("failed to retrieve arrivals for " ++ stopID) err))
  | inr data =>
      match json.Decode (json.decode_slice Departure_zero decodeDeparture []) data with
      | None => (reqs, inl (Errorf "failed to decode response" JSONError))
      | Some res => (reqs, inr res)
      end
  end.

End Operations.

End V5.

(** ** Generation B: the client of the v6 API *)

Module V6.

Import json.

Definition BaseURL : string := "https://v6.vbb.transport.rest".

(** Client is a VBB API client *)
Record Client := { endpoint : string; c : http.Client }.

(** New returns a new instance of VBB API client; [None] is the nil
    client, replaced by [http.DefaultClient]. *)
Definition New (DefaultClient : http.Client) (endpoint : string)
  (c : option http.Client) : Client :=
  {| endpoint := endpoint; c := default DefaultClient c |}.

(** Location is a station, stop, POI or an address *)
Module Location.
Record t := {
  Type_ : string;
  ID : string;
  Name : string;
  Address : string;
  Latitude : float64;
  Longitude : float64;
  Distance : Z
}.
End Location.

(** The struct that the field [Location] of a [hafasLocation] points
    to. *)
Module point.
Record t := { Type_ : string; Latitude : float64; Longitude : float64 }.
Definition zero : t :=
  {| Type_ := ""; Latitude := S754_zero false; Longitude := S754_zero false |}.
End point.

(** [hafasLocation]; every field but the first three is tagged
    [omitempty]. The pointer [Location] is [None] when nil. *)
Module hafasLocation.
Record t := {
  Type_ : string;
  ID : string;
  Name : string;
  Address : string;
  Location : option point.t;
  Latitude : float64;
  Longitude : float64;
  POI : bool
}.
Definition zero : t :=
  {| Type_ := ""; ID := ""; Name := ""; Address := ""; Location := None;
     Latitude := S754_zero false; Longitude := S754_zero false;
     POI := false |}.
End hafasLocation.

(** [json.Marshal] at the type of the struct pointed to: the three
    fields under their Go names. *)
Definition Marshal_point (p : point.t) : option value :=
  la ← encode_float64 (point.Latitude p);
  lo ← encode_float64 (point.Longitude p);
  Some (JObject [("Type", encode_string (point.Type_ p));
                 ("Latitude", la); ("Longitude", lo)]).

(** [json.Marshal] at type [hafasLocation]: the fields in the order of
    the struct, under their Go names; a field tagged [omitempty] is left
    out when it is the empty string, a nil pointer, zero or false. The
    test is made on the field, before its string is encoded. *)
Definition Marshal_hafasLocation (h : hafasLocation.t) : option value :=
  loc ← match hafasLocation.Location h with
        | None => Some []
        | Some p => v ← Marshal_point p; Some [("Location", v)]
        end;
  lat ← (if float64_is_zero (hafasLocation.Latitude h) then Some []
         else v ← encode_float64 (hafasLocation.Latitude h);
              Some [("Latitude", v)]);
  lng ← (if float64_is_zero (hafasLocation.Longitude h) then Some []
         else v ← encode_float64 (hafasLocation.Longitude h);
              Some [("Longitude", v)]);
  Some (JObject
          ([("Type", encode_string (hafasLocation.Type_ h));
            ("ID", encode_string (hafasLocation.ID h));
            ("Name", encode_string (hafasLocation.Name h))]
           ++ (if String.eqb (hafasLocation.Address h) "" then []
               else [("Address", encode_string (hafasLocation.Address h))])
           ++ loc ++ lat ++ lng
           ++ (if hafasLocation.POI h then [("POI", JBool true)] else []))).

(** One member of an object stored in the struct pointed to. *)
Definition store_point (p : point.t) (kv : string * value) : option point.t :=
  let '(k, v) := kv in
  if names k "Type" then
    x ← store_string (point.Type_ p) v;
    Some {| point.Type_ := x; point.Latitude := point.Latitude p;
            point.Longitude := point.Longitude p |}
  else if names k "Latitude" then
    x ← store_float64 (point.Latitude p) v;
    Some {| point.Type_ := point.Type_ p; point.Latitude := x;
            point.Longitude := point.Longitude p |}
  else if names k "Longitude" then
    x ← store_float64 (point.Longitude p) v;
    Some {| point.Type_ := point.Type_ p; point.Latitude := point.Latitude p;
            point.Longitude := x |}
  else Some p.

(** A value stored in the pointer field: [null] makes it nil; an object
    is decoded into the struct it points to, a new one when it is nil;
    anything else is an error. *)
Definition store_Location (old : option point.t) (v : value)
  : option (option point.t) :=
  match v with
  | JNull => Some None
  | JObject members =>
      p ← fold_left (fun acc kv => p ← acc; store_point p kv) members
            (Some (default point.zero old));
      Some (Some p)
  | _ => None
  end.

(** One member of an object stored in a [hafasLocation]. *)
Definition store_hafasLocation (h : hafasLocation.t) (kv : string * value)
  : option hafasLocation.t :=
  let '(k, v) := kv in
  let '(hafasLocation.Build_t ty id name addr loc lat lng poi) := h in
  if names k "Type" then
    x ← store_string ty v;
    Some (hafasLocation.Build_t x id name addr loc lat lng poi)
  else if names k "ID" then
    x ← store_string id v;
    Some (hafasLocation.Build_t ty x name addr loc lat lng poi)
  else if names k "Name" then
    x ← store_string name v;
    Some (hafasLocation.Build_t ty id x addr loc lat lng poi)
  else if names k "Address" then
    x ← store_string addr v;
    Some (hafasLocation.Build_t ty id name x loc lat lng poi)
  else if names k "Location" then
    x ← store_Location loc v;
    Some (hafasLocation.Build_t ty id name addr x lat lng poi)
  else if names k "Latitude" then
    x ← store_float64 lat v;
    Some (hafasLocation.Build_t ty id name addr loc x lng poi)
  else if names k "Longitude" then
    x ← store_float64 lng v;
    Some (hafasLocation.Build_t ty id name addr loc lat x poi)
  else if names k "POI" then
    x ← store_bool poi v;
    Some (hafasLocation.Build_t ty id name addr loc lat lng x)
  else Some h.

(** [json.Unmarshal(data, &hLoc)] with [hLoc] the zero value: [null]
    leaves it, the members of an object are stored in order, anything
    else is an error. *)
Definition Unmarshal_hafasLocation (data : value) : option hafasLocation.t :=
  match data with
  | JNull => Some hafasLocation.zero
  | JObject members =>
      fold_left (fun acc kv => h ← acc; store_hafasLocation h kv) members
        (Some hafasLocation.zero)
  | _ => None
  end.

(** MarshalJSON marshals Location into HAFAS@v6 JSON representation *)
Definition MarshalJSON (loc : Location.t) : error + value :=
  let hLoc :=
    {| hafasLocation.Type_ := Location.Type_ loc;
       hafasLocation.ID := Location.ID loc;
       hafasLocation.Name := Location.Name loc;
       hafasLocation.Address := Location.Address loc;
       hafasLocation.Location := None;
       hafasLocation.Latitude := S754_zero false;
       hafasLocation.Longitude := S754_zero false;
       hafasLocation.POI := String.eqb (Location.Type_ loc) "poi" |} in
  let hLoc :=
    if String.eqb (Location.Type_ loc) "stop" then
      {| hafasLocation.Type_ := hafasLocation.Type_ hLoc;
         hafasLocation.ID := hafasLocation.ID hLoc;
         hafasLocation.Name := hafasLocation.Name hLoc;
         hafasLocation.Address := hafasLocation.Address hLoc;
         hafasLocation.Location :=
           Some {| point.Type_ := "location";
                   point.Latitude := Location.Latitude loc;
                   point.Longitude := Location.Longitude loc |};
         hafasLocation.Latitude := hafasLocation.Latitude hLoc;
         hafasLocation.Longitude := hafasLocation.Longitude hLoc;
         hafasLocation.POI := hafasLocation.POI hLoc |}
    else hLoc in
  match Marshal_hafasLocation hLoc with
  | Some data => inr data
  | None => inl JSONError
  end.

(** UnmarshalJSON unmarshals HAFAS@v6 JSON representation into
    Location *)
Definition UnmarshalJSON (data : value) : error + Location.t :=
  match Unmarshal_hafasLocation data with
  | None => inl (Errorf "failed to unmarshal location" JSONError)
  | Some hLoc =>
      let loc :=
        {| Location.Type_ := hafasLocation.Type_ hLoc;
           Location.ID := hafasLocation.ID hLoc;
           Location.Name := hafasLocation.Name hLoc;
           Location.Address := hafasLocation.Address hLoc;
           Location.Latitude := hafasLocation.Latitude hLoc;
           Location.Longitude := hafasLocation.Longitude hLoc;
           Location.Distance := 0 |} in
      match hafasLocation.Location hLoc with
      | Some p =>
          inr {| Location.Type_ := Location.Type_ loc;
                 Location.ID := Location.ID loc;
                 Location.Name := Location.Name loc;
                 Location.Address := Location.Address loc;
                 Location.Latitude := point.Latitude p;
                 Location.Longitude := point.Longitude p;
                 Location.Distance := Location.Distance loc |}
      | None => inr loc
      end
  end.

(** LocationType represents location type: a uint8; the constants are
    [1 << iota] with [iota] from 1. *)
Definition LocationTypeUnknown : Z := 0.
Definition LocationTypeStop : Z := Z.shiftl 1 1.
Definition LocationTypeAddress : Z := Z.shiftl 1 2.
Definition LocationTypePOI : Z := Z.shiftl 1 3.
Definition LocationTypeAny : Z :=
  Z.lor (Z.lor LocationTypeStop LocationTypeAddress) LocationTypePOI.

(** TransportationType represents the type transport type: a uint8; the
    constants are [1<<iota + 1] with [iota] from 0, where [<<] binds
    tighter than [+]. *)
Definition SuburbanTrain : Z := Z.shiftl 1 0 + 1.
Definition Subway : Z := Z.shiftl 1 1 + 1.
Definition Tram : Z := Z.shiftl 1 2 + 1.
Definition Bus : Z := Z.shiftl 1 3 + 1.
Definition Ferry : Z := Z.shiftl 1 4 + 1.
Definition ExpressTrain : Z := Z.shiftl 1 5 + 1.
Definition RegionalTrain : Z := Z.shiftl 1 6 + 1.

Definition UrbanTransport : Z :=
  Z.lor (Z.lor (Z.lor (Z.lor (Z.lor SuburbanTrain Subway) Tram) Bus) Ferry)
    RegionalTrain.
Definition AllTransport : Z := Z.lor UrbanTransport ExpressTrain.

(** [x&flag != 0] *)
Definition has (x flag : Z) : bool := negb (Z.land x flag =? 0).

(** Line represents a public transportation line *)
Module Line.
Record t := { Name : string; Product : string }.
End Line.

(** Departure represents departure information *)
Module Departure.
Record t := {
  Direction : string;
  When : time.Time;
  PlannedWhen : time.Time;
  Delay : Z;
  Platform : string;
  PlannedPlatform : string;
  Line : Line.t
}.
End Departure.

(** The element type of [res.Arrivals] in [Arrivals]: a struct that
    embeds [Departure] and adds [Provenance]. *)
Module arrival.
Record t := { Departure : Departure.t; Provenance : string }.
(** The assignment [a.Direction = x] through the embedded struct. *)
Definition set_Direction (a : t) (x : string) : t :=
  {| Departure :=
       {| Departure.Direction := x;
          Departure.When := Departure.When (Departure a);
          Departure.PlannedWhen := Departure.PlannedWhen (Departure a);
          Departure.Delay := Departure.Delay (Departure a);
          Departure.Platform := Departure.Platform (Departure a);
          Departure.PlannedPlatform := Departure.PlannedPlatform (Departure a);
          Departure.Line := Departure.Line (Departure a) |};
     Provenance := Provenance a |}.
End arrival.

(** What an operation does and returns: the requests its HTTP client
    was given, in order, and the operation's result or error. *)
Abbreviation outcome A := (list http.Request * (error + A))%type.

(** The decoding of a JSON value into a [Location], which is an
    [Unmarshaler]: the earlier value is overwritten. *)
Definition decodeLocation (old : Location.t) (v : value) : option Location.t :=
  match UnmarshalJSON v with
  | inr loc => Some loc
  | inl _ => None
  end.

Definition Location_zero : Location.t :=
  {| Location.Type_ := ""; Location.ID := ""; Location.Name := "";
     Location.Address := ""; Location.Latitude := S754_zero false;
     Location.Longitude := S754_zero false; Location.Distance := 0 |}.

Definition addTransportTypeParams (q : url.Values) (transportTypes : Z)
  : url.Values :=
  let q := url.Values_Set q "suburban"
             (strconv.FormatBool (has transportTypes SuburbanTrain)) in
  let q := url.Values_Set q "subway"
             (strconv.FormatBool (has transportTypes Subway)) in
  let q := url.Values_Set q "tram"
             (strconv.FormatBool (has transportTypes Tram)) in
  let q := url.Values_Set q "bus"
             (strconv.FormatBool (has transportTypes Bus)) in
  let q := url.Values_Set q "ferry"
             (strconv.FormatBool (has transportTypes Ferry)) in
  let q := url.Values_Set q "express"
             (strconv.FormatBool (has transportTypes ExpressTrain)) in
  let q := url.Values_Set q "regional"
             (strconv.FormatBool (has transportTypes RegionalTrain)) in
  q.

(** The loop of [Arrivals] over the decoded records, from
    [var arrivals []Departure]. *)
Definition Arrivals_loop (res_Arrivals : list arrival.t) : list Departure.t :=
  fold_left
    (fun arrivals a =>
       let a :=
         if String.eqb (Departure.Direction (arrival.Departure a)) ""
         then arrival.set_Direction a (arrival.Provenance a)
         else a in
       (arrivals ++ [arrival.Departure a])%list)
    res_Arrivals [].

Section Operations.

(** The verdict of [url.Parse] on a URL. *)
Variable Parse : string -> option error.
(** [strconv.FormatFloat(x, 'f', -1, 64)]: the shortest decimal text
    that reads back as [x]. *)
Variable FormatFloat_shortest : float64 -> string.
(** The zero values and the decoding of a JSON value into a value of the
    two struct types, by the decoder's reflection. *)
Variable Departure_zero : Departure.t.
Variable decodeDeparture : Departure.t -> value -> option Departure.t.
Variable arrival_zero : arrival.t.
Variable decodeArrival : arrival.t -> value -> option arrival.t.

Definition sendRequest (cl : Client) (method url : string)
  : outcome (option value) :=
  match http.NewRequest Parse method (endpoint cl ++ url) with
  | inl err => ([], inl (Errorf ("failed to create request to " ++ url) err))
  | inr req =>
      match http.Do (c cl) req with
      | inl err =>
          ([req], inl (Errorf ("failed to execute request to " ++ url) err))
      | inr resp => ([req], inr (http.Body resp))
      end
  end.

(** The [url.Values] that [Locations] fills. *)
Definition Locations_q (query : string) (locType : Z) (resultsNum : Z)
  : url.Values :=
  let q : url.Values := ∅ in
  let q := url.Values_Set q "results" (strconv.Itoa resultsNum) in
  let q := url.Values_Set q "query" query in
  let q := url.Values_Set q "pretty" "false" in
  let q := url.Values_Set q "fuzzy" "false" in
  let q := url.Values_Set q "stops"
             (strconv.FormatBool (has locType LocationTypeStop)) in
  let q := url.Values_Set q "addresss"
             (strconv.FormatBool (has locType LocationTypeAddress)) in
  let q := url.Values_Set q "poi"
             (strconv.FormatBool (has locType LocationTypePOI)) in
  q.

(** Locations returns first resultsNum locations matching the query *)
Definition Locations (cl : Client) (query : string) (locType : Z)
  (resultsNum : Z) : outcome (list Location.t) :=
  let q := Locations_q query locType resultsNum in
  let '(reqs, r) :=
    sendRequest cl http.MethodGet ("/locations?" ++ url.Values_Encode q) in
  match r with
  | inl err => (reqs, inl (Errorf "failed to retrieve locations" err))
  | inr data =>
      match Decode (decode_slice Location_zero decodeLocation []) data with
      | None => (reqs, inl (Errorf "failed to decode response" JSONError))
      | Some results => (reqs, inr results)
      end
  end.

(** The [url.Values] that [StopsNearby] fills. *)
Definition StopsNearby_q (lat lng : float64) (distance resultsNum : Z)
  : url.Values :=
  let q : url.Values := ∅ in
  let q := url.Values_Set q "results" (strconv.Itoa resultsNum) in
  let q := url.Values_Set q "latitude" (FormatFloat_shortest lat) in
  let q := url.Values_Set q "longitude" (FormatFloat_shortest lng) in
  let q := url.Values_Set q "distance" (strconv.Itoa distance) in
  let q := url.Values_Set q "pretty" "false" in
  q.

(** StopsNearby returns resultsNum stops within distance meters of
    walking from given location *)
Definition StopsNearby (cl : Client) (lat lng : float64)
  (distance resultsNum : Z) : outcome (list Location.t) :=
  let q := StopsNearby_q lat lng distance resultsNum in
  let '(reqs, r) :=
    sendRequest cl http.MethodGet
      ("/locations/nearby?" ++ url.Values_Encode q) in
  match r with
  | inl err => (reqs, inl (Errorf "failed to retrieve stops nearby" err))
  | inr data =>
      match Decode (decode_slice Location_zero decodeLocation []) data with
      | None => (reqs, inl (Errorf "failed to decode response" JSONError))
      | Some results => (reqs, inr results)
      end
  end.

(** The [url.Values] that [Departures] fills, and [Arrivals] the same
    way. *)
Definition Departures_q (when : time.Time) (duration : time.Duration)
  (transportTypes : Z) : url.Values :=
  let q := addTransportTypeParams ∅ transportTypes in
  let q := url.Values_Set q "when" (time.Format when time.layout_NumTZ) in
  let q := url.Values_Set q "duration"
             (strconv.Itoa (int_of_float64 (time.Minutes duration))) in
  let q := url.Values_Set q "pretty" "false" in
  q.

Definition Arrivals_q (when : time.Time) (duration : time.Duration)
  (transportTypes : Z) : url.Values :=
  let q := addTransportTypeParams ∅ transportTypes in
  let q := url.Values_Set q "when" (time.Format when time.layout_NumTZ) in
  let q := url.Values_Set q "duration"
             (strconv.Itoa (int_of_float64 (time.Minutes duration))) in
  let q := url.Values_Set q "pretty" "false" in
  q.

(** Departures returns a list of departures for the stop at given time *)
Definition Departures (cl : Client) (stopID : string) (when : time.Time)
  (duration : time.Duration) (transportTypes : Z)
  : outcome (list Departure.t) :=
  let q := Departures_q when duration transportTypes in
  let '(reqs, r) :=
    sendRequest cl http.MethodGet
      ("/stops/" ++ stopID ++ "/departures?" ++ url.Values_Encode q) in
  match r with
  | inl err =>
      (reqs, inl (Errorf ("failed to retrieve departures for " ++ stopID) err))
  | inr data =>
      match Decode (decode_struct1 Departure_zero decodeDeparture "Departures")
              data with
      | None => (reqs, inl (Errorf "failed to decode response" JSONError))
      | Some res_Departures => (reqs, inr res_Departures)
      end
  end.

(** Arrivals returns a list of arrivals for the stop at given time *)
Definition Arrivals (cl : Client) (stopID : string) (when : time.Time)
  (duration : time.Duration) (transportTypes : Z)
  : outcome (list Departure.t) :=
  let q := Arrivals_q when duration transportTypes in
  let '(reqs, r) :=
    sendRequest cl http.MethodGet
      ("/stops/" ++ stopID ++ "/arrivals?" ++ url.Values_Encode q) in
  match r with
  | inl err =>
      (reqs, inl (Errorf ("failed to retrieve arrivals for " ++ stopID) err))
  | inr data =>
      match Decode (decode_struct1 arrival_zero decodeArrival "Arrivals")
              data with
      | None => (reqs, inl (Errorf "failed to decode response" JSONError))
      | Some res_Arrivals => (reqs, inr (Arrivals_loop res_Arrivals))
      end
  end.

End Operations.

End V6.

(** ** Generation A: the decoder at type Location

    [json.Unmarshal] into a [Location] of generation A, a struct of four
    string fields without tags: the members of an object are stored in
    order, each in the field its key names, a member that names no field
    is skipped; [null] leaves the value as it is; anything else is an
    [UnmarshalTypeError]. *)

Module Location5.

Import json.

(** One member of an object stored in a [Location]. *)
Definition store (l : V5.Location.t) (kv : string * value)
  : option V5.Location.t :=
  let '(k, v) := kv in
  let '(V5.Location.Build_t ty id name addr) := l in
  if names k "Type" then
    x ← store_string ty v; Some (V5.Location.Build_t x id name addr)
  else if names k "ID" then
    x ← store_string id v; Some (V5.Location.Build_t ty x name addr)
  else if names k "Name" then
    x ← store_string name v; Some (V5.Location.Build_t ty id x addr)
  else if names k "Address" then
    x ← store_string addr v; Some (V5.Location.Build_t ty id name x)
  else Some l.

Definition decode (old : V5.Location.t) (v : value) : option V5.Location.t :=
  match v with
  | JNull => Some old
  | JObject members =>
      fold_left (fun acc kv => l ← acc; store l kv) members (Some old)
  | _ => None
  end.

End Location5.

(** ** Vocabulary of the statements *)

(** What the loop of [Arrivals] makes of one record. *)
Definition exposed (a : V6.arrival.t) : V6.Departure.t :=
  V6.arrival.Departure
    (if String.eqb (V6.Departure.Direction (V6.arrival.Departure a)) ""
     then V6.arrival.set_Direction a (V6.arrival.Provenance a)
     else a).

(** The one request that an operation makes is a GET of [u], unless
    [url.Parse] rejects [u] and no request is made. *)
Definition asks {A : Type} (Parse : string -> option error)
  (o : list http.Request * A) (u : string) : Prop :=
  fst o = match Parse u with
          | None => [{| http.Method := "GET"; http.URL := u |}]
          | Some _ => []
          end.



(** The number of whole minutes nearest to [d] nanoseconds, for [d] not
    negative; a half goes to the even number. *)
Definition nearest_minute (d : Z) : Z :=
  let q := d / time.Minute in
  let r := d mod time.Minute in
  if (time.Minute <? 2 * r) || ((2 * r =? time.Minute) && Z.odd q)
  then q + 1 else q.

(** Every byte of [s] satisfies [P]. *)
Fixpoint all_bytes (P : ascii -> bool) (s : string) : bool :=
  match s with
  | EmptyString => true
  | String c s' => P c && all_bytes P s'
  end.

(** The number of bytes [c] in [s]. *)
Fixpoint occurrences (c : ascii) (s : string) : nat :=
  match s with
  | EmptyString => O
  | String c' s' => ((if Ascii.eqb c' c then 1 else 0) + occurrences c s')%nat
  end.

(** The bytes that [url.QueryEscape] keeps, and the bytes that it
    writes: the ones it keeps, and the [%] and [+] of its escapes. *)
Definition unreserved (c : ascii) : bool := negb (url.shouldEscape c).

Definition query_byte (c : ascii) : bool :=
  unreserved c || Ascii.eqb c "%" || Ascii.eqb c "+".



(** The key names one of the eight fields of [hafasLocation]. *)
Definition names_field (k : string) : bool :=
  existsb (json.names k)
    ["Type"; "ID"; "Name"; "Address"; "Location"; "Latitude"; "Longitude"; "POI"].

(** A JSON value that a string field takes: a string, or [null]. *)
Definition is_text (v : json.value) : bool :=
  match v with
  | json.JString _ | json.JNull => true
  | _ => false
  end.



(** A [hafasLocation] with its field [POI] cleared, and two results of
    the decoder that are the same failure, or values that differ in the
    field [POI] at most. *)
Definition forget_POI (h : V6.hafasLocation.t) : V6.hafasLocation.t :=
  {| V6.hafasLocation.Type_ := V6.hafasLocation.Type_ h;
     V6.hafasLocation.ID := V6.hafasLocation.ID h;
     V6.hafasLocation.Name := V6.hafasLocation.Name h;
     V6.hafasLocation.Address := V6.hafasLocation.Address h;
     V6.hafasLocation.Location := V6.hafasLocation.Location h;
     V6.hafasLocation.Latitude := V6.hafasLocation.Latitude h;
     V6.hafasLocation.Longitude := V6.hafasLocation.Longitude h;
     V6.hafasLocation.POI := false |}.

Definition same_but_POI (o1 o2 : option V6.hafasLocation.t) : Prop :=
  match o1, o2 with
  | Some h1, Some h2 => forget_POI h1 = forget_POI h2
  | None, None => True
  | _, _ => False
  end.

(** ** Sample inputs *)

Module sample.

Import json.

(** Every URL is accepted. *)
Definition Parse (u : string) : option error := None.

(** The coordinates of the samples are whole numbers, whose shortest
    text is the number with no decimals. *)
Definition FormatFloat_shortest (f : float64) : string :=
  strconv.FormatFloat_f_0 f.


Definition cet : time.Time :=
  {| time.year := 2024; time.month := 1; time.day := 2; time.hour := 15;
     time.minute := 4; time.second := 5; time.offset := 3600 |}.

Definition time_zero : time.Time :=
  {| time.year := 1; time.month := 1; time.day := 1; time.hour := 0;
     time.minute := 0; time.second := 0; time.offset := 0 |}.

(** The text member [key] of an object stored in a string field. *)
Definition text (key old : string) (members : list (string * value))
  : option string :=
  store_string old (default JNull (member key members)).

(** Decoders that read the text members the samples have. *)
Definition decodeLocation5 (old : V5.Location.t) (v : value)
  : option V5.Location.t :=
  match v with
  | JNull => Some old
  | JObject ms =>
      ty ← text "type" (V5.Location.Type_ old) ms;
      id ← text "id" (V5.Location.ID old) ms;
      name ← text "name" (V5.Location.Name old) ms;
      addr ← text "address" (V5.Location.Address old) ms;
      Some {| V5.Location.Type_ := ty; V5.Location.ID := id;
              V5.Location.Name := name; V5.Location.Address := addr |}
  | _ => None
  end.

Definition Departure_zero5 : V5.Departure.t :=
  {| V5.Departure.Direction := ""; V5.Departure.When := time_zero;
     V5.Departure.PlannedWhen := time_zero; V5.Departure.Delay := 0;
     V5.Departure.Platform := 0; V5.Departure.PlannedPlatform := 0;
     V5.Departure.Line := V5.Line.zero |}.

Definition decodeDeparture5 (old : V5.Departure.t) (v : value)
  : option V5.Departure.t :=
  match v with
  | JNull => Some old
  | JObject ms =>
      dir ← text "direction" (V5.Departure.Direction old) ms;
      Some {| V5.Departure.Direction := dir;
              V5.Departure.When := V5.Departure.When old;
              V5.Departure.PlannedWhen := V5.Departure.PlannedWhen old;
              V5.Departure.Delay := V5.Departure.Delay old;
              V5.Departure.Platform := V5.Departure.Platform old;
              V5.Departure.PlannedPlatform := V5.Departure.PlannedPlatform old;
              V5.Departure.Line := V5.Departure.Line old |}
  | _ => None
  end.

Definition Departure_zero : V6.Departure.t :=
  {| V6.Departure.Direction := ""; V6.Departure.When := time_zero;
     V6.Departure.PlannedWhen := time_zero; V6.Departure.Delay := 0;
     V6.Departure.Platform := ""; V6.Departure.PlannedPlatform := "";
     V6.Departure.Line := {| V6.Line.Name := ""; V6.Line.Product := "" |} |}.

Definition decodeDeparture (old : V6.Departure.t) (v : value)
  : option V6.Departure.t :=
  match v with
  | JNull => Some old
  | JObject ms =>
      dir ← text "direction" (V6.Departure.Direction old) ms;
      platform ← text "platform" (V6.Departure.Platform old) ms;
      Some {| V6.Departure.Direction := dir;
              V6.Departure.When := V6.Departure.When old;
              V6.Departure.PlannedWhen := V6.Departure.PlannedWhen old;
              V6.Departure.Delay := V6.Departure.Delay old;
              V6.Departure.Platform := platform;
              V6.Departure.PlannedPlatform := V6.Departure.PlannedPlatform old;
              V6.Departure.Line := V6.Departure.Line old |}
  | _ => None
  end.

Definition arrival_zero : V6.arrival.t :=
  {| V6.arrival.Departure := Departure_zero; V6.arrival.Provenance := "" |}.

Definition decodeArrival (old : V6.arrival.t) (v : value)
  : option V6.arrival.t :=
  match v with
  | JNull => Some old
  | JObject ms =>
      d ← decodeDeparture (V6.arrival.Departure old) v;
      prov ← text "provenance" (V6.arrival.Provenance old) ms;
      Some {| V6.arrival.Departure := d; V6.arrival.Provenance := prov |}
  | _ => None
  end.

(** A stop, an address, and a stop whose latitude is not a number. *)
Definition stop : V6.Location.t :=
  {| V6.Location.Type_ := "stop"; V6.Location.ID := "900100001";
     V6.Location.Name := "S+U Friedrichstr."; V6.Location.Address := "";
     V6.Location.Latitude := float64_of_int 52;
     V6.Location.Longitude := float64_of_int 13; V6.Location.Distance := 0 |}.

Definition address : V6.Location.t :=
  {| V6.Location.Type_ := "address"; V6.Location.ID := "";
     V6.Location.Name := ""; V6.Location.Address := "Unter den Linden 1";
     V6.Location.Latitude := float64_of_int 52;
     V6.Location.Longitude := float64_of_int 13; V6.Location.Distance := 0 |}.

Definition stop_nan : V6.Location.t :=
  {| V6.Location.Type_ := "stop"; V6.Location.ID := "900100001";
     V6.Location.Name := "S+U Friedrichstr."; V6.Location.Address := "";
     V6.Location.Latitude := S754_nan;
     V6.Location.Longitude := float64_of_int 13; V6.Location.Distance := 0 |}.

(** A stop whose identifier is the one byte FF, which is not valid
    UTF-8. *)
Definition stop_ff : V6.Location.t :=
  {| V6.Location.Type_ := "stop";
     V6.Location.ID := String (ascii_of_nat 0xFF) EmptyString;
     V6.Location.Name := "S+U Friedrichstr."; V6.Location.Address := "";
     V6.Location.Latitude := float64_of_int 52;
     V6.Location.Longitude := float64_of_int 13; V6.Location.Distance := 0 |}.

(** The body of a response to Arrivals with two records. *)
Definition arrivals : value :=
  JObject
    [("arrivals",
       JArray
         [JObject [("direction", JString "");
                   ("provenance", JString "Platform 3 area");
                   ("platform", JString "3")];
          JObject [("direction", JString "S Potsdam Hbf");
                   ("provenance", JString "S Ahrensfelde");
                   ("platform", JString "4")]])].

(** The records that [sample.decodeArrival] reads from it. *)
Definition records : list V6.arrival.t :=
  [ {| V6.arrival.Departure :=
         {| V6.Departure.Direction := "";
            V6.Departure.When := time_zero;
            V6.Departure.PlannedWhen := time_zero;
            V6.Departure.Delay := 0;
            V6.Departure.Platform := "3";
            V6.Departure.PlannedPlatform := "";
            V6.Departure.Line := {| V6.Line.Name := ""; V6.Line.Product := "" |} |};
       V6.arrival.Provenance := "Platform 3 area" |};
    {| V6.arrival.Departure :=
         {| V6.Departure.Direction := "S Potsdam Hbf";
            V6.Departure.When := time_zero;
            V6.Departure.PlannedWhen := time_zero;
            V6.Departure.Delay := 0;
            V6.Departure.Platform := "4";
            V6.Departure.PlannedPlatform := "";
            V6.Departure.Line := {| V6.Line.Name := ""; V6.Line.Product := "" |} |};
       V6.arrival.Provenance := "S Ahrensfelde" |} ].

(** Clients of the two generations whose server answers every request
    with the given status and body. *)
Definition client5 (status : Z) (body : value) : V5.Client :=
  {| V5.endpoint := V5.BaseURL; V5.c := http.answering status (Some body) |}.

Definition client (status : Z) (body : value) : V6.Client :=
  {| V6.endpoint := V6.BaseURL; V6.c := http.answering status (Some body) |}.

(** The one rule of [url.Parse] that the samples meet: a URL that starts
    with a colon has no scheme. *)
Definition Parse_scheme (u : string) : option error :=
  match u with
  | String ":" _ => Some (TransportError "missing protocol scheme")
  | _ => None
  end.

(** The body of a response to StopsNearby with one stop, as the service
    writes it. *)
Definition nearby_stop : value :=
  JObject
    [("type", JString "stop"); ("id", JString "900100001");
     ("name", JString "S+U Friedrichstr.");
     ("location",
       JObject [("type", JString "location"); ("id", JString "900100001");
                ("latitude", JNumber (float64_of_int 52));
                ("longitude", JNumber (float64_of_int 13))]);
     ("products", JObject [("suburban", JBool true); ("subway", JBool true)]);
     ("distance", JNumber (float64_of_int 120))].

Definition nearby : value := JArray [nearby_stop].




End sample.

(** * Properties *)

(** ** Transport mode parameters *)

Lemma V6_constants :
  [V6.SuburbanTrain; V6.Subway; V6.Tram; V6.Bus; V6.Ferry; V6.ExpressTrain;
   V6.RegionalTrain; V6.UrbanTransport; V6.AllTransport]
  = [2; 3; 5; 9; 17; 33; 65; 95; 127].
Proof. reflexivity. Qed.

Lemma V5_constants :
  [V5.SuburbanTrain; V5.Subway; V5.Tram; V5.Bus; V5.Ferry; V5.ExpressTrain;
   V5.RegionalTrain; V5.UrbanTransport; V5.AllTransport]
  = [2; 3; 5; 9; 17; 33; 65; 95; 127].
Proof. reflexivity. Qed.

Ltac unfold_q :=
  unfold V6.Departures_q, V6.Arrivals_q, V6.addTransportTypeParams,
    V5.Departures_q, V5.Arrivals_q, url.Values_Set.

(** The seven mode parameters, and only they, are set by
    [addTransportTypeParams], each to the text of [transportTypes&mode != 0]. *)
Lemma addTransportTypeParams_dom (t : Z) :
  dom (V6.addTransportTypeParams ∅ t)
  = ({["suburban"; "subway"; "tram"; "bus"; "ferry"; "express"; "regional"]}
      : gset string).
Proof. unfold_q. rewrite !dom_insert_L, dom_empty_L. set_solver. Qed.

Lemma addTransportTypeParams_lookup (t : Z) :
  let q := V6.addTransportTypeParams ∅ t in
  q !! "suburban" = Some [strconv.FormatBool (V6.has t V6.SuburbanTrain)]
  /\ q !! "subway" = Some [strconv.FormatBool (V6.has t V6.Subway)]
  /\ q !! "tram" = Some [strconv.FormatBool (V6.has t V6.Tram)]
  /\ q !! "bus" = Some [strconv.FormatBool (V6.has t V6.Bus)]
  /\ q !! "ferry" = Some [strconv.FormatBool (V6.has t V6.Ferry)]
  /\ q !! "express" = Some [strconv.FormatBool (V6.has t V6.ExpressTrain)]
  /\ q !! "regional" = Some [strconv.FormatBool (V6.has t V6.RegionalTrain)].
Proof. unfold_q. cbn zeta. repeat split; by simplify_map_eq. Qed.

(** C1, at the input where the code departs from it: with
    [UrbanTransport], the union that leaves [ExpressTrain] out, the
    parameter [express] of [Departures] and of [Arrivals] is ["true"] in
    both generations, because [UrbanTransport & ExpressTrain] is
    [95 & 33 = 1]. A filter of [Subway] alone sets [suburban] and [tram]
    to ["true"] as well. *)
Theorem UrbanTransport_express_is_true :
  V6.has V6.UrbanTransport V6.ExpressTrain = true
  /\ V6.addTransportTypeParams ∅ V6.UrbanTransport !! "express" = Some ["true"]
  /\ (forall when duration,
        V6.Departures_q when duration V6.UrbanTransport !! "express"
        = Some ["true"]
        /\ V6.Arrivals_q when duration V6.UrbanTransport !! "express"
           = Some ["true"]
        /\ V5.Departures_q when duration V5.UrbanTransport !! "express"
           = Some ["true"]
        /\ V5.Arrivals_q when duration V5.UrbanTransport !! "express"
           = Some ["true"])
  /\ V6.addTransportTypeParams ∅ V6.Subway !! "suburban" = Some ["true"]
  /\ V6.addTransportTypeParams ∅ V6.Subway !! "tram" = Some ["true"].
Proof.
  split; [reflexivity|]. split; [by vm_compute|].
  split; [|split; by vm_compute].
  intros when duration. unfold_q. cbn zeta.
  repeat split; by simplify_map_eq.
Qed.

(** ** Strings *)

Lemma string_app_assoc (a b c : string) : (a ++ b) ++ c = a ++ (b ++ c).
Proof.
  induction a as [|x a IH]; [reflexivity|].
  exact (f_equal (String x) IH).
Qed.

Lemma contains_app c (a b : string) :
  url.contains c (a ++ b) = url.contains c a || url.contains c b.
Proof.
  induction a as [|x a IH]; simpl; [reflexivity|].
  rewrite IH. apply orb_assoc.
Qed.

Lemma Cut_app sep (a b : string) :
  url.contains sep a = false ->
  url.Cut (a ++ String sep b) sep = (a, b, true).
Proof.
  induction a as [|x a IH]; simpl; intros H.
  - by rewrite Ascii.eqb_refl.
  - apply orb_false_iff in H as [Hx Ha]. rewrite Hx, (IH Ha). reflexivity.
Qed.

Lemma Cut_none sep (a : string) :
  url.contains sep a = false -> url.Cut a sep = (a, "", false).
Proof.
  induction a as [|x a IH]; simpl; intros H; [reflexivity|].
  apply orb_false_iff in H as [Hx Ha]. rewrite Hx, (IH Ha). reflexivity.
Qed.

(** ** Generation A: the request of Departures and Arrivals *)

Section V5_requests.

Variable Parse : string -> option error.
Variable Departure_zero : V5.Departure.t.
Variable decodeDeparture : V5.Departure.t -> json.value -> option V5.Departure.t.

Local Abbreviation Departures :=
  (V5.Departures Parse Departure_zero decodeDeparture).
Local Abbreviation Arrivals :=
  (V5.Arrivals Parse Departure_zero decodeDeparture).

Lemma V5_sendRequest_requests cl method u :
  fst (V5.sendRequest Parse cl method u)
  = match Parse (V5.endpoint cl ++ u) with
    | None => [{| http.Method := method; http.URL := V5.endpoint cl ++ u |}]
    | Some _ => []
    end.
Proof.
  unfold V5.sendRequest, http.NewRequest.
  destruct (Parse _); [reflexivity|].
  by destruct (http.Do _ _).
Qed.

Lemma V5_Departures_requests cl stopID when duration tt :
  fst (Departures cl stopID when duration tt)
  = fst (V5.sendRequest Parse cl http.MethodGet ("/stops/" ++ stopID ++ "/departures")).
Proof.
  unfold V5.Departures.
  destruct (V5.sendRequest _ _ _ _) as [reqs [err|data]]; [reflexivity|].
  by destruct (json.Decode _ _).
Qed.

Lemma V5_Arrivals_requests cl stopID when duration tt :
  fst (Arrivals cl stopID when duration tt)
  = fst (V5.sendRequest Parse cl http.MethodGet ("/stops/" ++ stopID ++ "/arrivals")).
Proof.
  unfold V5.Arrivals.
  destruct (V5.sendRequest _ _ _ _) as [reqs [err|data]]; [reflexivity|].
  by destruct (json.Decode _ _).
Qed.

Lemma V5_query_dom when duration tt :
  dom (V5.Departures_q when duration tt)
  = ({["when"; "duration"; "pretty"; "suburban"; "subway"; "tram"; "bus";
       "ferry"; "express"; "regional"]} : gset string)
  /\ dom (V5.Arrivals_q when duration tt)
     = ({["when"; "duration"; "pretty"; "suburban"; "subway"; "tram"; "bus";
          "ferry"; "express"; "regional"]} : gset string).
Proof. unfold_q. rewrite !dom_insert_L, dom_empty_L. set_solver. Qed.

Lemma V5_query_values when duration tt q :
  q = V5.Departures_q when duration tt \/ q = V5.Arrivals_q when duration tt ->
  q !! "when" = Some [time.Format when time.RFC3339]
  /\ q !! "duration" = Some [strconv.FormatFloat_f_0 (time.Minutes duration)]
  /\ q !! "pretty" = Some ["false"]
  /\ q !! "suburban" = Some [strconv.FormatBool (V5.has tt V5.SuburbanTrain)]
  /\ q !! "subway" = Some [strconv.FormatBool (V5.has tt V5.Subway)]
  /\ q !! "tram" = Some [strconv.FormatBool (V5.has tt V5.Tram)]
  /\ q !! "bus" = Some [strconv.FormatBool (V5.has tt V5.Bus)]
  /\ q !! "ferry" = Some [strconv.FormatBool (V5.has tt V5.Ferry)]
  /\ q !! "express" = Some [strconv.FormatBool (V5.has tt V5.ExpressTrain)]
  /\ q !! "regional" = Some [strconv.FormatBool (V5.has tt V5.RegionalTrain)].
Proof.
  intros [-> | ->]; unfold_q; cbn zeta; repeat split; by simplify_map_eq.
Qed.

(** C3: in generation A, [Departures] and [Arrivals] fill the values
    [q] with the ten parameters: [when] is the time in the layout
    RFC3339, [duration] the minutes of the duration written by
    [FormatFloat], [pretty] is ["false"], and each of the seven modes is
    the text of [transportTypes&mode != 0]. The only request they make
    is a GET of [endpoint + "/stops/" + stopID + "/departures"] (resp.
    ["/arrivals"]): nothing is appended to it, the whole outcome is the
    same for every time, duration and mode filter, and the URL has no
    [?] unless the endpoint or the stop identifier has one. *)
Theorem V5_query_never_sent cl stopID when duration tt :
  let dep := V5.endpoint cl ++ "/stops/" ++ stopID ++ "/departures" in
  let arr := V5.endpoint cl ++ "/stops/" ++ stopID ++ "/arrivals" in
  (dom (V5.Departures_q when duration tt)
   = ({["when"; "duration"; "pretty"; "suburban"; "subway"; "tram"; "bus";
        "ferry"; "express"; "regional"]} : gset string)
   /\ dom (V5.Arrivals_q when duration tt)
      = dom (V5.Departures_q when duration tt))
  /\ (forall q,
        q = V5.Departures_q when duration tt
        \/ q = V5.Arrivals_q when duration tt ->
        q !! "when" = Some [time.Format when time.RFC3339]
        /\ q !! "duration"
           = Some [strconv.FormatFloat_f_0 (time.Minutes duration)]
        /\ q !! "pretty" = Some ["false"]
        /\ q !! "suburban" = Some [strconv.FormatBool (V5.has tt V5.SuburbanTrain)]
        /\ q !! "subway" = Some [strconv.FormatBool (V5.has tt V5.Subway)]
        /\ q !! "tram" = Some [strconv.FormatBool (V5.has tt V5.Tram)]
        /\ q !! "bus" = Some [strconv.FormatBool (V5.has tt V5.Bus)]
        /\ q !! "ferry" = Some [strconv.FormatBool (V5.has tt V5.Ferry)]
        /\ q !! "express" = Some [strconv.FormatBool (V5.has tt V5.ExpressTrain)]
        /\ q !! "regional"
           = Some [strconv.FormatBool (V5.has tt V5.RegionalTrain)])
  /\ fst (Departures cl stopID when duration tt)
     = match Parse dep with
       | None => [{| http.Method := "GET"; http.URL := dep |}]
       | Some _ => []
       end
  /\ fst (Arrivals cl stopID when duration tt)
     = match Parse arr with
       | None => [{| http.Method := "GET"; http.URL := arr |}]
       | Some _ => []
       end
  /\ (forall when' duration' tt',
        Departures cl stopID when' duration' tt'
        = Departures cl stopID when duration tt
        /\ Arrivals cl stopID when' duration' tt'
           = Arrivals cl stopID when duration tt)
  /\ (url.contains "?" (V5.endpoint cl) = false ->
      url.contains "?" stopID = false ->
      url.contains "?" dep = false /\ url.contains "?" arr = false).
Proof.
  intros dep arr. split; [|split; [|split; [|split; [|split]]]].
  - destruct (V5_query_dom when duration tt) as [-> ->]. done.
  - apply V5_query_values.
  - rewrite V5_Departures_requests. apply V5_sendRequest_requests.
  - rewrite V5_Arrivals_requests. apply V5_sendRequest_requests.
  - done.
  - intros He Hs. subst dep arr. rewrite !contains_app, He, Hs. done.
Qed.

End V5_requests.

(** ** Generation B: the records of Arrivals *)

Lemma Arrivals_loop_from (recs : list V6.arrival.t) (acc : list V6.Departure.t) :
  fold_left
    (fun arrivals a =>
       let a :=
         if String.eqb (V6.Departure.Direction (V6.arrival.Departure a)) ""
         then V6.arrival.set_Direction a (V6.arrival.Provenance a)
         else a in
       (arrivals ++ [V6.arrival.Departure a])%list)
    recs acc
  = (acc ++ map exposed recs)%list.
Proof.
  revert acc. induction recs as [|a recs IH]; intros acc; simpl.
  - by rewrite app_nil_r.
  - rewrite IH, <- app_assoc. reflexivity.
Qed.

Lemma Arrivals_loop_map (recs : list V6.arrival.t) :
  V6.Arrivals_loop recs = map exposed recs.
Proof. unfold V6.Arrivals_loop. by rewrite Arrivals_loop_from. Qed.

Section V6_arrivals.

Variable Parse : string -> option error.
Variable arrival_zero : V6.arrival.t.
Variable decodeArrival : V6.arrival.t -> json.value -> option V6.arrival.t.

Local Abbreviation Arrivals := (V6.Arrivals Parse arrival_zero decodeArrival).

Lemma Arrivals_result cl stopID when duration tt data recs :
  snd (V6.sendRequest Parse cl http.MethodGet
         ("/stops/" ++ stopID ++ "/arrivals?"
            ++ url.Values_Encode (V6.Arrivals_q when duration tt)))
  = inr data ->
  json.Decode (json.decode_struct1 arrival_zero decodeArrival "Arrivals") data
  = Some recs ->
  snd (Arrivals cl stopID when duration tt) = inr (map exposed recs).
Proof.
  intros Hsend Hdec. unfold V6.Arrivals.
  destruct (V6.sendRequest _ _ _ _) as [reqs r]. simpl in Hsend. subst r.
  rewrite Hdec. simpl. by rewrite Arrivals_loop_map.
Qed.

(** C5: every record that [Arrivals] decodes from the body of the
    response to its request is exposed, at its place in
    the result, with the direction of its [Provenance] when its
    [Direction] is empty, and with its own [Direction] (whatever its
    [Provenance]) when it is not. *)
Theorem Arrivals_direction_fallback cl stopID when duration tt data recs :
  snd (V6.sendRequest Parse cl http.MethodGet
         ("/stops/" ++ stopID ++ "/arrivals?"
            ++ url.Values_Encode (V6.Arrivals_q when duration tt)))
  = inr data ->
  json.Decode (json.decode_struct1 arrival_zero decodeArrival "Arrivals") data
  = Some recs ->
  exists ds,
    snd (Arrivals cl stopID when duration tt) = inr ds
    /\ forall i a,
         recs !! i = Some a ->
         exists d,
           ds !! i = Some d
           /\ (V6.Departure.Direction (V6.arrival.Departure a) = "" ->
               V6.Departure.Direction d = V6.arrival.Provenance a)
           /\ (V6.Departure.Direction (V6.arrival.Departure a) <> "" ->
               V6.Departure.Direction d
               = V6.Departure.Direction (V6.arrival.Departure a)).
Proof.
  intros Hsend Hdec. exists (map exposed recs).
  split; [by apply (Arrivals_result _ _ _ _ _ data)|].
  intros i a Hi. exists (exposed a). split.
  - by rewrite list_lookup_fmap, Hi.
  - unfold exposed. split; intros Hd.
    + by rewrite Hd.
    + apply String.eqb_neq in Hd. by rewrite Hd.
Qed.

(** C9: the result of [Arrivals] has as many elements as there are
    records decoded from the body of the response, in the same order, and the element of a record has
    the record's [When], [PlannedWhen], [Delay], [Platform],
    [PlannedPlatform] and [Line]. *)
Theorem Arrivals_frame cl stopID when duration tt data recs :
  snd (V6.sendRequest Parse cl http.MethodGet
         ("/stops/" ++ stopID ++ "/arrivals?"
            ++ url.Values_Encode (V6.Arrivals_q when duration tt)))
  = inr data ->
  json.Decode (json.decode_struct1 arrival_zero decodeArrival "Arrivals") data
  = Some recs ->
  exists ds,
    snd (Arrivals cl stopID when duration tt) = inr ds
    /\ length ds = length recs
    /\ forall i a,
         recs !! i = Some a ->
         exists d,
           ds !! i = Some d
           /\ V6.Departure.When d = V6.Departure.When (V6.arrival.Departure a)
           /\ V6.Departure.PlannedWhen d
              = V6.Departure.PlannedWhen (V6.arrival.Departure a)
           /\ V6.Departure.Delay d = V6.Departure.Delay (V6.arrival.Departure a)
           /\ V6.Departure.Platform d
              = V6.Departure.Platform (V6.arrival.Departure a)
           /\ V6.Departure.PlannedPlatform d
              = V6.Departure.PlannedPlatform (V6.arrival.Departure a)
           /\ V6.Departure.Line d = V6.Departure.Line (V6.arrival.Departure a).
Proof.
  intros Hsend Hdec. exists (map exposed recs).
  split; [by apply (Arrivals_result _ _ _ _ _ data)|].
  split; [apply length_map|].
  intros i a Hi. exists (exposed a). split.
  - by rewrite list_lookup_fmap, Hi.
  - unfold exposed. by destruct (String.eqb _ _).
Qed.

End V6_arrivals.

(** ** The stop identifier in the request URL *)

Lemma Cut_skip sep (p s : string) :
  url.contains sep p = false ->
  url.Cut (p ++ s) sep
  = (p ++ fst (fst (url.Cut s sep)), snd (fst (url.Cut s sep)), snd (url.Cut s sep)).
Proof.
  induction p as [|x p IH]; simpl; intros H.
  - change ("" ++ s) with s. by destruct (url.Cut s sep) as [[? ?] ?].
  - apply orb_false_iff in H as [Hx Hp]. rewrite Hx, (IH Hp). reflexivity.
Qed.

(** A URL made of a prefix free of [?] and [#], one of the two bytes,
    and any text: [url.Parse] ends the path at the prefix. *)
Lemma Parse_cut_prefix (p rest : string) (sep : ascii) :
  sep = "?"%char \/ sep = "#"%char ->
  url.contains "?" p = false ->
  url.contains "#" p = false ->
  fst (fst (url.Parse_cut (p ++ String sep rest))) = p.
Proof.
  intros Hsep Hq Hh. unfold url.Parse_cut.
  destruct Hsep as [-> | ->].
  - rewrite (Cut_skip "#" p _ Hh).
    destruct (url.Cut (String "?" rest) "#") as [[x y] f] eqn:E.
    simpl in E. destruct (url.Cut rest "#") as [[x' y'] f'].
    injection E as <- <- <-. simpl.
    change (p ++ String "?" x') with (p ++ String "?" x').
    by rewrite (Cut_app "?" p x' Hq).
  - rewrite (Cut_app "#" p rest Hh).
    by rewrite (Cut_none "?" p Hq).
Qed.

Section Requests.

Variable Parse : string -> option error.
Variable Departure_zero5 : V5.Departure.t.
Variable decodeDeparture5 : V5.Departure.t -> json.value -> option V5.Departure.t.
Variable Departure_zero : V6.Departure.t.
Variable decodeDeparture : V6.Departure.t -> json.value -> option V6.Departure.t.
Variable arrival_zero : V6.arrival.t.
Variable decodeArrival : V6.arrival.t -> json.value -> option V6.arrival.t.

Lemma V6_sendRequest_requests cl method u :
  fst (V6.sendRequest Parse cl method u)
  = match Parse (V6.endpoint cl ++ u) with
    | None => [{| http.Method := method; http.URL := V6.endpoint cl ++ u |}]
    | Some _ => []
    end.
Proof.
  unfold V6.sendRequest, http.NewRequest.
  destruct (Parse _); [reflexivity|].
  by destruct (http.Do _ _).
Qed.

Lemma V6_Departures_requests cl stopID when duration tt :
  fst (V6.Departures Parse Departure_zero decodeDeparture cl stopID when duration tt)
  = fst (V6.sendRequest Parse cl http.MethodGet
           ("/stops/" ++ stopID ++ "/departures?"
              ++ url.Values_Encode (V6.Departures_q when duration tt))).
Proof.
  unfold V6.Departures.
  destruct (V6.sendRequest _ _ _ _) as [reqs [err|data]]; [reflexivity|].
  by destruct (json.Decode _ _).
Qed.

Lemma V6_Arrivals_requests cl stopID when duration tt :
  fst (V6.Arrivals Parse arrival_zero decodeArrival cl stopID when duration tt)
  = fst (V6.sendRequest Parse cl http.MethodGet
           ("/stops/" ++ stopID ++ "/arrivals?"
              ++ url.Values_Encode (V6.Arrivals_q when duration tt))).
Proof.
  unfold V6.Arrivals.
  destruct (V6.sendRequest _ _ _ _) as [reqs [err|data]]; [reflexivity|].
  by destruct (json.Decode _ _).
Qed.

(** C10: in both generations the URL of [Departures] and of [Arrivals]
    is the endpoint, ["/stops/"], the stop identifier byte for byte, and
    the rest. So when the stop identifier holds a [?] or a [#] (after
    [a], in an URL free of them so far), the path that [url.Parse] cuts
    off the URL ends at [a] and the rest of the identifier, with
    ["/departures"], goes to the query or the fragment; a [/] in it is
    one more separator of the path. *)
Theorem stopID_spliced_verbatim (cl5 : V5.Client) (cl : V6.Client)
  (stopID : string) (when : time.Time) (duration : time.Duration) (tt : Z) :
  let dep5 := V5.endpoint cl5 ++ "/stops/" ++ stopID ++ "/departures" in
  let arr5 := V5.endpoint cl5 ++ "/stops/" ++ stopID ++ "/arrivals" in
  let dep6 := V6.endpoint cl ++ "/stops/" ++ stopID ++ "/departures?"
                ++ url.Values_Encode (V6.Departures_q when duration tt) in
  let arr6 := V6.endpoint cl ++ "/stops/" ++ stopID ++ "/arrivals?"
                ++ url.Values_Encode (V6.Arrivals_q when duration tt) in
  (asks Parse (V5.Departures Parse Departure_zero5 decodeDeparture5 cl5 stopID when duration tt) dep5
   /\ asks Parse (V5.Arrivals Parse Departure_zero5 decodeDeparture5 cl5 stopID when duration tt) arr5
   /\ asks Parse (V6.Departures Parse Departure_zero decodeDeparture cl stopID when duration tt) dep6
   /\ asks Parse (V6.Arrivals Parse arrival_zero decodeArrival cl stopID when duration tt) arr6)
  /\ (forall (a b : string) (sep : ascii),
        stopID = a ++ String sep b ->
        sep = "?"%char \/ sep = "#"%char ->
        url.contains "?" a = false -> url.contains "#" a = false ->
        (url.contains "?" (V5.endpoint cl5) = false ->
         url.contains "#" (V5.endpoint cl5) = false ->
         fst (fst (url.Parse_cut dep5)) = V5.endpoint cl5 ++ "/stops/" ++ a
         /\ fst (fst (url.Parse_cut arr5)) = V5.endpoint cl5 ++ "/stops/" ++ a)
        /\ (url.contains "?" (V6.endpoint cl) = false ->
            url.contains "#" (V6.endpoint cl) = false ->
            fst (fst (url.Parse_cut dep6)) = V6.endpoint cl ++ "/stops/" ++ a
            /\ fst (fst (url.Parse_cut arr6)) = V6.endpoint cl ++ "/stops/" ++ a))
  /\ (forall a b : string,
        stopID = a ++ String "/" b ->
        dep5 = V5.endpoint cl5 ++ "/stops/" ++ a ++ "/" ++ b ++ "/departures"
        /\ dep6 = V6.endpoint cl ++ "/stops/" ++ a ++ "/" ++ b ++ "/departures?"
                    ++ url.Values_Encode (V6.Departures_q when duration tt)).
Proof.
  intros dep5 arr5 dep6 arr6. split; [|split].
  - unfold asks. repeat split.
    + rewrite V5_Departures_requests. apply V5_sendRequest_requests.
    + rewrite V5_Arrivals_requests. apply V5_sendRequest_requests.
    + rewrite V6_Departures_requests. apply V6_sendRequest_requests.
    + rewrite V6_Arrivals_requests. apply V6_sendRequest_requests.
  - intros a b sep -> Hsep Hq Hh.
    assert (Hcut : forall e tail : string,
               url.contains "?" e = false -> url.contains "#" e = false ->
               fst (fst (url.Parse_cut (e ++ "/stops/" ++ (a ++ String sep b) ++ tail)))
               = e ++ "/stops/" ++ a).
    { intros e tail He1 He2.
      replace (e ++ "/stops/" ++ (a ++ String sep b) ++ tail)
        with ((e ++ "/stops/" ++ a) ++ String sep (b ++ tail)).
      - apply Parse_cut_prefix; [done|..]; by rewrite !contains_app, ?He1, ?He2, ?Hq, ?Hh.
      - rewrite !string_app_assoc. reflexivity. }
    split; intros He1 He2; split; apply Hcut; done.
  - intros a b ->. subst dep5 dep6.
    rewrite !string_app_assoc. done.
Qed.

End Requests.

(** ** Responses: status, body and errors *)

Section Responses.

Variable Parse : string -> option error.
Variable FormatFloat_shortest : float64 -> string.
Variable Departure_zero5 : V5.Departure.t.
Variable decodeLocation5 : V5.Location.t -> json.value -> option V5.Location.t.
Variable decodeDeparture5 : V5.Departure.t -> json.value -> option V5.Departure.t.
Variable Departure_zero : V6.Departure.t.
Variable decodeDeparture : V6.Departure.t -> json.value -> option V6.Departure.t.
Variable arrival_zero : V6.arrival.t.
Variable decodeArrival : V6.arrival.t -> json.value -> option V6.arrival.t.

Local Abbreviation Locations5 := (V5.Locations Parse decodeLocation5).
Local Abbreviation StopsNearby5 :=
  (V5.StopsNearby Parse FormatFloat_shortest decodeLocation5).
Local Abbreviation Departures5 :=
  (V5.Departures Parse Departure_zero5 decodeDeparture5).
Local Abbreviation Arrivals5 :=
  (V5.Arrivals Parse Departure_zero5 decodeDeparture5).
Local Abbreviation Locations6 := (V6.Locations Parse).
Local Abbreviation StopsNearby6 := (V6.StopsNearby Parse FormatFloat_shortest).
Local Abbreviation Departures6 :=
  (V6.Departures Parse Departure_zero decodeDeparture).
Local Abbreviation Arrivals6 := (V6.Arrivals Parse arrival_zero decodeArrival).










End Responses.

(** ** Generation B: the JSON form of a Location *)

Lemma encode_float64_finite f :
  float64_finite f = true -> json.encode_float64 f = Some (json.JNumber f).
Proof. unfold json.encode_float64. by intros ->. Qed.

(** *** The strings that the encoder writes

    A string that is valid UTF-8 is written as it is; what is written
    is valid UTF-8; and a string whose written form is ASCII is that
    form. *)

Lemma appendString_valid_from k s :
  utf8.ValidString_from k s = true -> json.appendString_from k s = s.
Proof.
  revert k. induction s as [|b s IH]; intros k; [reflexivity|].
  cbn [utf8.ValidString_from json.appendString_from].
  destruct k as [|k].
  - destruct (utf8.DecodeRuneInString (String b s)) as [sz|]; [|discriminate].
    intros H. by rewrite (IH _ H).
  - intros H. by rewrite (IH _ H).
Qed.

Lemma appendString_valid s :
  utf8.ValidString s = true -> json.appendString s = s.
Proof. apply appendString_valid_from. Qed.

Lemma appendString_ascii_from k s :
  all_bytes (fun c => utf8.byte c <? 0x80) (json.appendString_from k s) = true ->
  json.appendString_from k s = s.
Proof.
  revert k. induction s as [|b s IH]; intros k; [reflexivity|].
  cbn [json.appendString_from].
  destruct k as [|k].
  - destruct (utf8.DecodeRuneInString (String b s)) as [sz|].
    + cbn [all_bytes]. intros [_ H]%andb_true_iff. by rewrite (IH _ H).
    + discriminate.
  - cbn [all_bytes]. intros [_ H]%andb_true_iff. by rewrite (IH _ H).
Qed.

(** The bytes of a rune found valid are the same after they are
    written. *)
Lemma DecodeRuneInString_copied b s sz :
  utf8.DecodeRuneInString (String b s) = Some sz ->
  utf8.DecodeRuneInString (String b (json.appendString_from (sz - 1) s)) = Some sz.
Proof.
  unfold utf8.DecodeRuneInString.
  destruct (utf8.byte b <? 128); [done|].
  destruct (utf8.first (utf8.byte b)) as [[[n lo] hi]|]; [|done].
  destruct s as [|s1 [|s2 [|s3 s]]]; try done.
  - destruct (negb (utf8.accepts lo hi s1)) eqn:E1; [done|].
    destruct (n <=? 2)%nat eqn:E2; [|done].
    intros [= <-]. cbn [Nat.sub json.appendString_from]. by rewrite ?E1.
  - destruct (negb (utf8.accepts lo hi s1)) eqn:E1; [done|].
    destruct (n <=? 2)%nat eqn:E2.
    { intros [= <-]. cbn [Nat.sub json.appendString_from]. by rewrite ?E1. }
    destruct (negb (utf8.accepts 128 191 s2)) eqn:E3; [done|].
    destruct (n <=? 3)%nat eqn:E4; [|done].
    intros [= <-]. cbn [Nat.sub json.appendString_from]. by rewrite ?E1, ?E3.
  - destruct (negb (utf8.accepts lo hi s1)) eqn:E1; [done|].
    destruct (n <=? 2)%nat eqn:E2.
    { intros [= <-]. cbn [Nat.sub json.appendString_from]. by rewrite ?E1. }
    destruct (negb (utf8.accepts 128 191 s2)) eqn:E3; [done|].
    destruct (n <=? 3)%nat eqn:E4.
    { intros [= <-]. cbn [Nat.sub json.appendString_from]. by rewrite ?E1, ?E3. }
    destruct (negb (utf8.accepts 128 191 s3)) eqn:E5; [done|].
    intros [= <-]. cbn [Nat.sub json.appendString_from]. by rewrite ?E1, ?E3, ?E5.
Qed.

Lemma appendString_from_is_valid k s :
  utf8.ValidString_from k (json.appendString_from k s) = true.
Proof.
  revert k. induction s as [|b s IH]; intros k; [reflexivity|].
  cbn [json.appendString_from].
  destruct k as [|k].
  - destruct (utf8.DecodeRuneInString (String b s)) as [sz|] eqn:E.
    + cbn [utf8.ValidString_from].
      rewrite (DecodeRuneInString_copied b s sz E). apply IH.
    + change (utf8.ValidString_from 0 (json.appendString_from 0 s) = true).
      apply IH.
  - cbn [utf8.ValidString_from]. apply IH.
Qed.

Lemma appendString_is_valid s : utf8.ValidString (json.appendString s) = true.
Proof. apply appendString_from_is_valid. Qed.

Lemma appendString_idempotent s :
  json.appendString (json.appendString s) = json.appendString s.
Proof. apply appendString_valid, appendString_is_valid. Qed.

(** A comparison with an ASCII text gives the same before and after
    the string is written. *)
Lemma appendString_eqb s t :
  all_bytes (fun c => utf8.byte c <? 0x80) t = true ->
  String.eqb (json.appendString s) t = String.eqb s t.
Proof.
  intros Ht.
  assert (Et : json.appendString t = t).
  { apply appendString_valid. unfold utf8.ValidString. clear -Ht.
    induction t as [|c t IH]; [reflexivity|].
    cbn [all_bytes] in Ht. apply andb_true_iff in Ht as [Hc Ht].
    cbn [utf8.ValidString_from utf8.DecodeRuneInString].
    rewrite Hc. by apply IH. }
  destruct (String.eqb_spec s t) as [->|Hne].
  - rewrite Et. apply String.eqb_refl.
  - apply String.eqb_neq. intros E. apply Hne.
    rewrite <- E in Ht. rewrite <- (appendString_ascii_from 0 s Ht). exact E.
Qed.

(** What [MarshalJSON] writes for a location that is not a stop: no
    member [Location]; the member [POI] when the kind is ["poi"]. *)
Lemma MarshalJSON_not_stop (loc : V6.Location.t) :
  String.eqb (V6.Location.Type_ loc) "stop" = false ->
  V6.MarshalJSON loc
  = inr (json.JObject
           ([("Type", json.JString (json.appendString (V6.Location.Type_ loc)));
             ("ID", json.JString (json.appendString (V6.Location.ID loc)));
             ("Name", json.JString (json.appendString (V6.Location.Name loc)))]
            ++ (if String.eqb (V6.Location.Address loc) "" then []
                else [("Address",
                       json.JString (json.appendString (V6.Location.Address loc)))])
            ++ (if String.eqb (V6.Location.Type_ loc) "poi"
                then [("POI", json.JBool true)] else []))).
Proof.
  intros H. unfold V6.MarshalJSON. rewrite H.
  unfold V6.Marshal_hafasLocation. simpl. reflexivity.
Qed.

(** What [MarshalJSON] writes for a stop: the member [Location], no
    member [POI]; an error when a coordinate is not a number. *)
Lemma MarshalJSON_stop (loc : V6.Location.t) :
  V6.Location.Type_ loc = "stop" ->
  V6.MarshalJSON loc
  = if float64_finite (V6.Location.Latitude loc)
       && float64_finite (V6.Location.Longitude loc)
    then
      inr (json.JObject
             ([("Type", json.JString "stop");
               ("ID", json.JString (json.appendString (V6.Location.ID loc)));
               ("Name", json.JString (json.appendString (V6.Location.Name loc)))]
              ++ (if String.eqb (V6.Location.Address loc) "" then []
                  else [("Address",
                         json.JString (json.appendString (V6.Location.Address loc)))])
              ++ [("Location",
                    json.JObject
                      [("Type", json.JString "location");
                       ("Latitude", json.JNumber (V6.Location.Latitude loc));
                       ("Longitude", json.JNumber (V6.Location.Longitude loc))])]))
    else inl JSONError.
Proof.
  intros H. unfold V6.MarshalJSON. rewrite H. simpl.
  unfold V6.Marshal_hafasLocation, V6.Marshal_point, json.encode_float64. simpl.
  destruct (float64_finite (V6.Location.Latitude loc));
    destruct (float64_finite (V6.Location.Longitude loc)); reflexivity.
Qed.

(** C4 as the code has it: a stop whose latitude and longitude are
    numbers (neither NaN nor an infinity) is encoded by [MarshalJSON];
    the encoding has the member [Location], an object with the stop's
    latitude and longitude; and [UnmarshalJSON] of the encoding is the
    stop with its kind, latitude and longitude, and with its
    identifier, name and address as the encoder writes them (the
    distance is not encoded). When the identifier, the name and the
    address are valid UTF-8, that is the stop itself, distance apart. *)
Theorem stop_round_trip (loc : V6.Location.t) :
  V6.Location.Type_ loc = "stop" ->
  float64_finite (V6.Location.Latitude loc) = true ->
  float64_finite (V6.Location.Longitude loc) = true ->
  exists data,
    V6.MarshalJSON loc = inr data
    /\ json.lookup "Location" data
       = Some (json.JObject
                 [("Type", json.JString "location");
                  ("Latitude", json.JNumber (V6.Location.Latitude loc));
                  ("Longitude", json.JNumber (V6.Location.Longitude loc))])
    /\ V6.UnmarshalJSON data
       = inr {| V6.Location.Type_ := V6.Location.Type_ loc;
                V6.Location.ID := json.appendString (V6.Location.ID loc);
                V6.Location.Name := json.appendString (V6.Location.Name loc);
                V6.Location.Address := json.appendString (V6.Location.Address loc);
                V6.Location.Latitude := V6.Location.Latitude loc;
                V6.Location.Longitude := V6.Location.Longitude loc;
                V6.Location.Distance := 0 |}
    /\ (utf8.ValidString (V6.Location.ID loc) = true ->
        utf8.ValidString (V6.Location.Name loc) = true ->
        utf8.ValidString (V6.Location.Address loc) = true ->
        V6.UnmarshalJSON data
        = inr {| V6.Location.Type_ := V6.Location.Type_ loc;
                 V6.Location.ID := V6.Location.ID loc;
                 V6.Location.Name := V6.Location.Name loc;
                 V6.Location.Address := V6.Location.Address loc;
                 V6.Location.Latitude := V6.Location.Latitude loc;
                 V6.Location.Longitude := V6.Location.Longitude loc;
                 V6.Location.Distance := 0 |}).
Proof.
  intros Hty Hlat Hlng. rewrite (MarshalJSON_stop loc Hty), Hlat, Hlng. simpl.
  destruct loc as [ty id name addr lat lng dist]. simpl in *. subst ty.
  eexists. split; [reflexivity|].
  destruct (String.eqb addr "") eqn:E.
  - apply String.eqb_eq in E. subst addr.
    split; [reflexivity|]. split; [reflexivity|].
    intros Hid Hname _.
    rewrite (appendString_valid id Hid), (appendString_valid name Hname).
    reflexivity.
  - split; [reflexivity|]. split; [reflexivity|].
    intros Hid Hname Haddr.
    rewrite (appendString_valid id Hid), (appendString_valid name Hname),
      (appendString_valid addr Haddr).
    reflexivity.
Qed.

(** C7 as the code has it: in what [MarshalJSON] writes, the member
    [Location] is present exactly for the kind ["stop"]; the member
    [POI] is present, and true, exactly for the kind ["poi"], and absent
    for every other kind, which the decoder reads as false. *)
Theorem MarshalJSON_members (loc : V6.Location.t) (data : json.value) :
  V6.MarshalJSON loc = inr data ->
  (is_Some (json.lookup "Location" data) <-> V6.Location.Type_ loc = "stop")
  /\ (json.lookup "POI" data = Some (json.JBool true)
      <-> V6.Location.Type_ loc = "poi")
  /\ (V6.Location.Type_ loc <> "poi" -> json.lookup "POI" data = None)
  /\ (exists hLoc,
        V6.Unmarshal_hafasLocation data = Some hLoc
        /\ V6.hafasLocation.POI hLoc = String.eqb (V6.Location.Type_ loc) "poi").
Proof.
  intros H.
  destruct (String.eqb (V6.Location.Type_ loc) "stop") eqn:Estop.
  - apply String.eqb_eq in Estop.
    rewrite (MarshalJSON_stop loc Estop) in H.
    destruct (float64_finite _ && float64_finite _); [|discriminate].
    injection H as <-. rewrite Estop.
    destruct (String.eqb (V6.Location.Address loc) ""); simpl;
      (split; [split; [done|eauto]|]);
      (split; [split; [discriminate|discriminate]|]);
      (split; [done|]); eexists; (split; [reflexivity|reflexivity]).
  - rewrite (MarshalJSON_not_stop loc Estop) in H. injection H as <-.
    apply String.eqb_neq in Estop.
    destruct (String.eqb (V6.Location.Type_ loc) "poi") eqn:Epoi.
    + apply String.eqb_eq in Epoi.
      destruct (String.eqb (V6.Location.Address loc) ""); simpl;
        (split; [split; [by intros [? ?]|done]|]);
        (split; [done|]); (split; [done|]);
        eexists; (split; [reflexivity|]); rewrite Epoi; reflexivity.
    + apply String.eqb_neq in Epoi.
      destruct (String.eqb (V6.Location.Address loc) ""); simpl;
        (split; [split; [by intros [? ?]|done]|]);
        (split; [split; [discriminate|done]|]); (split; [done|]);
        eexists; (split; [reflexivity|]); reflexivity.
Qed.

(** ** The parameter when *)

Lemma Z_range_forallb (P : Z -> bool) (n : Z) :
  forallb P (map Z.of_nat (seq 0 (Z.to_nat n))) = true ->
  forall x, 0 <= x < n -> P x = true.
Proof.
  intros H x Hx. rewrite forallb_forall in H. apply H.
  apply in_map_iff. exists (Z.to_nat x). split; [lia|].
  apply in_seq. lia.
Qed.



Lemma appendInt_app b x w : time.appendInt b x w = b ++ time.appendInt "" x w.
Proof. reflexivity. Qed.









(** ** float64 arithmetic *)

Lemma digits2_pos_size p : digits2_pos p = Pos.size p.
Proof. induction p; simpl; congruence. Qed.

Lemma Zdigits2_bounds m :
  0 < m -> 2 ^ (Zdigits2 m - 1) <= m < 2 ^ Zdigits2 m.
Proof.
  destruct m as [|p|p]; try lia. intros _. simpl.
  rewrite digits2_pos_size.
  pose proof (Pos.size_gt p) as Hgt. pose proof (Pos.size_le p) as Hle.
  assert (Z.pos p < 2 ^ Z.pos (Pos.size p)).
  { rewrite <- Pos2Z.inj_pow. lia. }
  assert (2 ^ Z.pos (Pos.size p) <= 2 * Z.pos p).
  { rewrite <- Pos2Z.inj_pow. lia. }
  split; [|lia].
  replace (Z.pos (Pos.size p)) with (Z.succ (Z.pos (Pos.size p) - 1)) in H0 by lia.
  rewrite Z.pow_succ_r in H0 by lia. lia.
Qed.

Lemma Zdigits2_pos m : 0 < m -> 0 < Zdigits2 m.
Proof. destruct m; simpl; lia. Qed.

Lemma Zdigits2_unique m d :
  2 ^ (d - 1) <= m < 2 ^ d -> 0 < d -> Zdigits2 m = d.
Proof.
  intros [Hlo Hhi] Hd.
  assert (Hm : 0 < m) by (pose proof (Z.pow_pos_nonneg 2 (d - 1)); lia).
  pose proof (Zdigits2_bounds m Hm) as [Hlo' Hhi'].
  pose proof (Zdigits2_pos m Hm).
  destruct (Z.lt_trichotomy (Zdigits2 m) d) as [Hlt | [Heq | Hgt]]; [|done|].
  - assert (2 ^ Zdigits2 m <= 2 ^ (d - 1)) by (apply Z.pow_le_mono_r; lia). lia.
  - assert (2 ^ d <= 2 ^ (Zdigits2 m - 1)) by (apply Z.pow_le_mono_r; lia). lia.
Qed.

Lemma iter_xO_pow p k : Z.pos (Pos.iter xO p k) = Z.pos p * 2 ^ Z.pos k.
Proof.
  rewrite <- (Pos2Z.inj_pow 2 k).
  change (Z.pos p * Z.pos (2 ^ k)) with (Z.pos (p * 2 ^ k)). f_equal.
  revert p. induction k using Pos.peano_ind; intros p.
  - simpl. lia.
  - rewrite Pos.iter_succ, IHk, Pos.pow_succ_r. lia.
Qed.

(** The right shift of a mantissa, bit by bit. *)
Lemma iter_pos_nat {A : Type} (f : A -> A) p x :
  SpecFloat.iter_pos f p x = Nat.iter (Pos.to_nat p) f x.
Proof.
  revert x. induction p as [p IH|p IH|]; intros x; cbn [SpecFloat.iter_pos].
  - rewrite !IH, <- Nat.iter_succ_r, <- Nat.iter_add. f_equal. lia.
  - rewrite !IH, <- Nat.iter_add. f_equal. lia.
  - reflexivity.
Qed.

Lemma shr_1_nonneg m r s :
  0 <= m ->
  shr_1 {| shr_m := m; shr_r := r; shr_s := s |}
  = {| shr_m := m / 2; shr_r := Z.odd m; shr_s := r || s |}.
Proof.
  intros Hm. destruct m as [|p|p]; [reflexivity| |lia].
  destruct p; simpl; f_equal.
  - rewrite Pos2Z.inj_xI. apply Z.div_unique with 1; lia.
  - rewrite Pos2Z.inj_xO. apply Z.div_unique with 0; lia.
Qed.

Lemma shr_nat k m r s :
  0 <= m ->
  exists r' s',
    Nat.iter k shr_1 {| shr_m := m; shr_r := r; shr_s := s |}
    = {| shr_m := m / 2 ^ Z.of_nat k; shr_r := r'; shr_s := s' |}
    /\ (m mod 2 ^ Z.of_nat k = 0 -> r = false -> s = false ->
        r' = false /\ s' = false).
Proof.
  intros Hm. induction k as [|k (r' & s' & E & H)].
  - exists r, s. simpl. rewrite Z.div_1_r. auto.
  - exists (Z.odd (m / 2 ^ Z.of_nat k)), (r' || s').
    assert (Hp : 0 < 2 ^ Z.of_nat k) by (apply Z.pow_pos_nonneg; lia).
    split.
    + simpl. rewrite E, shr_1_nonneg by (apply Z.div_pos; lia).
      f_equal. rewrite Nat2Z.inj_succ, Z.pow_succ_r, Z.div_div by lia.
      f_equal. lia.
    + rewrite Nat2Z.inj_succ, Z.pow_succ_r by lia. intros Hmod Hr Hs.
      assert (Hdiv : m = 2 * 2 ^ Z.of_nat k * (m / (2 * 2 ^ Z.of_nat k))).
      { pose proof (Z.div_mod m (2 * 2 ^ Z.of_nat k)). lia. }
      assert (Hk : m mod 2 ^ Z.of_nat k = 0).
      { rewrite Hdiv. rewrite <- Z.mul_assoc, (Z.mul_comm 2), <- Z.mul_assoc.
        rewrite Z.mul_comm. apply Z.mod_mul. lia. }
      destruct (H Hk Hr Hs) as [-> ->]. split; [|reflexivity].
      rewrite Hdiv.
      replace (2 * 2 ^ Z.of_nat k * (m / (2 * 2 ^ Z.of_nat k)))
        with ((2 * (m / (2 * 2 ^ Z.of_nat k))) * 2 ^ Z.of_nat k) by lia.
      rewrite Z.div_mul by lia. rewrite Z.odd_mul. reflexivity.
Qed.

Lemma shr_pos mx lx e (n : positive) :
  0 <= mx ->
  exists r' s',
    shr (shr_record_of_loc mx lx) e (Z.pos n)
    = ({| shr_m := mx / 2 ^ Z.pos n; shr_r := r'; shr_s := s' |}, e + Z.pos n)
    /\ (mx mod 2 ^ Z.pos n = 0 -> lx = loc_Exact -> r' = false /\ s' = false).
Proof.
  intros Hm. unfold shr. rewrite iter_pos_nat.
  destruct (shr_nat (Pos.to_nat n) mx
              (shr_r (shr_record_of_loc mx lx)) (shr_s (shr_record_of_loc mx lx)) Hm)
    as (r' & s' & E & H).
  rewrite positive_nat_Z in *.
  exists r', s'. split.
  - rewrite <- E. f_equal. f_equal. by destruct lx as [|[]].
  - intros Hmod ->. apply H; done.
Qed.

Lemma round_nearest_even_cases m r s :
  let l := loc_of_shr_record {| shr_m := m; shr_r := r; shr_s := s |} in
  round_nearest_even m l = m
  \/ (round_nearest_even m l = m + 1 /\ (r = true \/ s = true)).
Proof. destruct r, s; simpl; try destruct (Z.even m); auto. Qed.

Lemma loc_of_record_of_loc m l : loc_of_shr_record (shr_record_of_loc m l) = l.
Proof. by destruct l as [|[]]. Qed.

(** The bits that a right shift of an exact mantissa keeps: the last
    bit shifted out, and whether any bit before it was set. *)
Lemma shr_nat_bits k m :
  0 <= m ->
  Nat.iter (S k) shr_1 {| shr_m := m; shr_r := false; shr_s := false |}
  = {| shr_m := m / 2 ^ Z.of_nat (S k);
       shr_r := Z.odd (m / 2 ^ Z.of_nat k);
       shr_s := negb (m mod 2 ^ Z.of_nat k =? 0) |}.
Proof.
  intros Hm. induction k as [|k IH].
  - cbn [Nat.iter]. rewrite shr_1_nonneg by done.
    change (2 ^ Z.of_nat 0) with 1. change (2 ^ Z.of_nat 1) with 2.
    by rewrite Z.div_1_r, Z.mod_1_r.
  - rewrite Nat.iter_succ, IH.
    assert (Hp : 0 < 2 ^ Z.of_nat k) by (apply Z.pow_pos_nonneg; lia).
    assert (Hp1 : 0 < 2 ^ Z.of_nat (S k)) by (apply Z.pow_pos_nonneg; lia).
    assert (E1 : 2 ^ Z.of_nat (S k) = 2 ^ Z.of_nat k * 2).
    { rewrite Nat2Z.inj_succ, Z.pow_succ_r by lia. lia. }
    assert (E2 : 2 ^ Z.of_nat (S (S k)) = 2 ^ Z.of_nat (S k) * 2).
    { rewrite (Nat2Z.inj_succ (S k)), Z.pow_succ_r by lia. lia. }
    rewrite shr_1_nonneg by (apply Z.div_pos; lia).
    f_equal.
    + by rewrite E2, Z.div_div by lia.
    + (* the bits below: one of them is set when the one shifted out
         before was, or one below it *)
      set (a := m / 2 ^ Z.of_nat k).
      assert (Hmod : m mod 2 ^ Z.of_nat (S k)
                     = 2 ^ Z.of_nat k * (a mod 2) + m mod 2 ^ Z.of_nat k).
      { rewrite E1. unfold a. rewrite Z.rem_mul_r by lia. lia. }
      pose proof (Z.mod_pos_bound m (2 ^ Z.of_nat k) Hp) as Hr.
      rewrite Hmod, (Zodd_mod a).
      pose proof (Z.mod_pos_bound a 2 ltac:(lia)) as Ha.
      destruct (Z.eqb_spec (a mod 2) 1) as [Ea|Ea];
        destruct (Z.eqb_spec (m mod 2 ^ Z.of_nat k) 0) as [Eb|Eb];
        cbn [negb orb]; symmetry;
        try (apply negb_true_iff, Z.eqb_neq; nia);
        try (apply negb_false_iff, Z.eqb_eq; nia).
Qed.

Lemma shr_pos_bits mx e (n : positive) :
  0 <= mx ->
  shr (shr_record_of_loc mx loc_Exact) e (Z.pos n)
  = ({| shr_m := mx / 2 ^ Z.pos n;
        shr_r := Z.odd (mx / 2 ^ (Z.pos n - 1));
        shr_s := negb (mx mod 2 ^ (Z.pos n - 1) =? 0) |}, e + Z.pos n).
Proof.
  intros Hm. unfold shr. rewrite iter_pos_nat.
  destruct (Pos.to_nat n) as [|k] eqn:E; [lia|].
  cbn [shr_record_of_loc]. rewrite (shr_nat_bits k mx Hm).
  replace (Z.of_nat (S k)) with (Z.pos n) by lia.
  replace (Z.of_nat k) with (Z.pos n - 1) by lia.
  reflexivity.
Qed.

(** Rounding to nearest: the mantissa is kept when the bits shifted
    out are at most a half, and is one more when they are at least a
    half. *)
Lemma round_nearest_even_bits m r s :
  let l := loc_of_shr_record {| shr_m := m; shr_r := r; shr_s := s |} in
  (round_nearest_even m l = m /\ (r = false \/ s = false))
  \/ (round_nearest_even m l = m + 1 /\ r = true).
Proof. destruct r, s; simpl; try destruct (Z.even m); auto. Qed.


Lemma shr_fexp_exact m1 e1 :
  0 < m1 -> m1 <= 2 ^ 53 -> -1074 <= e1 ->
  exists mR eR r s,
    shr_fexp prec emax m1 e1 loc_Exact
    = ({| shr_m := mR; shr_r := r; shr_s := s |}, eR)
    /\ 0 < mR /\ mR * 2 ^ (eR + 1074) = m1 * 2 ^ (e1 + 1074)
    /\ e1 <= eR <= e1 + 1.
Proof.
  intros Hm Hle He.
  pose proof (Zdigits2_bounds m1 Hm) as [Hlo Hhi].
  pose proof (Zdigits2_pos m1 Hm) as Hd.
  assert (Hd54 : Zdigits2 m1 <= 54).
  { destruct (Z.le_gt_cases (Zdigits2 m1) 54) as [|Hgt]; [done|].
    assert (2 ^ 54 <= 2 ^ (Zdigits2 m1 - 1)) by (apply Z.pow_le_mono_r; lia).
    assert (2 ^ 53 < 2 ^ 54) by (apply Z.pow_lt_mono_r; lia). lia. }
  unfold shr_fexp, fexp, emin, prec, emax.
  destruct (Z.eq_dec (Zdigits2 m1) 54) as [E54|N54].
  - assert (Em : m1 = 2 ^ 53).
    { rewrite E54 in Hlo. change (54 - 1) with 53 in Hlo. lia. }
    replace (Z.max (Zdigits2 m1 + e1 - 53) (3 - 1024 - 53) - e1) with 1 by lia.
    destruct (shr_pos m1 loc_Exact e1 1 ltac:(lia)) as (r & s & E & _).
    rewrite E. exists (m1 / 2 ^ 1), (e1 + 1), r, s.
    split; [reflexivity|]. subst m1.
    change (2 ^ 53 / 2 ^ 1) with (2 ^ 52).
    split; [lia|]. split; [|lia].
    replace (e1 + 1 + 1074) with (Z.succ (e1 + 1074)) by lia.
    rewrite Z.pow_succ_r by lia. change (2 ^ 53) with (2 ^ 52 * 2). lia.
  - assert (Hn : Z.max (Zdigits2 m1 + e1 - 53) (3 - 1024 - 53) - e1 <= 0) by lia.
    exists m1, e1, false, false.
    split; [|split; [done|split; [done|lia]]].
    unfold shr. destruct (Z.max _ _ - e1); [reflexivity|lia|reflexivity].
Qed.

Lemma div_mul_pow a b c : 0 < b -> 0 < c -> (a * c) / (b * c) = a / b.
Proof. intros. apply Z.div_mul_cancel_r; lia. Qed.

Lemma binary_round_aux_spec sx mx ex lx :
  0 < mx -> -1074 <= ex -> -1074 <= Zdigits2 mx + ex - 53 ->
  Z.max ex (Zdigits2 mx + ex - 53) < 971 ->
  exists mR eR,
    binary_round_aux prec emax sx mx ex lx = S754_finite sx mR eR
    /\ -1074 <= eR
    /\ (Z.pos mR * 2 ^ (eR + 1074)
        = mx * 2 ^ (ex + 1074) / 2 ^ (Z.max ex (Zdigits2 mx + ex - 53) + 1074)
          * 2 ^ (Z.max ex (Zdigits2 mx + ex - 53) + 1074)
        \/ (Z.pos mR * 2 ^ (eR + 1074)
            = mx * 2 ^ (ex + 1074) / 2 ^ (Z.max ex (Zdigits2 mx + ex - 53) + 1074)
              * 2 ^ (Z.max ex (Zdigits2 mx + ex - 53) + 1074)
              + 2 ^ (Z.max ex (Zdigits2 mx + ex - 53) + 1074)
            /\ (mx * 2 ^ (ex + 1074)
                  mod 2 ^ (Z.max ex (Zdigits2 mx + ex - 53) + 1074) <> 0
                \/ lx <> loc_Exact))).
Proof.
  intros Hm Hex Hnormal Hg.
  pose proof (Zdigits2_bounds mx Hm) as [Hlo Hhi].
  set (d := Zdigits2 mx) in *.
  assert (HP : 0 < 2 ^ (ex + 1074)) by (apply Z.pow_pos_nonneg; lia).
  (* the first shift *)
  assert (Hfirst : exists m' r s,
             shr_fexp prec emax mx ex lx
             = ({| shr_m := m'; shr_r := r; shr_s := s |}, Z.max ex (d + ex - 53))
             /\ 0 < m' /\ m' < 2 ^ 53
             /\ m' = mx * 2 ^ (ex + 1074) / 2 ^ (Z.max ex (d + ex - 53) + 1074)
             /\ (r = true \/ s = true ->
                 mx * 2 ^ (ex + 1074) mod 2 ^ (Z.max ex (d + ex - 53) + 1074) <> 0
                 \/ lx <> loc_Exact)).
  { unfold shr_fexp, fexp, emin, prec, emax. fold d.
    replace (Z.max (d + ex - 53) (3 - 1024 - 53) - ex) with (d - 53) by lia.
    destruct (Z.le_gt_cases d 53) as [Hd|Hd].
    - (* no shift *)
      rewrite Z.max_l by lia.
      exists mx, (shr_r (shr_record_of_loc mx lx)), (shr_s (shr_record_of_loc mx lx)).
      split; [|split; [done|split; [|split]]].
      + unfold shr. destruct (d - 53) eqn:E; [|lia|]; by destruct lx as [|[]].
      + assert (2 ^ d <= 2 ^ 53) by (apply Z.pow_le_mono_r; lia). lia.
      + by rewrite Z.div_mul by lia.
      + intros Hrs. right. intros ->. simpl in Hrs. by destruct Hrs.
    - (* a shift by d - 53 bits *)
      rewrite Z.max_r by lia.
      destruct (d - 53) as [|n|] eqn:En; try lia.
      destruct (shr_pos mx lx ex n ltac:(lia)) as (r & s & E & Hrs).
      assert (Hn : 0 < 2 ^ Z.pos n) by (apply Z.pow_pos_nonneg; lia).
      assert (Hsplit : 2 ^ (d + ex - 53 + 1074) = 2 ^ Z.pos n * 2 ^ (ex + 1074)).
      { rewrite <- Z.pow_add_r by lia. f_equal. lia. }
      assert (Hd1 : 2 ^ (d - 1) = 2 ^ 52 * 2 ^ Z.pos n).
      { rewrite <- Z.pow_add_r by lia. f_equal. lia. }
      assert (Hd2 : 2 ^ d = 2 ^ 53 * 2 ^ Z.pos n).
      { rewrite <- Z.pow_add_r by lia. f_equal. lia. }
      exists (mx / 2 ^ Z.pos n), r, s.
      split; [|split; [|split; [|split]]].
      + rewrite E. f_equal. lia.
      + assert (2 ^ 52 <= mx / 2 ^ Z.pos n)
          by (apply Z.div_le_lower_bound; lia). lia.
      + apply Z.div_lt_upper_bound; lia.
      + rewrite Hsplit. symmetry. apply div_mul_pow; lia.
      + intros Hor.
        destruct (Z.eq_dec (mx mod 2 ^ Z.pos n) 0) as [Hz|Hnz].
        * right. intros ->. destruct (Hrs Hz eq_refl) as [-> ->].
          by destruct Hor.
        * left. rewrite Hsplit, Z.mul_mod_distr_r by lia. lia. }
  destruct Hfirst as (m' & r & s & E1 & Hm' & Hm53 & Em' & Hinexact).
  unfold binary_round_aux. rewrite E1. cbn [shr_m].
  set (g := Z.max ex (d + ex - 53)) in *.
  assert (Hg1074 : -1074 <= g) by lia.
  destruct (round_nearest_even_cases m' r s) as [Er | [Er Hrs]].
  - destruct (shr_fexp_exact m' g Hm' ltac:(lia) Hg1074)
      as (mR & eR & r2 & s2 & E2 & HmR & Eval & HeR).
    cbn zeta in Er. rewrite Er, E2. cbn [shr_m].
    destruct mR as [|pR|]; try lia.
    exists pR, eR. unfold prec, emax.
    replace (eR <=? 1024 - 53) with true by (symmetry; apply Z.leb_le; lia).
    split; [reflexivity|]. split; [lia|]. left. rewrite Eval, Em'. reflexivity.
  - destruct (shr_fexp_exact (m' + 1) g ltac:(lia) ltac:(lia) Hg1074)
      as (mR & eR & r2 & s2 & E2 & HmR & Eval & HeR).
    cbn zeta in Er. rewrite Er, E2. cbn [shr_m].
    destruct mR as [|pR|]; try lia.
    exists pR, eR. unfold prec, emax.
    replace (eR <=? 1024 - 53) with true by (symmetry; apply Z.leb_le; lia).
    split; [reflexivity|]. split; [lia|]. right. split; [|by apply Hinexact].
    rewrite Eval, Em'. lia.
Qed.

Lemma binary_round_aux_canonical s p e :
  Zdigits2 (Z.pos p) = 53 -> -1074 <= e <= 971 ->
  binary_round_aux prec emax s (Z.pos p) e loc_Exact = S754_finite s p e.
Proof.
  intros Hd He.
  assert (E : shr_fexp prec emax (Z.pos p) e loc_Exact
              = ({| shr_m := Z.pos p; shr_r := false; shr_s := false |}, e)).
  { unfold shr_fexp, fexp, emin, prec, emax. rewrite Hd.
    replace (Z.max (53 + e - 53) (3 - 1024 - 53) - e) with 0 by lia.
    reflexivity. }
  unfold binary_round_aux. rewrite E. cbn [shr_m loc_of_shr_record round_nearest_even].
  rewrite E. cbn [shr_m]. unfold prec, emax.
  replace (e <=? 1024 - 53) with true by (symmetry; apply Z.leb_le; lia).
  reflexivity.
Qed.

Lemma shl_align_value mx ex ez :
  ez <= ex ->
  Z.pos (fst (shl_align mx ex ez)) = Z.pos mx * 2 ^ (ex - ez)
  /\ snd (shl_align mx ex ez) = ez.
Proof.
  intros H. unfold shl_align.
  destruct (ez - ex) as [|k|k] eqn:E; try lia; cbn [fst snd].
  - replace (ex - ez) with 0 by lia. split; lia.
  - rewrite iter_xO_pow. split; [|reflexivity]. f_equal. f_equal. lia.
Qed.

(** The conversion of an integer of less than 53 bits is exact. *)
Lemma float64_of_int_nonzero x :
  x <> 0 -> Z.abs x < 2 ^ 53 ->
  exists pm,
    float64_of_int x = S754_finite (x <? 0) pm (Zdigits2 x - 53)
    /\ Z.pos pm = Z.abs x * 2 ^ (53 - Zdigits2 x)
    /\ Zdigits2 (Z.pos pm) = 53.
Proof.
  intros Hx Hlt.
  assert (Hgen : forall s p,
             Z.pos p < 2 ^ 53 ->
             exists pm,
               binary_round prec emax s p 0
               = S754_finite s pm (Zdigits2 (Z.pos p) - 53)
               /\ Z.pos pm = Z.pos p * 2 ^ (53 - Zdigits2 (Z.pos p))
               /\ Zdigits2 (Z.pos pm) = 53).
  { intros s p Hp.
    pose proof (Zdigits2_bounds (Z.pos p) ltac:(lia)) as [Hlo Hhi].
    pose proof (Zdigits2_pos (Z.pos p) ltac:(lia)) as Hd.
    set (d := Zdigits2 (Z.pos p)) in *.
    assert (Hd53 : d <= 53).
    { destruct (Z.le_gt_cases d 53) as [|Hgt]; [done|].
      assert (2 ^ 53 <= 2 ^ (d - 1)) by (apply Z.pow_le_mono_r; lia). lia. }
    unfold binary_round.
    change (Z.pos (digits2_pos p)) with d.
    assert (Ef : fexp prec emax (d + 0) = d - 53)
      by (unfold fexp, emin, prec, emax; lia).
    rewrite Ef.
    destruct (shl_align_value p 0 (d - 53) ltac:(lia)) as [Hv He].
    destruct (shl_align p 0 (d - 53)) as [mz ez]. cbn [fst snd] in *. subst ez.
    replace (0 - (d - 53)) with (53 - d) in Hv by lia.
    assert (Hdz : Zdigits2 (Z.pos mz) = 53).
    { apply Zdigits2_unique; [|lia]. rewrite Hv.
      assert (E52 : 2 ^ (53 - 1) = 2 ^ (d - 1) * 2 ^ (53 - d)).
      { rewrite <- Z.pow_add_r by lia. f_equal. lia. }
      assert (E53 : 2 ^ 53 = 2 ^ d * 2 ^ (53 - d)).
      { rewrite <- Z.pow_add_r by lia. f_equal. lia. }
      assert (0 < 2 ^ (53 - d)) by (apply Z.pow_pos_nonneg; lia).
      rewrite E52, E53. split; [apply Z.mul_le_mono_nonneg_r; lia|].
      apply Z.mul_lt_mono_pos_r; lia. }
    exists mz. split; [|done].
    apply binary_round_aux_canonical; [done|lia]. }
  destruct x as [|p|p]; [done| |].
  - destruct (Hgen false p ltac:(lia)) as (pm & E & Hv & Hd).
    exists pm. split; [exact E|]. split; [exact Hv|exact Hd].
  - destruct (Hgen true p ltac:(lia)) as (pm & E & Hv & Hd).
    exists pm. split; [exact E|]. split; [exact Hv|exact Hd].
Qed.

(** Rounding a positive integer mantissa: the result is one of the two
    neighbours of the value on the grid of its binade, and the value
    itself when it is on the grid. *)
Lemma binary_round_spec s mx ex :
  -1074 <= ex ->
  -1074 <= Zdigits2 (Z.pos mx) + ex - 53 < 971 ->
  exists mR eR,
    binary_round prec emax s mx ex = S754_finite s mR eR
    /\ -1074 <= eR
    /\ (Z.pos mR * 2 ^ (eR + 1074)
        = Z.pos mx * 2 ^ (ex + 1074) / 2 ^ (Zdigits2 (Z.pos mx) + ex - 53 + 1074)
          * 2 ^ (Zdigits2 (Z.pos mx) + ex - 53 + 1074)
        \/ (Z.pos mR * 2 ^ (eR + 1074)
            = Z.pos mx * 2 ^ (ex + 1074) / 2 ^ (Zdigits2 (Z.pos mx) + ex - 53 + 1074)
              * 2 ^ (Zdigits2 (Z.pos mx) + ex - 53 + 1074)
              + 2 ^ (Zdigits2 (Z.pos mx) + ex - 53 + 1074)
            /\ Z.pos mx * 2 ^ (ex + 1074)
                 mod 2 ^ (Zdigits2 (Z.pos mx) + ex - 53 + 1074) <> 0)).
Proof.
  intros Hex Hn.
  set (d := Zdigits2 (Z.pos mx)) in *.
  pose proof (Zdigits2_bounds (Z.pos mx) ltac:(lia)) as [Hlo Hhi]. fold d in Hlo, Hhi.
  pose proof (Zdigits2_pos (Z.pos mx) ltac:(lia)) as Hd. fold d in Hd.
  unfold binary_round. change (Z.pos (digits2_pos mx)) with d.
  assert (Ef : fexp prec emax (d + ex) = d + ex - 53)
    by (unfold fexp, emin, prec, emax; lia).
  rewrite Ef.
  destruct (Z.le_gt_cases ex (d + ex - 53)) as [Hle|Hgt].
  - (* the mantissa has 53 bits or more *)
    assert (E : shl_align mx ex (d + ex - 53) = (mx, ex)).
    { unfold shl_align. destruct (d + ex - 53 - ex) eqn:E; try lia; reflexivity. }
    rewrite E.
    destruct (binary_round_aux_spec s (Z.pos mx) ex loc_Exact) as (mR & eR & ER & HeR & H);
      try (fold d; lia).
    fold d in H. rewrite Z.max_r in H by lia.
    exists mR, eR. split; [exact ER|]. split; [exact HeR|].
    destruct H as [H | [H [Hmod | Hl]]]; [by left|right; by split|done].
  - (* fewer: the mantissa is shifted left, and is exact *)
    destruct (shl_align_value mx ex (d + ex - 53) ltac:(lia)) as [Hv He].
    destruct (shl_align mx ex (d + ex - 53)) as [mz ez]. cbn [fst snd] in *. subst ez.
    replace (ex - (d + ex - 53)) with (53 - d) in Hv by lia.
    assert (Hdz : Zdigits2 (Z.pos mz) = 53).
    { apply Zdigits2_unique; [|lia]. rewrite Hv.
      assert (E52 : 2 ^ (53 - 1) = 2 ^ (d - 1) * 2 ^ (53 - d)).
      { rewrite <- Z.pow_add_r by lia. f_equal. lia. }
      assert (E53 : 2 ^ 53 = 2 ^ d * 2 ^ (53 - d)).
      { rewrite <- Z.pow_add_r by lia. f_equal. lia. }
      assert (0 < 2 ^ (53 - d)) by (apply Z.pow_pos_nonneg; lia).
      rewrite E52, E53. split; [apply Z.mul_le_mono_nonneg_r; lia|].
      apply Z.mul_lt_mono_pos_r; lia. }
    rewrite binary_round_aux_canonical by (done || lia).
    exists mz, (d + ex - 53). split; [reflexivity|]. split; [lia|]. left.
    assert (EX : Z.pos mx * 2 ^ (ex + 1074)
                 = Z.pos mz * 2 ^ (d + ex - 53 + 1074)).
    { rewrite Hv, <- Z.mul_assoc, <- Z.pow_add_r by lia. f_equal. f_equal. lia. }
    rewrite EX, Z.div_mul; [reflexivity|].
    apply Z.pow_nonzero; lia.
Qed.

(** Rounding a positive integer mantissa to nearest: the result is the
    neighbour below of the value on the grid of its binade when the rest
    is at most half a step of the grid, and the neighbour above when it
    is at least half a step. *)
Lemma binary_round_nearest s mx ex :
  -1074 <= ex ->
  -1074 <= Zdigits2 (Z.pos mx) + ex - 53 < 971 ->
  exists mR eR,
    binary_round prec emax s mx ex = S754_finite s mR eR
    /\ -1074 <= eR
    /\ ((Z.pos mR * 2 ^ (eR + 1074)
         = Z.pos mx * 2 ^ (ex + 1074) / 2 ^ (Zdigits2 (Z.pos mx) + ex - 53 + 1074)
           * 2 ^ (Zdigits2 (Z.pos mx) + ex - 53 + 1074)
         /\ 2 * (Z.pos mx * 2 ^ (ex + 1074)
                   mod 2 ^ (Zdigits2 (Z.pos mx) + ex - 53 + 1074))
            <= 2 ^ (Zdigits2 (Z.pos mx) + ex - 53 + 1074))
        \/ (Z.pos mR * 2 ^ (eR + 1074)
            = Z.pos mx * 2 ^ (ex + 1074) / 2 ^ (Zdigits2 (Z.pos mx) + ex - 53 + 1074)
              * 2 ^ (Zdigits2 (Z.pos mx) + ex - 53 + 1074)
              + 2 ^ (Zdigits2 (Z.pos mx) + ex - 53 + 1074)
            /\ 2 ^ (Zdigits2 (Z.pos mx) + ex - 53 + 1074)
               <= 2 * (Z.pos mx * 2 ^ (ex + 1074)
                         mod 2 ^ (Zdigits2 (Z.pos mx) + ex - 53 + 1074)))).
Proof.
  intros Hex Hn.
  set (d := Zdigits2 (Z.pos mx)) in *.
  pose proof (Zdigits2_bounds (Z.pos mx) ltac:(lia)) as [Hlo Hhi]. fold d in Hlo, Hhi.
  destruct (Z.le_gt_cases d 53) as [Hd|Hd].
  - (* no bit is shifted out: the value is on the grid *)
    destruct (binary_round_spec s mx ex Hex Hn) as (mR & eR & ER & HeR & Hval).
    fold d in Hval.
    exists mR, eR. split; [exact ER|]. split; [exact HeR|].
    assert (HG : 0 < 2 ^ (d + ex - 53 + 1074)) by (apply Z.pow_pos_nonneg; lia).
    assert (Hmod : Z.pos mx * 2 ^ (ex + 1074) mod 2 ^ (d + ex - 53 + 1074) = 0).
    { replace (ex + 1074) with ((53 - d) + (d + ex - 53 + 1074)) by lia.
      rewrite Z.pow_add_r, Z.mul_assoc by lia. apply Z.mod_mul. lia. }
    destruct Hval as [Hv | [_ Hne]]; [|done].
    left. split; [exact Hv|]. rewrite Hmod. lia.
  - (* d - 53 bits are shifted out *)
    unfold binary_round. change (Z.pos (digits2_pos mx)) with d.
    assert (Ef : fexp prec emax (d + ex) = d + ex - 53)
      by (unfold fexp, emin, prec, emax; lia).
    rewrite Ef.
    assert (E : shl_align mx ex (d + ex - 53) = (mx, ex)).
    { unfold shl_align. destruct (d + ex - 53 - ex) eqn:E; try lia; reflexivity. }
    rewrite E. unfold binary_round_aux.
    assert (Es : shr_fexp prec emax (Z.pos mx) ex loc_Exact
                 = shr (shr_record_of_loc (Z.pos mx) loc_Exact) ex (d - 53)).
    { unfold shr_fexp. fold d. rewrite Ef. f_equal. lia. }
    rewrite Es.
    destruct (d - 53) as [|n|] eqn:En; try lia.
    rewrite (shr_pos_bits (Z.pos mx) ex n) by lia.
    set (m' := Z.pos mx / 2 ^ Z.pos n).
    set (r := Z.odd (Z.pos mx / 2 ^ (Z.pos n - 1))).
    set (sb := negb (Z.pos mx mod 2 ^ (Z.pos n - 1) =? 0)).
    cbn [shr_m fst snd].
    assert (HPn : 0 < 2 ^ Z.pos n) by (apply Z.pow_pos_nonneg; lia).
    assert (HPn1 : 0 < 2 ^ (Z.pos n - 1)) by (apply Z.pow_pos_nonneg; lia).
    assert (EPn : 2 ^ Z.pos n = 2 ^ (Z.pos n - 1) * 2).
    { replace (Z.pos n) with (Z.succ (Z.pos n - 1)) at 1 by lia.
      rewrite Z.pow_succ_r by lia. lia. }
    assert (Hd1 : 2 ^ (d - 1) = 2 ^ 52 * 2 ^ Z.pos n).
    { rewrite <- Z.pow_add_r by lia. f_equal. lia. }
    assert (Hd2 : 2 ^ d = 2 ^ 53 * 2 ^ Z.pos n).
    { rewrite <- Z.pow_add_r by lia. f_equal. lia. }
    assert (Hm52 : 2 ^ 52 <= m') by (apply Z.div_le_lower_bound; lia).
    assert (Hm53 : m' < 2 ^ 53) by (apply Z.div_lt_upper_bound; lia).
    set (W := 2 ^ (ex + 1074)).
    assert (HW : 0 < W) by (apply Z.pow_pos_nonneg; lia).
    assert (EG : 2 ^ (d + ex - 53 + 1074) = 2 ^ Z.pos n * W).
    { unfold W. rewrite <- Z.pow_add_r by lia. f_equal. lia. }
    assert (Ediv : Z.pos mx * W / 2 ^ (d + ex - 53 + 1074) = m').
    { rewrite EG. apply div_mul_pow; lia. }
    assert (Emod : Z.pos mx * W mod 2 ^ (d + ex - 53 + 1074)
                   = (Z.pos mx mod 2 ^ Z.pos n) * W).
    { rewrite EG. apply Z.mul_mod_distr_r; lia. }
    (* the rest in terms of the two bits *)
    set (a := Z.pos mx / 2 ^ (Z.pos n - 1)) in *.
    assert (Hrest : Z.pos mx mod 2 ^ Z.pos n
                    = 2 ^ (Z.pos n - 1) * (a mod 2) + Z.pos mx mod 2 ^ (Z.pos n - 1)).
    { rewrite EPn. unfold a. rewrite Z.rem_mul_r by lia. lia. }
    pose proof (Z.mod_pos_bound (Z.pos mx) (2 ^ (Z.pos n - 1)) HPn1) as Hlow.
    pose proof (Z.mod_pos_bound a 2 ltac:(lia)) as Ha.
    assert (Hr : (r = false -> a mod 2 = 0) /\ (r = true -> a mod 2 = 1)).
    { unfold r. rewrite (Zodd_mod a).
      destruct (Z.eqb_spec (a mod 2) 1); split; intros; try done; lia. }
    assert (Hs : sb = false -> Z.pos mx mod 2 ^ (Z.pos n - 1) = 0).
    { unfold sb. intros H%negb_false_iff. by apply Z.eqb_eq. }
    assert (Hg1074 : -1074 <= ex + Z.pos n) by lia.
    rewrite Ediv, Emod, EG.
    destruct (round_nearest_even_bits m' r sb) as [[Er Hrs] | [Er Hrt]];
      cbn zeta in Er; rewrite Er.
    + destruct (shr_fexp_exact m' (ex + Z.pos n) ltac:(lia) ltac:(lia) Hg1074)
        as (mR & eR & r2 & s2 & E2 & HmR & Eval & HeR).
      rewrite E2. cbn [shr_m].
      destruct mR as [|pR|]; try lia.
      exists pR, eR. unfold prec, emax.
      replace (eR <=? 1024 - 53) with true by (symmetry; apply Z.leb_le; lia).
      split; [reflexivity|]. split; [lia|]. left. split.
      * rewrite Eval. replace (ex + Z.pos n + 1074) with (Z.pos n + (ex + 1074)) by lia.
        rewrite Z.pow_add_r by lia. fold W. lia.
      * rewrite Hrest.
        assert (2 * (2 ^ (Z.pos n - 1) * (a mod 2)
                     + Z.pos mx mod 2 ^ (Z.pos n - 1)) <= 2 ^ Z.pos n).
        { destruct Hrs as [Hf|Hf].
          - rewrite (proj1 Hr Hf). lia.
          - rewrite (Hs Hf). nia. }
        nia.
    + destruct (shr_fexp_exact (m' + 1) (ex + Z.pos n) ltac:(lia) ltac:(lia) Hg1074)
        as (mR & eR & r2 & s2 & E2 & HmR & Eval & HeR).
      rewrite E2. cbn [shr_m].
      destruct mR as [|pR|]; try lia.
      exists pR, eR. unfold prec, emax.
      replace (eR <=? 1024 - 53) with true by (symmetry; apply Z.leb_le; lia).
      split; [reflexivity|]. split; [lia|]. right. split.
      * rewrite Eval. replace (ex + Z.pos n + 1074) with (Z.pos n + (ex + 1074)) by lia.
        rewrite Z.pow_add_r by lia. fold W. lia.
      * rewrite Hrest, (proj2 Hr Hrt). nia.
Qed.

Lemma div_between a b q : 0 < b -> q * b <= a < (q + 1) * b -> a / b = q.
Proof.
  intros Hb [Hlo Hhi]. symmetry. apply Z.div_unique with (a - q * b); lia.
Qed.

(** The integer part of a float64 given by bounds on its magnitude. *)
Lemma int_of_float64_between s mR eR M :
  -1074 <= eR -> 0 <= M < 2 ^ 62 ->
  M * 2 ^ 1074 <= Z.pos mR * 2 ^ (eR + 1074) < (M + 1) * 2 ^ 1074 ->
  int_of_float64 (S754_finite s mR eR) = if s then - M else M.
Proof.
  intros HeR HM Hb.
  assert (HQ : 0 < 2 ^ 1074) by (apply Z.pow_pos_nonneg; lia).
  assert (Ha : (if 0 <=? eR then Z.pos mR * 2 ^ eR else Z.pos mR / 2 ^ (- eR)) = M).
  { rewrite <- (div_between _ _ M HQ Hb).
    destruct (Z.leb_spec 0 eR) as [Hpos|Hneg].
    - rewrite Z.pow_add_r, Z.mul_assoc, Z.div_mul by lia. reflexivity.
    - assert (E : 2 ^ 1074 = 2 ^ (- eR) * 2 ^ (eR + 1074)).
      { rewrite <- Z.pow_add_r by lia. f_equal. lia. }
      rewrite E. symmetry. apply div_mul_pow; apply Z.pow_pos_nonneg; lia. }
  unfold int_of_float64. rewrite Ha.
  assert (H62 : 2 ^ 62 < 2 ^ 63) by (apply Z.pow_lt_mono_r; lia).
  destruct s.
  - replace ((- 2 ^ 63 <=? - M) && (- M <? 2 ^ 63)) with true; [reflexivity|].
    symmetry. apply andb_true_iff. split; [apply Z.leb_le|apply Z.ltb_lt]; lia.
  - replace ((- 2 ^ 63 <=? M) && (M <? 2 ^ 63)) with true; [reflexivity|].
    symmetry. apply andb_true_iff. split; [apply Z.leb_le|apply Z.ltb_lt]; lia.
Qed.

Lemma Zdigits2_abs x : Zdigits2 (Z.abs x) = Zdigits2 x.
Proof. by destruct x. Qed.

Lemma Zdigits2_le x k : x <> 0 -> Z.abs x < 2 ^ k -> 0 <= k -> 0 < Zdigits2 x <= k.
Proof.
  intros Hx Hlt Hk. rewrite <- Zdigits2_abs.
  pose proof (Zdigits2_bounds (Z.abs x) ltac:(lia)) as [Hlo _].
  pose proof (Zdigits2_pos (Z.abs x) ltac:(lia)).
  split; [done|].
  destruct (Z.le_gt_cases (Zdigits2 (Z.abs x)) k) as [|Hgt]; [done|].
  assert (2 ^ k <= 2 ^ (Zdigits2 (Z.abs x) - 1)) by (apply Z.pow_le_mono_r; lia).
  lia.
Qed.

(** The sum of the exponent and the number of bits of a mantissa, from
    bounds on the magnitude. *)
Lemma digits_of_magnitude S e lo hi :
  0 < S -> -1074 <= e -> 0 <= lo -> 0 <= hi ->
  2 ^ lo <= S * 2 ^ (e + 1074) < 2 ^ hi ->
  lo - 1074 < Zdigits2 S + e <= hi - 1074.
Proof.
  intros HS He Hlo Hhi [H1 H2].
  pose proof (Zdigits2_bounds S HS) as [Hd1 Hd2].
  pose proof (Zdigits2_pos S HS) as Hd.
  assert (HP : 0 < 2 ^ (e + 1074)) by (apply Z.pow_pos_nonneg; lia).
  split.
  - assert (H : 2 ^ lo < 2 ^ (Zdigits2 S + (e + 1074))).
    { rewrite Z.pow_add_r by lia.
      apply Z.le_lt_trans with (S * 2 ^ (e + 1074)); [done|].
      apply Z.mul_lt_mono_pos_r; lia. }
    apply Z.pow_lt_mono_r_iff in H; lia.
  - assert (H : 2 ^ (Zdigits2 S - 1 + (e + 1074)) < 2 ^ hi).
    { rewrite Z.pow_add_r by lia.
      apply Z.le_lt_trans with (S * 2 ^ (e + 1074)); [|done].
      apply Z.mul_le_mono_nonneg_r; lia. }
    apply Z.pow_lt_mono_r_iff in H; lia.
Qed.

Lemma float64_of_int_Minute :
  float64_of_int (60 * 1000000000) = S754_finite false 7864320000000000 (-17).
Proof. reflexivity. Qed.

(** The fraction of a minute: for a count [n] of nanoseconds less than
    a minute in magnitude, bounds of the exact quotient by 6e10 that are
    multiples of 2^-40 are bounds of the float64 quotient. *)
Lemma fraction_of_minute n L H :
  n <> 0 -> Z.abs n < 60000000000 ->
  0 <= L ->
  L * 60000000000 <= Z.abs n * 2 ^ 40 < H * 60000000000 ->
  exists mF eF,
    float64_div (float64_of_int n) (float64_of_int (60 * 1000000000))
    = S754_finite (n <? 0) mF eF
    /\ -1074 <= eF
    /\ L * 2 ^ 1034 <= Z.pos mF * 2 ^ (eF + 1074) <= H * 2 ^ 1034.
Proof.
  intros Hn0 Hn HL [HLn HnH].
  assert (H36 : Z.abs n < 2 ^ 36) by (change (2 ^ 36) with 68719476736; lia).
  destruct (float64_of_int_nonzero n Hn0) as (pm & EN & Hpm & Hd53).
  { assert (2 ^ 36 < 2 ^ 53) by (apply Z.pow_lt_mono_r; lia). lia. }
  pose proof (Zdigits2_le n 36 Hn0 H36 ltac:(lia)) as Hdn.
  set (dn := Zdigits2 n) in *.
  set (c := 7864320000000000%positive).
  pose proof (Zdigits2_bounds (Z.pos pm) ltac:(lia)) as [Hpm1 Hpm2].
  rewrite Hd53 in Hpm1, Hpm2. change (53 - 1) with 52 in Hpm1.
  assert (Hc1 : 2 ^ 52 <= Z.pos c) by (apply Z.leb_le; reflexivity).
  assert (Hc2 : Z.pos c < 2 ^ 53) by (apply Z.ltb_lt; reflexivity).
  assert (E5253 : 2 ^ 53 = 2 * 2 ^ 52) by reflexivity.
  assert (E54 : 2 ^ 54 = 2 * 2 ^ 53) by reflexivity.
  assert (H52 : 0 < 2 ^ 52) by reflexivity.
  set (q := Z.pos pm * 2 ^ 53 / Z.pos c).
  assert (Hq1 : 2 ^ 52 <= q).
  { apply Z.div_le_lower_bound; [lia|]. nia. }
  assert (Hq2 : q < 2 ^ 54).
  { apply Z.div_lt_upper_bound; [lia|]. nia. }
  assert (Hqc : q * Z.pos c <= Z.pos pm * 2 ^ 53).
  { rewrite Z.mul_comm. apply Z.mul_div_le. lia. }
  assert (Hdq : 53 <= Zdigits2 q <= 54).
  { pose proof (Zdigits2_bounds q ltac:(lia)) as [Hlo Hhi].
    pose proof (Zdigits2_pos q ltac:(lia)).
    split.
    - destruct (Z.le_gt_cases 53 (Zdigits2 q)) as [|Hlt]; [done|].
      assert (2 ^ Zdigits2 q <= 2 ^ 52) by (apply Z.pow_le_mono_r; lia). lia.
    - destruct (Z.le_gt_cases (Zdigits2 q) 54) as [|Hgt]; [done|].
      assert (2 ^ 54 <= 2 ^ (Zdigits2 q - 1)) by (apply Z.pow_le_mono_r; lia).
      lia. }
  assert (Ecore : SFdiv_core_binary prec emax (Z.pos pm) (dn - 53) (Z.pos c) (-17)
                  = (q, dn - 89,
                     new_location (Z.pos c) (Z.pos pm * 2 ^ 53 mod Z.pos c))).
  { unfold SFdiv_core_binary. rewrite Hd53.
    change (Zdigits2 (Z.pos c)) with 53.
    replace (Z.min (fexp prec emax (53 + (dn - 53) - (53 + -17))) (dn - 53 - -17))
      with (dn - 89) by (unfold fexp, emin, prec, emax; lia).
    replace (dn - 53 - -17 - (dn - 89)) with 53 by lia.
    rewrite Z.shiftl_mul_pow2 by lia.
    unfold q, Z.div, Z.modulo.
    by destruct (Z.div_eucl (Z.pos pm * 2 ^ 53) (Z.pos c)). }
  destruct (binary_round_aux_spec (xorb (n <? 0) false) q (dn - 89)
              (new_location (Z.pos c) (Z.pos pm * 2 ^ 53 mod Z.pos c)))
    as (mF & eF & EF & HeF & Hval); try lia.
  rewrite xorb_false_r in EF.
  exists mF, eF. split; [|split; [exact HeF|]].
  { unfold float64_div, SFdiv. rewrite EN, float64_of_int_Minute.
    fold c. rewrite Ecore, xorb_false_r. exact EF. }
  rewrite Z.max_r in Hval by lia.
  set (t := Zdigits2 q + (dn - 89) - 53 + 1074) in *.
  assert (Ht : 0 <= t <= 1022) by lia.
  set (G := 2 ^ t) in *.
  assert (HG : 0 < G) by (apply Z.pow_pos_nonneg; lia).
  set (X := q * 2 ^ (dn - 89 + 1074)) in *.
  set (P := 2 ^ 1034).
  assert (HP : 0 < P) by (apply Z.pow_pos_nonneg; lia).
  set (W := 2 ^ (dn - 89 + 1074)) in *.
  assert (HW : 0 < W) by (apply Z.pow_pos_nonneg; lia).
  assert (EW : 2 ^ (53 - dn) * 2 ^ 53 * W = 2 ^ 17 * 2 ^ 40 * P).
  { unfold W, P. rewrite <- !Z.pow_add_r by lia. f_equal. lia. }
  assert (EPW : P = 2 ^ (49 - dn) * W).
  { unfold W, P. rewrite <- Z.pow_add_r by lia. f_equal. lia. }
  assert (E5349 : 2 ^ (53 - dn) = 16 * 2 ^ (49 - dn)).
  { change 16 with (2 ^ 4). rewrite <- Z.pow_add_r by lia. f_equal. lia. }
  assert (Hpw : 0 < 2 ^ (49 - dn)) by (apply Z.pow_pos_nonneg; lia).
  assert (EPG : P = 2 ^ (1034 - t) * G).
  { unfold P, G. rewrite <- Z.pow_add_r by lia. f_equal. lia. }
  assert (Hu : 0 < 2 ^ (1034 - t)) by (apply Z.pow_pos_nonneg; lia).
  change (2 ^ 40) with 1099511627776 in *.
  (* the exact quotient is below H 2^-40 *)
  assert (HX : X < H * P).
  { assert (H1 : X * Z.pos c <= Z.abs n * (2 ^ 17 * 1099511627776 * P)).
    { rewrite <- EW, Hpm in *. unfold X. nia. }
    assert (H2 : Z.abs n * 1099511627776 * P <= (H * 60000000000 - 1) * P)
      by (apply Z.mul_le_mono_nonneg_r; lia).
    change (Z.pos c) with (60000000000 * 2 ^ 17) in H1.
    change (2 ^ 17) with 131072 in H1.
    nia. }
  (* and it is L 2^-40 or more *)
  assert (HXL : L * P <= X).
  { unfold X, q. rewrite EPW, Z.mul_assoc.
    apply Z.mul_le_mono_nonneg_r; [lia|].
    apply Z.div_le_lower_bound; [lia|].
    rewrite Hpm, E5349.
    change (Z.pos c) with (60000000000 * 131072).
    change (2 ^ 53) with (68719476736 * 131072).
    assert (L * 60000000000 * 2 ^ (49 - dn)
            <= Z.abs n * 1099511627776 * 2 ^ (49 - dn))
      by (apply Z.mul_le_mono_nonneg_r; lia).
    lia. }
  (* the bounds are on the grid of the quotient *)
  set (u := 2 ^ (1034 - t)) in *.
  assert (Hfloor : X / G * G <= X).
  { rewrite Z.mul_comm. apply Z.mul_div_le. done. }
  assert (Hlo : L * u <= X / G)
    by (apply Z.div_le_lower_bound; [done|]; rewrite EPG in HXL; lia).
  assert (Hhi : X / G < H * u)
    by (apply Z.div_lt_upper_bound; [done|]; rewrite EPG in HX; lia).
  assert (Hlo1 : L * u * G <= X / G * G)
    by (apply Z.mul_le_mono_nonneg_r; lia).
  assert (Hhi1 : (X / G + 1) * G <= H * u * G)
    by (apply Z.mul_le_mono_nonneg_r; lia).
  fold P. rewrite EPG.
  destruct Hval as [-> | [-> _]]; lia.
Qed.

(** A whole number of minutes, less than 2^18, plus a fraction of the
    same sign. Bounds of the fraction that are multiples of 2^-36 are
    bounds of the float64 sum, where a bound that is an odd multiple,
    which the sum may lie half a step of its grid from, is not
    attained. *)
Lemma add_fraction m mF eF L H :
  m <> 0 -> Z.abs m < 2 ^ 18 -> -1074 <= eF ->
  0 <= L -> H < 2 ^ 36 ->
  L * 2 ^ 1038 <= Z.pos mF * 2 ^ (eF + 1074) <= H * 2 ^ 1038 ->
  (Z.odd L = true -> L * 2 ^ 1038 < Z.pos mF * 2 ^ (eF + 1074)) ->
  (Z.odd H = true -> Z.pos mF * 2 ^ (eF + 1074) < H * 2 ^ 1038) ->
  exists mR eR,
    float64_add (float64_of_int m) (S754_finite (m <? 0) mF eF)
    = S754_finite (m <? 0) mR eR
    /\ -1074 <= eR
    /\ Z.abs m * 2 ^ 1074 + L * 2 ^ 1038
       <= Z.pos mR * 2 ^ (eR + 1074)
       <= Z.abs m * 2 ^ 1074 + H * 2 ^ 1038.
Proof.
  intros Hm0 Hm HeF HL HH HF HLodd HHodd.
  destruct (float64_of_int_nonzero m Hm0) as (pa & EA & Hpa & _).
  { assert (2 ^ 18 < 2 ^ 53) by (apply Z.pow_lt_mono_r; lia). lia. }
  pose proof (Zdigits2_le m 18 Hm0 Hm ltac:(lia)) as Hdm.
  set (dm := Zdigits2 m) in *.
  set (ez := Z.min (dm - 53) eF).
  destruct (shl_align_value pa (dm - 53) ez ltac:(lia)) as [Ha _].
  destruct (shl_align_value mF eF ez ltac:(lia)) as [Hf _].
  set (a := fst (shl_align pa (dm - 53) ez)) in *.
  set (f := fst (shl_align mF eF ez)) in *.
  assert (Eadd : float64_add (float64_of_int m) (S754_finite (m <? 0) mF eF)
                 = binary_round prec emax (m <? 0) (a + f) ez).
  { unfold float64_add, SFadd. rewrite EA. fold ez a f.
    by destruct (m <? 0). }
  set (Q := 2 ^ 1074).
  set (P := 2 ^ 1038) in *.
  assert (HQ : 0 < Q) by (apply Z.pow_pos_nonneg; lia).
  assert (HP : 0 < P) by (apply Z.pow_pos_nonneg; lia).
  assert (EQP : Q = 68719476736 * P).
  { unfold Q, P. change 68719476736 with (2 ^ 36).
    rewrite <- Z.pow_add_r by lia. reflexivity. }
  change (2 ^ 36) with 68719476736 in HH.
  change (2 ^ 18) with 262144 in Hm.
  (* the exact sum *)
  assert (EX : Z.pos (a + f) * 2 ^ (ez + 1074)
               = Z.abs m * Q + Z.pos mF * 2 ^ (eF + 1074)).
  { rewrite Pos2Z.inj_add, Ha, Hf, Hpa, Z.mul_add_distr_r.
    rewrite <- !Z.mul_assoc, <- !Z.pow_add_r by lia. unfold Q.
    f_equal; f_equal; f_equal; lia. }
  set (X := Z.pos (a + f) * 2 ^ (ez + 1074)) in *.
  set (F := Z.pos mF * 2 ^ (eF + 1074)) in *.
  assert (HF0 : 0 < F).
  { apply Z.mul_pos_pos; [lia|]. apply Z.pow_pos_nonneg; lia. }
  assert (HHP : H * P <= 68719476735 * P)
    by (apply Z.mul_le_mono_nonneg_r; lia).
  assert (Hmag : 2 ^ 1074 <= X < 2 ^ 1092).
  { assert (E1092 : 2 ^ 1092 = 262144 * Q).
    { unfold Q. change 262144 with (2 ^ 18).
      rewrite <- Z.pow_add_r by lia. reflexivity. }
    assert (H1 : 1 * Q <= Z.abs m * Q)
      by (apply Z.mul_le_mono_nonneg_r; lia).
    assert (H2 : Z.abs m * Q <= 262143 * Q)
      by (apply Z.mul_le_mono_nonneg_r; lia).
    fold Q. rewrite E1092, EX. lia. }
  pose proof (digits_of_magnitude (Z.pos (a + f)) ez 1074 1092
                ltac:(lia) ltac:(lia) ltac:(lia) ltac:(lia) Hmag) as Hd.
  destruct (binary_round_nearest (m <? 0) (a + f) ez ltac:(lia) ltac:(lia))
    as (mR & eR & ER & HeR & Hval).
  fold X in Hval.
  set (t := Zdigits2 (Z.pos (a + f)) + ez - 53 + 1074) in *.
  assert (Ht : 1022 <= t <= 1039) by lia.
  set (G := 2 ^ t) in *.
  assert (HG : 0 < G) by (apply Z.pow_pos_nonneg; lia).
  set (lo := Z.abs m * 68719476736 + L).
  set (hi := Z.abs m * 68719476736 + H).
  assert (Elo : Z.abs m * Q + L * P = lo * P) by (unfold lo; rewrite EQP; lia).
  assert (Ehi : Z.abs m * Q + H * P = hi * P) by (unfold hi; rewrite EQP; lia).
  assert (HXlo : lo * P <= X) by lia.
  assert (HXhi : X <= hi * P) by lia.
  assert (Hfloor : X / G * G <= X).
  { rewrite Z.mul_comm. apply Z.mul_div_le. done. }
  assert (Hceil : X < (X / G + 1) * G).
  { pose proof (Z.mod_pos_bound X G HG). pose proof (Z.div_mod X G). lia. }
  assert (Emod : X mod G = X - X / G * G).
  { pose proof (Z.div_mod X G). lia. }
  exists mR, eR. rewrite Eadd. split; [exact ER|]. split; [exact HeR|].
  fold Q. rewrite Elo, Ehi.
  set (V := Z.pos mR * 2 ^ (eR + 1074)) in *.
  set (k := X / G) in *.
  destruct (Z.le_gt_cases t 1038) as [Hfine|Hcoarse].
  - (* both bounds are on the grid of the sum *)
    assert (EPG : P = 2 ^ (1038 - t) * G).
    { unfold P, G. rewrite <- Z.pow_add_r by lia. f_equal. lia. }
    set (u := 2 ^ (1038 - t)) in *.
    assert (Hu : 0 < u) by (apply Z.pow_pos_nonneg; lia).
    assert (HXlo' : lo * u * G <= X) by (rewrite EPG in HXlo; lia).
    assert (HXhi' : X <= hi * u * G) by (rewrite EPG in HXhi; lia).
    assert (Hq1 : lo * u <= k) by (apply Z.div_le_lower_bound; lia).
    assert (Hlo1 : lo * u * G <= k * G)
      by (apply Z.mul_le_mono_nonneg_r; lia).
    rewrite EPG.
    destruct Hval as [[-> _] | [-> Hhalf]].
    + split; lia.
    + assert (HXne : X <> hi * u * G).
      { intros E. rewrite Emod in Hhalf.
        assert (k = hi * u).
        { unfold k. rewrite E. apply Z.div_mul. lia. }
        lia. }
      assert (Hlt : k < hi * u) by (apply Z.div_lt_upper_bound; lia).
      assert (Hhi1 : (k + 1) * G <= hi * u * G)
        by (apply Z.mul_le_mono_nonneg_r; lia).
      split; lia.
  - (* the grid of the sum has the step 2^-35: an odd bound is half a
       step from the grid *)
    assert (Et : t = 1039) by lia.
    assert (EG : G = 2 * P).
    { unfold G, P. rewrite Et. reflexivity. }
    rewrite Emod in Hval.
    assert (Hodd : forall x, Z.odd (Z.abs m * 68719476736 + x) = Z.odd x).
    { intros x. rewrite Z.odd_add, Z.odd_mul. simpl (Z.odd 68719476736).
      by rewrite andb_false_r. }
    destruct Hval as [[-> Hhalf] | [-> Hhalf]].
    + (* the neighbour below *)
      split; [|lia].
      destruct (Z.le_gt_cases lo (2 * k)) as [Hle|Hgt].
      * assert (lo * P <= 2 * k * P) by (apply Z.mul_le_mono_nonneg_r; lia).
        lia.
      * exfalso.
        assert (H1 : (2 * k + 1) * P <= lo * P)
          by (apply Z.mul_le_mono_nonneg_r; lia).
        assert (H2 : X = lo * P) by lia.
        assert (H3 : lo = 2 * k + 1).
        { apply (Z.mul_reg_r _ _ P); lia. }
        assert (H4 : Z.odd L = true).
        { rewrite <- (Hodd L). fold lo. rewrite H3.
          rewrite Z.add_comm, Z.odd_add_mul_2. reflexivity. }
        specialize (HLodd H4). lia.
    + (* the neighbour above *)
      split; [lia|].
      destruct (Z.le_gt_cases (2 * k + 2) hi) as [Hle|Hgt].
      * assert ((2 * k + 2) * P <= hi * P) by (apply Z.mul_le_mono_nonneg_r; lia).
        lia.
      * exfalso.
        assert (H1 : hi * P <= (2 * k + 1) * P)
          by (apply Z.mul_le_mono_nonneg_r; lia).
        assert (H2 : X = hi * P) by lia.
        assert (H3 : hi = 2 * k + 1).
        { apply (Z.mul_reg_r _ _ P); lia. }
        assert (H4 : Z.odd H = true).
        { rewrite <- (Hodd H). fold hi. rewrite H3.
          rewrite Z.add_comm, Z.odd_add_mul_2. reflexivity. }
        specialize (HHodd H4). lia.
Qed.

(** The quotient and the remainder that [Minutes] starts from. *)
Lemma quot_rem_Minute (d : Z) :
  Z.abs (Z.quot d 60000000000) = Z.abs d / 60000000000
  /\ Z.abs (Z.rem d 60000000000) = Z.abs d mod 60000000000
  /\ (Z.quot d 60000000000 <> 0 -> (Z.quot d 60000000000 <? 0) = (d <? 0))
  /\ (Z.rem d 60000000000 <> 0 -> (Z.rem d 60000000000 <? 0) = (d <? 0)).
Proof.
  repeat split.
  - Z.to_euclidean_division_equations. lia.
  - Z.to_euclidean_division_equations. lia.
  - intros H. destruct (Z.ltb_spec (Z.quot d 60000000000) 0), (Z.ltb_spec d 0);
      try reflexivity; Z.to_euclidean_division_equations; lia.
  - intros H. destruct (Z.ltb_spec (Z.rem d 60000000000) 0), (Z.ltb_spec d 0);
      try reflexivity; Z.to_euclidean_division_equations; lia.
Qed.

(** The magnitude of [Minutes], in units of 2^-1074, for a duration of
    less than 2^18 minutes that is not a whole number of minutes:
    multiples of 2^-36 that the fraction of a minute is 2^-40 or more
    away from, on either side, are bounds of the float64. *)
Lemma Minutes_fraction (d : time.Duration) (L H : Z) :
  Z.abs d < 2 ^ 18 * time.Minute ->
  Z.abs d mod time.Minute <> 0 ->
  0 <= L -> H < 2 ^ 36 ->
  (16 * L + 1) * 60000000000
  <= (Z.abs d mod time.Minute) * 2 ^ 40
  < (16 * H - 1) * 60000000000 ->
  exists mR eR,
    time.Minutes d = S754_finite (d <? 0) mR eR
    /\ -1074 <= eR
    /\ (Z.abs d / time.Minute) * 2 ^ 1074 + L * 2 ^ 1038
       <= Z.pos mR * 2 ^ (eR + 1074)
       <= (Z.abs d / time.Minute) * 2 ^ 1074 + H * 2 ^ 1038.
Proof.
  change time.Minute with 60000000000. change (2 ^ 18) with 262144.
  intros Hd Hr0 HL HH Hr. unfold time.Minutes.
  change time.Minute with 60000000000.
  destruct (quot_rem_Minute d) as (Em & En & Hsm & Hsn).
  set (m := Z.quot d 60000000000) in *.
  set (n := Z.rem d 60000000000) in *.
  assert (Hm : Z.abs m < 2 ^ 18).
  { change (2 ^ 18) with 262144. rewrite Em.
    apply Z.div_lt_upper_bound; lia. }
  assert (Hn : Z.abs n < 60000000000).
  { rewrite En. apply Z.mod_pos_bound. lia. }
  assert (Hn0 : n <> 0) by lia.
  rewrite <- Em. rewrite <- En in Hr.
  destruct (fraction_of_minute n (16 * L + 1) (16 * H - 1) Hn0 Hn ltac:(lia) Hr)
    as (mF & eF & EF & HeF & HF).
  assert (HP : 0 < 2 ^ 1034) by (apply Z.pow_pos_nonneg; lia).
  assert (EP : 2 ^ 1038 = 16 * 2 ^ 1034).
  { change 16 with (2 ^ 4). rewrite <- Z.pow_add_r by lia. reflexivity. }
  rewrite EF, (Hsn Hn0).
  destruct (Z.eq_dec m 0) as [E0|Hm0].
  - rewrite E0. change (float64_of_int 0) with (S754_zero false).
    exists mF, eF. split; [reflexivity|]. split; [exact HeF|].
    simpl Z.abs. lia.
  - rewrite <- (Hsm Hm0). apply add_fraction; try done; lia.
Qed.

(** The same for a whole number of minutes, and for a whole number and
    a half. *)
Lemma Minutes_whole (d : time.Duration) :
  Z.abs d < 2 ^ 18 * time.Minute -> d <> 0 ->
  Z.abs d mod time.Minute = 0 ->
  exists mR eR,
    time.Minutes d = S754_finite (d <? 0) mR eR
    /\ -1074 <= eR
    /\ Z.pos mR * 2 ^ (eR + 1074) = (Z.abs d / time.Minute) * 2 ^ 1074.
Proof.
  change time.Minute with 60000000000. change (2 ^ 18) with 262144.
  intros Hd Hd0 Hr. unfold time.Minutes.
  change time.Minute with 60000000000.
  destruct (quot_rem_Minute d) as (Em & En & Hsm & Hsn).
  set (m := Z.quot d 60000000000) in *.
  set (n := Z.rem d 60000000000) in *.
  rewrite <- Em.
  assert (En0 : n = 0) by lia.
  assert (Hm0 : m <> 0).
  { intros E. pose proof (Z.div_mod (Z.abs d) 60000000000 ltac:(lia)). lia. }
  assert (Hm : Z.abs m < 2 ^ 18).
  { change (2 ^ 18) with 262144. rewrite Em.
    apply Z.div_lt_upper_bound; lia. }
  rewrite En0. change (float64_div (float64_of_int 0) _) with (S754_zero false).
  destruct (float64_of_int_nonzero m Hm0) as (pa & EA & Hpa & _).
  { assert (2 ^ 18 < 2 ^ 53) by (apply Z.pow_lt_mono_r; lia). lia. }
  pose proof (Zdigits2_le m 18 Hm0 Hm ltac:(lia)) as Hdm.
  rewrite EA, (Hsm Hm0). exists pa, (Zdigits2 m - 53).
  split; [reflexivity|]. split; [lia|].
  rewrite Hpa, <- Z.mul_assoc, <- Z.pow_add_r by lia.
  f_equal. f_equal. lia.
Qed.

Lemma Minutes_half (d : time.Duration) :
  Z.abs d < 2 ^ 18 * time.Minute ->
  Z.abs d mod time.Minute = 30000000000 ->
  exists mR eR,
    time.Minutes d = S754_finite (d <? 0) mR eR
    /\ -1074 <= eR
    /\ Z.pos mR * 2 ^ (eR + 1074)
       = (Z.abs d / time.Minute) * 2 ^ 1074 + 2 ^ 1073.
Proof.
  change time.Minute with 60000000000. change (2 ^ 18) with 262144.
  intros Hd Hr. unfold time.Minutes.
  change time.Minute with 60000000000.
  destruct (quot_rem_Minute d) as (Em & En & Hsm & Hsn).
  set (m := Z.quot d 60000000000) in *.
  set (n := Z.rem d 60000000000) in *.
  rewrite <- Em.
  assert (Hm : Z.abs m < 2 ^ 18).
  { change (2 ^ 18) with 262144. rewrite Em.
    apply Z.div_lt_upper_bound; lia. }
  assert (Hn0 : n <> 0) by lia.
  assert (EF : float64_div (float64_of_int n) (float64_of_int (60 * 1000000000))
               = S754_finite (n <? 0) 4503599627370496 (-53)).
  { assert (Hn : n = 30000000000 \/ n = -30000000000) by lia.
    destruct Hn as [-> | ->]; reflexivity. }
  assert (E1073 : 2 ^ 1073 = 2 ^ 35 * 2 ^ 1038)
    by (rewrite <- Z.pow_add_r by lia; reflexivity).
  assert (EV : Z.pos 4503599627370496 * 2 ^ (-53 + 1074) = 2 ^ 35 * 2 ^ 1038).
  { change (Z.pos 4503599627370496) with (2 ^ 52).
    rewrite <- !Z.pow_add_r by lia. reflexivity. }
  rewrite EF, (Hsn Hn0).
  destruct (Z.eq_dec m 0) as [E0|Hm0].
  - rewrite E0. change (float64_of_int 0) with (S754_zero false).
    exists 4503599627370496%positive, (-53).
    split; [reflexivity|]. split; [lia|].
    rewrite EV, E1073. simpl Z.abs. lia.
  - rewrite <- (Hsm Hm0).
    destruct (add_fraction m 4503599627370496 (-53) (2 ^ 35) (2 ^ 35) Hm0 Hm)
      as (mR & eR & ER & HeR & HV);
      [lia|by vm_compute|by vm_compute|rewrite EV; lia|discriminate|discriminate|].
    exists mR, eR. split; [exact ER|]. split; [exact HeR|].
    rewrite E1073. lia.
Qed.

(** For a duration of less than 2^18 minutes in magnitude, the integer
    part of [Minutes] is the number of whole minutes. *)
Lemma int_of_Minutes (d : time.Duration) :
  - (2 ^ 18 * time.Minute) < d < 2 ^ 18 * time.Minute ->
  int_of_float64 (time.Minutes d) = Z.quot d time.Minute.
Proof.
  intros Hd.
  assert (Habs : Z.abs d < 2 ^ 18 * time.Minute) by lia.
  assert (Hq : Z.quot d time.Minute
               = if d <? 0 then - (Z.abs d / time.Minute)
                 else Z.abs d / time.Minute).
  { change time.Minute with 60000000000.
    destruct (Z.ltb_spec d 0); Z.to_euclidean_division_equations; lia. }
  assert (HM : 0 <= Z.abs d / time.Minute < 2 ^ 62).
  { change time.Minute with 60000000000 in *.
    change (2 ^ 18) with 262144 in Habs.
    split; [apply Z.div_pos; lia|].
    apply Z.div_lt_upper_bound; [lia|].
    change (2 ^ 62) with 4611686018427387904. lia. }
  assert (HQ : 0 < 2 ^ 1074) by (apply Z.pow_pos_nonneg; lia).
  assert (HP : 0 < 2 ^ 1038) by (apply Z.pow_pos_nonneg; lia).
  assert (EQP : 2 ^ 1074 = 68719476736 * 2 ^ 1038).
  { change 68719476736 with (2 ^ 36).
    rewrite <- Z.pow_add_r by lia. reflexivity. }
  rewrite Hq.
  destruct (Z.eq_dec (Z.abs d mod time.Minute) 0) as [Hr|Hr].
  - destruct (Z.eq_dec d 0) as [->|Hd0]; [reflexivity|].
    destruct (Minutes_whole d Habs Hd0 Hr) as (mR & eR & -> & HeR & HV).
    apply int_of_float64_between; [exact HeR|exact HM|]. lia.
  - destruct (Minutes_fraction d 0 (2 ^ 36 - 1) Habs Hr)
      as (mR & eR & -> & HeR & HV).
    + lia.
    + lia.
    + pose proof (Z.mod_pos_bound (Z.abs d) time.Minute ltac:(reflexivity)).
      change time.Minute with 60000000000 in *.
      change (2 ^ 36) with 68719476736. change (2 ^ 40) with 1099511627776. lia.
    + apply int_of_float64_between; [exact HeR|exact HM|].
      change (2 ^ 36) with 68719476736 in HV. lia.
Qed.


(** The decimal digits do not depend on the fuel, once there is
    enough. *)
Lemma formatBits_enough (f1 f2 : nat) (n : Z) (acc : string) :
  (0 < f1)%nat -> (0 < f2)%nat ->
  0 <= n < 10 ^ Z.of_nat f1 -> n < 10 ^ Z.of_nat f2 ->
  strconv.formatBits f1 n acc = strconv.formatBits f2 n acc.
Proof.
  revert f2 n acc. induction f1 as [|f1 IH]; intros f2 n acc H1 H2 Hn1 Hn2; [lia|].
  destruct f2 as [|f2]; [lia|]. cbn [strconv.formatBits].
  destruct (Z.ltb_spec n 10) as [Hlt|Hge]; [reflexivity|].
  rewrite Nat2Z.inj_succ, Z.pow_succ_r in Hn1, Hn2 by lia.
  assert (0 < f1)%nat.
  { destruct f1; [|lia]. simpl in Hn1. lia. }
  assert (0 < f2)%nat.
  { destruct f2; [|lia]. simpl in Hn2. lia. }
  apply IH; try done.
  - split; [apply Z.div_pos; lia|]. apply Z.div_lt_upper_bound; lia.
  - apply Z.div_lt_upper_bound; lia.
Qed.

Lemma decimal_Itoa (n : Z) :
  0 <= n < 10 ^ 20 ->
  strconv.formatBits (S (Z.to_nat (Z.log2 n))) n "" = strconv.Itoa n.
Proof.
  intros Hn. unfold strconv.Itoa.
  destruct (Z.ltb_spec n 0); [lia|].
  apply formatBits_enough; try lia.
  rewrite Nat2Z.inj_succ, Z2Nat.id by apply Z.log2_nonneg.
  split; [lia|].
  destruct (Z.eq_dec n 0) as [->|Hn0]; [reflexivity|].
  pose proof (Z.log2_spec n ltac:(lia)) as [_ Hlt].
  assert (2 ^ Z.succ (Z.log2 n) <= 10 ^ Z.succ (Z.log2 n)).
  { apply Z.pow_le_mono_l. lia. }
  lia.
Qed.

(** [FormatFloat_f_0] of a finite float64, from its magnitude [V] in
    units of 2^-1074. *)
Lemma FormatFloat_f_0_finite s mR eR :
  -1074 <= eR ->
  strconv.FormatFloat_f_0 (S754_finite s mR eR)
  = (if s then "-" else "")
      ++ (let V := Z.pos mR * 2 ^ (eR + 1074) in
          let n :=
            if (2 ^ 1073 <? V mod 2 ^ 1074)
               || ((V mod 2 ^ 1074 =? 2 ^ 1073) && Z.odd (V / 2 ^ 1074))
            then V / 2 ^ 1074 + 1 else V / 2 ^ 1074 in
          strconv.formatBits (S (Z.to_nat (Z.log2 n))) n "").
Proof.
  intros HeR. unfold strconv.FormatFloat_f_0. f_equal. cbn zeta.
  assert (HQ : 0 < 2 ^ 1074) by (apply Z.pow_pos_nonneg; lia).
  assert (H1073 : 0 < 2 ^ 1073) by (apply Z.pow_pos_nonneg; lia).
  assert (En : (if 0 <=? eR then Z.pos mR * 2 ^ eR
                else if (2 ^ (- eR - 1) <? Z.pos mR mod 2 ^ (- eR))
                        || ((Z.pos mR mod 2 ^ (- eR) =? 2 ^ (- eR - 1))
                            && Z.odd (Z.pos mR / 2 ^ (- eR)))
                     then Z.pos mR / 2 ^ (- eR) + 1
                     else Z.pos mR / 2 ^ (- eR))
               = (if (2 ^ 1073 <? (Z.pos mR * 2 ^ (eR + 1074)) mod 2 ^ 1074)
                     || (((Z.pos mR * 2 ^ (eR + 1074)) mod 2 ^ 1074 =? 2 ^ 1073)
                         && Z.odd (Z.pos mR * 2 ^ (eR + 1074) / 2 ^ 1074))
                  then Z.pos mR * 2 ^ (eR + 1074) / 2 ^ 1074 + 1
                  else Z.pos mR * 2 ^ (eR + 1074) / 2 ^ 1074)).
  { destruct (Z.leb_spec 0 eR) as [Hpos|Hneg].
    - rewrite Z.pow_add_r, Z.mul_assoc by lia.
      rewrite Z.mod_mul, Z.div_mul by lia.
      replace (2 ^ 1073 <? 0) with false by (symmetry; apply Z.ltb_ge; lia).
      replace (0 =? 2 ^ 1073) with false by (symmetry; apply Z.eqb_neq; lia).
      reflexivity.
    - set (W := 2 ^ (eR + 1074)).
      assert (HW : 0 < W) by (apply Z.pow_pos_nonneg; lia).
      assert (Hk : 0 < 2 ^ (- eR)) by (apply Z.pow_pos_nonneg; lia).
      assert (EQ : 2 ^ 1074 = 2 ^ (- eR) * W).
      { unfold W. rewrite <- Z.pow_add_r by lia. f_equal. lia. }
      assert (Eh : 2 ^ 1073 = 2 ^ (- eR - 1) * W).
      { unfold W. rewrite <- Z.pow_add_r by lia. f_equal. lia. }
      rewrite EQ, Eh, Z.mul_mod_distr_r, div_mul_pow by lia.
      set (r := Z.pos mR mod 2 ^ (- eR)).
      set (h := 2 ^ (- eR - 1)).
      assert (E1 : (h * W <? r * W) = (h <? r)).
      { destruct (Z.ltb_spec h r), (Z.ltb_spec (h * W) (r * W));
          try reflexivity; nia. }
      assert (E2 : (r * W =? h * W) = (r =? h)).
      { destruct (Z.eqb_spec r h), (Z.eqb_spec (r * W) (h * W));
          try reflexivity; nia. }
      rewrite E1, E2. reflexivity. }
  rewrite En. reflexivity.
Qed.

Lemma FormatFloat_f_0_rounds s mR eR M :
  -1074 <= eR -> 0 <= M < 2 ^ 18 ->
  M * 2 ^ 1074 <= Z.pos mR * 2 ^ (eR + 1074) < (M + 1) * 2 ^ 1074 ->
  strconv.FormatFloat_f_0 (S754_finite s mR eR)
  = (if s then "-" else "")
      ++ strconv.Itoa
           (if (2 ^ 1073 <? Z.pos mR * 2 ^ (eR + 1074) - M * 2 ^ 1074)
               || ((Z.pos mR * 2 ^ (eR + 1074) - M * 2 ^ 1074 =? 2 ^ 1073)
                   && Z.odd M)
            then M + 1 else M).
Proof.
  intros HeR HM HV. rewrite FormatFloat_f_0_finite by exact HeR. cbn zeta.
  assert (HQ : 0 < 2 ^ 1074) by (apply Z.pow_pos_nonneg; lia).
  rewrite (div_between _ _ M HQ HV).
  assert (Emod : (Z.pos mR * 2 ^ (eR + 1074)) mod 2 ^ 1074
                 = Z.pos mR * 2 ^ (eR + 1074) - M * 2 ^ 1074).
  { rewrite Z.mod_eq, (div_between _ _ M HQ HV) by lia. lia. }
  rewrite Emod. f_equal. apply decimal_Itoa.
  change (2 ^ 18) with 262144 in HM.
  change (10 ^ 20) with 100000000000000000000.
  destruct (_ || _); lia.
Qed.

(** For a duration of less than 2^18 minutes in magnitude,
    [FormatFloat(d.Minutes(), 'f', 0, 64)] is the nearest number of
    whole minutes, with the sign of the duration. *)
Lemma FormatFloat_Minutes (d : time.Duration) :
  - (2 ^ 18 * time.Minute) < d < 2 ^ 18 * time.Minute ->
  strconv.FormatFloat_f_0 (time.Minutes d)
  = (if d <? 0 then "-" else "") ++ strconv.Itoa (nearest_minute (Z.abs d)).
Proof.
  intros Hd.
  assert (Habs : Z.abs d < 2 ^ 18 * time.Minute) by lia.
  unfold nearest_minute.
  pose proof (Z.mod_pos_bound (Z.abs d) time.Minute ltac:(reflexivity)) as Hr.
  assert (HM : 0 <= Z.abs d / time.Minute < 2 ^ 18).
  { split; [apply Z.div_pos; [lia|reflexivity]|].
    apply Z.div_lt_upper_bound; [reflexivity|lia]. }
  set (M := Z.abs d / time.Minute) in *.
  set (r := Z.abs d mod time.Minute) in *.
  change time.Minute with 60000000000 in Hr |- *.
  assert (HP : 0 < 2 ^ 1038) by (apply Z.pow_pos_nonneg; lia).
  assert (EQP : 2 ^ 1074 = 68719476736 * 2 ^ 1038).
  { change 68719476736 with (2 ^ 36).
    rewrite <- Z.pow_add_r by lia. reflexivity. }
  assert (EHP : 2 ^ 1073 = 34359738368 * 2 ^ 1038).
  { change 34359738368 with (2 ^ 35).
    rewrite <- Z.pow_add_r by lia. reflexivity. }
  destruct (Z.eq_dec r 0) as [Hr0|Hr0].
  - (* whole minutes *)
    destruct (Z.eq_dec d 0) as [->|Hd0]; [reflexivity|].
    destruct (Minutes_whole d Habs Hd0 Hr0) as (mR & eR & -> & HeR & HV).
    fold M in HV.
    rewrite (FormatFloat_f_0_rounds _ mR eR M HeR HM) by lia.
    rewrite HV, Hr0, Z.sub_diag.
    replace (2 ^ 1073 <? 0) with false by (symmetry; apply Z.ltb_ge; lia).
    replace (0 =? 2 ^ 1073) with false by (symmetry; apply Z.eqb_neq; lia).
    reflexivity.
  - destruct (Z.lt_trichotomy (2 * r) 60000000000) as [Hlt | [Heq | Hgt]].
    + (* less than half a minute more *)
      destruct (Minutes_fraction d 0 (2 ^ 35 - 1) Habs Hr0)
        as (mR & eR & -> & HeR & HV).
      * lia.
      * by vm_compute.
      * fold r. change time.Minute with 60000000000.
        change (2 ^ 40) with 1099511627776. change (2 ^ 35) with 34359738368. lia.
      * fold M in HV. change (2 ^ 35) with 34359738368 in HV.
        rewrite (FormatFloat_f_0_rounds _ mR eR M HeR HM) by lia.
        replace (2 ^ 1073 <? _) with false by (symmetry; apply Z.ltb_ge; lia).
        replace (_ =? 2 ^ 1073) with false by (symmetry; apply Z.eqb_neq; lia).
        replace (60000000000 <? 2 * r) with false
          by (symmetry; apply Z.ltb_ge; lia).
        replace (2 * r =? 60000000000) with false
          by (symmetry; apply Z.eqb_neq; lia).
        reflexivity.
    + (* half a minute more *)
      destruct (Minutes_half d Habs) as (mR & eR & -> & HeR & HV).
      * fold r. lia.
      * fold M in HV.
        rewrite (FormatFloat_f_0_rounds _ mR eR M HeR HM) by lia.
        replace (Z.pos mR * 2 ^ (eR + 1074) - M * 2 ^ 1074) with (2 ^ 1073)
          by lia.
        rewrite Z.ltb_irrefl, Z.eqb_refl.
        replace (60000000000 <? 2 * r) with false
          by (symmetry; apply Z.ltb_ge; lia).
        replace (2 * r =? 60000000000) with true
          by (symmetry; apply Z.eqb_eq; lia).
        reflexivity.
    + (* more than half a minute more *)
      destruct (Minutes_fraction d (2 ^ 35 + 1) (2 ^ 36 - 1) Habs Hr0)
        as (mR & eR & -> & HeR & HV).
      * by vm_compute.
      * lia.
      * fold r. change time.Minute with 60000000000.
        change (2 ^ 40) with 1099511627776.
        change (2 ^ 36) with 68719476736. change (2 ^ 35) with 34359738368. lia.
      * fold M in HV. change (2 ^ 35) with 34359738368 in HV.
        change (2 ^ 36) with 68719476736 in HV.
        rewrite (FormatFloat_f_0_rounds _ mR eR M HeR HM) by lia.
        replace (2 ^ 1073 <? _) with true by (symmetry; apply Z.ltb_lt; lia).
        replace (60000000000 <? 2 * r) with true
          by (symmetry; apply Z.ltb_lt; lia).
        reflexivity.
Qed.

(** ** The parameter duration *)

(** C8 as the code has it, for a duration of less than 2^18 minutes
    (182 days) in either direction. In generation B the parameter
    [duration] of [Departures] and [Arrivals] is the number of whole
    minutes of the duration, the rest cut off. In generation A it is the
    nearest number of whole minutes, a half going to the even number,
    after the sign of a negative duration. *)
Theorem duration_parameter (when : time.Time) (duration : time.Duration) (tt : Z) :
  - (2 ^ 18 * time.Minute) < duration < 2 ^ 18 * time.Minute ->
  (V6.Departures_q when duration tt !! "duration"
   = Some [strconv.Itoa (Z.quot duration time.Minute)]
   /\ V6.Arrivals_q when duration tt !! "duration"
      = Some [strconv.Itoa (Z.quot duration time.Minute)])
  /\ (V5.Departures_q when duration tt !! "duration"
      = Some [(if duration <? 0 then "-" else "")
              ++ strconv.Itoa (nearest_minute (Z.abs duration))]
      /\ V5.Arrivals_q when duration tt !! "duration"
         = Some [(if duration <? 0 then "-" else "")
                 ++ strconv.Itoa (nearest_minute (Z.abs duration))]).
Proof.
  intros Hd. split.
  - rewrite <- (int_of_Minutes duration Hd).
    split; unfold_q; cbn zeta; by simplify_map_eq.
  - rewrite <- (FormatFloat_Minutes duration Hd).
    split; unfold_q; cbn zeta; by simplify_map_eq.
Qed.

(** ** The query string

    [Values.Encode] writes the keys in sorted order: the keys of a map
    are the one sorted list that holds them. *)

Lemma sorted_keys (m : url.Values) (keys : list string) :
  Sorted String.le keys -> NoDup keys -> dom m = list_to_set keys ->
  merge_sort String.le (elements (dom m)) = keys.
Proof.
  intros Hs Hn Hd. apply (Sorted_unique String.le).
  - apply Sorted_merge_sort; apply _.
  - done.
  - rewrite merge_sort_Permutation, Hd. by apply elements_list_to_set.
Qed.

Lemma all_bytes_app P a b :
  all_bytes P (a ++ b) = all_bytes P a && all_bytes P b.
Proof.
  induction a as [|x a IH]; [reflexivity|].
  change (String x a ++ b) with (String x (a ++ b)). cbn [all_bytes].
  rewrite IH. apply andb_assoc.
Qed.

Lemma all_bytes_weaken (P Q : ascii -> bool) s :
  (forall c, P c = true -> Q c = true) ->
  all_bytes P s = true -> all_bytes Q s = true.
Proof.
  intros HPQ. induction s as [|c s IH]; [done|]. cbn [all_bytes].
  intros H. apply andb_true_iff in H as [Hc Hs].
  by rewrite (HPQ c Hc), (IH Hs).
Qed.

Lemma occurrences_app c a b :
  occurrences c (a ++ b) = (occurrences c a + occurrences c b)%nat.
Proof.
  induction a as [|x a IH]; [reflexivity|].
  change (String x a ++ b) with (String x (a ++ b)). cbn [occurrences].
  rewrite IH. lia.
Qed.

(** A byte that [P] refuses does not occur in a text of bytes that [P]
    accepts. *)
Lemma all_bytes_absent (P : ascii -> bool) c s :
  P c = false -> all_bytes P s = true ->
  occurrences c s = O /\ url.contains c s = false.
Proof.
  intros Hc. induction s as [|x s IH]; [done|].
  cbn [all_bytes occurrences url.contains].
  intros H. apply andb_true_iff in H as [Hx Hs].
  destruct (IH Hs) as [-> ->].
  destruct (Ascii.eqb_spec x c) as [->|]; [congruence|done].
Qed.

Lemma QueryEscape_app a b :
  url.QueryEscape (a ++ b) = url.QueryEscape a ++ url.QueryEscape b.
Proof.
  induction a as [|x a IH]; [reflexivity|].
  change (String x a ++ b) with (String x (a ++ b)). cbn [url.QueryEscape].
  rewrite IH.
  destruct (Ascii.eqb x " "); [reflexivity|].
  destruct (url.shouldEscape x); reflexivity.
Qed.

(** A text of bytes that [QueryEscape] keeps is its own escape. *)
Lemma QueryEscape_unreserved s :
  all_bytes unreserved s = true -> url.QueryEscape s = s.
Proof.
  induction s as [|c s IH]; [reflexivity|]. cbn [all_bytes url.QueryEscape].
  intros H. apply andb_true_iff in H as [Hc Hs].
  rewrite (IH Hs). unfold unreserved in Hc. apply negb_true_iff in Hc.
  rewrite Hc.
  destruct (Ascii.eqb c " ") eqn:E; [|reflexivity].
  apply Ascii.eqb_eq in E. subst c. discriminate.
Qed.

(** What [QueryEscape] writes: letters, digits, [-], [_], [.], [~], and
    the [%] and [+] of the escapes. *)
Lemma QueryEscape_query_bytes s : all_bytes query_byte (url.QueryEscape s) = true.
Proof.
  induction s as [|c s IH]; [reflexivity|]. cbn [url.QueryEscape].
  destruct (Ascii.eqb c " ") eqn:Esp; [exact IH|].
  destruct (url.shouldEscape c) eqn:Esc.
  - cbn [all_bytes]. rewrite IH.
    assert (H : forall n, query_byte (url.upperhex n) = true).
    { intros n. unfold url.upperhex.
      repeat match goal with
             | |- context [match ?x with _ => _ end] => destruct x
             end; reflexivity. }
    rewrite !H. reflexivity.
  - cbn [all_bytes]. rewrite IH. unfold query_byte, unreserved. by rewrite Esc.
Qed.

Lemma unreserved_query_byte s :
  all_bytes unreserved s = true -> all_bytes query_byte s = true.
Proof.
  apply all_bytes_weaken. intros c H. unfold query_byte. by rewrite H.
Qed.

Lemma formatBits_unreserved fuel u acc :
  all_bytes unreserved acc = true ->
  all_bytes unreserved (strconv.formatBits fuel u acc) = true.
Proof.
  revert u acc. induction fuel as [|fuel IH]; intros u acc Hacc; [exact Hacc|].
  cbn [strconv.formatBits].
  assert (Hd : unreserved (strconv.digit (u mod 10)) = true).
  { assert (H : 0 <= u mod 10 < 10) by (apply Z.mod_pos_bound; lia).
    assert (E : forallb (fun d => unreserved (strconv.digit d))
                  (map Z.of_nat (seq 0 (Z.to_nat 10))) = true) by (by vm_compute).
    exact (Z_range_forallb _ 10 E _ H). }
  destruct (u <? 10).
  - cbn [all_bytes]. by rewrite Hd, Hacc.
  - apply IH. cbn [all_bytes]. by rewrite Hd, Hacc.
Qed.

Lemma Itoa_unreserved i : all_bytes unreserved (strconv.Itoa i) = true.
Proof.
  unfold strconv.Itoa. destruct (i <? 0).
  - cbn [all_bytes]. rewrite formatBits_unreserved; reflexivity.
  - apply formatBits_unreserved. reflexivity.
Qed.

Lemma QueryEscape_Itoa i : url.QueryEscape (strconv.Itoa i) = strconv.Itoa i.
Proof. apply QueryEscape_unreserved, Itoa_unreserved. Qed.

Lemma FormatBool_unreserved b : all_bytes unreserved (strconv.FormatBool b) = true.
Proof. by destruct b. Qed.

Lemma QueryEscape_FormatBool b :
  url.QueryEscape (strconv.FormatBool b) = strconv.FormatBool b.
Proof. by destruct b. Qed.

Lemma zeros_unreserved n : all_bytes unreserved (time.zeros n) = true.
Proof. induction n as [|n IH]; [reflexivity|exact IH]. Qed.

Lemma appendInt_unreserved x w :
  all_bytes unreserved (time.appendInt "" x w) = true.
Proof.
  unfold time.appendInt. change ("" ++ ?s) with s.
  rewrite !all_bytes_app, zeros_unreserved, formatBits_unreserved by reflexivity.
  by destruct (x <? 0).
Qed.

Lemma QueryEscape_appendInt x w :
  url.QueryEscape (time.appendInt "" x w) = time.appendInt "" x w.
Proof. apply QueryEscape_unreserved, appendInt_unreserved. Qed.

(** The keys of the values [q] of an operation are the sorted list
    [keys]. *)
Ltac encode_keys keys :=
  unfold url.Values_Encode;
  rewrite (sorted_keys _ keys);
  [ | repeat constructor; by vm_compute
    | apply (bool_decide_unpack _); by vm_compute
    | unfold V5.Locations_q, V6.Locations_q, V5.StopsNearby_q, V6.StopsNearby_q,
        V6.Departures_q, V6.Arrivals_q, V6.addTransportTypeParams, url.Values_Set;
      rewrite !dom_insert_L, dom_empty_L; set_solver ].

Lemma V5_Locations_q_encode query locType n :
  url.Values_Encode (V5.Locations_q query locType n)
  = "addresss=" ++ strconv.FormatBool (V5.has locType V5.LocationTypeAddress)
    ++ "&poi=" ++ strconv.FormatBool (V5.has locType V5.LocationTypePOI)
    ++ "&pretty=false&query=" ++ url.QueryEscape query
    ++ "&results=" ++ strconv.Itoa n
    ++ "&stops=" ++ strconv.FormatBool (V5.has locType V5.LocationTypeStop).
Proof.
  encode_keys ["addresss"; "poi"; "pretty"; "query"; "results"; "stops"].
  unfold V5.Locations_q, url.Values_Set. cbn [fold_left].
  simplify_map_eq. cbn [default fold_left].
  rewrite QueryEscape_Itoa, !QueryEscape_FormatBool.
  rewrite !string_app_assoc. reflexivity.
Qed.

Lemma V6_Locations_q_encode query locType n :
  url.Values_Encode (V6.Locations_q query locType n)
  = "addresss=" ++ strconv.FormatBool (V6.has locType V6.LocationTypeAddress)
    ++ "&fuzzy=false&poi=" ++ strconv.FormatBool (V6.has locType V6.LocationTypePOI)
    ++ "&pretty=false&query=" ++ url.QueryEscape query
    ++ "&results=" ++ strconv.Itoa n
    ++ "&stops=" ++ strconv.FormatBool (V6.has locType V6.LocationTypeStop).
Proof.
  encode_keys ["addresss"; "fuzzy"; "poi"; "pretty"; "query"; "results"; "stops"].
  unfold V6.Locations_q, url.Values_Set. cbn [fold_left].
  simplify_map_eq. cbn [default fold_left].
  rewrite QueryEscape_Itoa, !QueryEscape_FormatBool.
  rewrite !string_app_assoc. reflexivity.
Qed.

Lemma V6_Departures_q_encode when duration tt :
  url.Values_Encode (V6.Departures_q when duration tt)
  = "bus=" ++ strconv.FormatBool (V6.has tt V6.Bus)
    ++ "&duration=" ++ strconv.Itoa (int_of_float64 (time.Minutes duration))
    ++ "&express=" ++ strconv.FormatBool (V6.has tt V6.ExpressTrain)
    ++ "&ferry=" ++ strconv.FormatBool (V6.has tt V6.Ferry)
    ++ "&pretty=false&regional=" ++ strconv.FormatBool (V6.has tt V6.RegionalTrain)
    ++ "&suburban=" ++ strconv.FormatBool (V6.has tt V6.SuburbanTrain)
    ++ "&subway=" ++ strconv.FormatBool (V6.has tt V6.Subway)
    ++ "&tram=" ++ strconv.FormatBool (V6.has tt V6.Tram)
    ++ "&when=" ++ url.QueryEscape (time.Format when time.layout_NumTZ).
Proof.
  encode_keys ["bus"; "duration"; "express"; "ferry"; "pretty"; "regional";
               "suburban"; "subway"; "tram"; "when"].
  unfold V6.Departures_q, V6.addTransportTypeParams, url.Values_Set.
  cbn [fold_left].
  simplify_map_eq. cbn [default fold_left].
  rewrite !QueryEscape_Itoa, !QueryEscape_FormatBool.
  rewrite !string_app_assoc. reflexivity.
Qed.

Lemma V6_Arrivals_q_Departures_q when duration tt :
  V6.Arrivals_q when duration tt = V6.Departures_q when duration tt.
Proof. reflexivity. Qed.

(** X5: the value of [when] that generation B sends, once escaped for
    the query string, is the date and the clock with each colon written
    [%3A], and the zone as four digits after [-] for a zone a minute or
    more west of UTC, after [%2B] (the escape of [+]) for any other. *)
Theorem when_escaped (t : time.Time) :
  let zone := Z.quot (time.offset t) 60 in
  url.QueryEscape (time.Format t time.layout_NumTZ)
  = time.appendInt "" (time.year t) 4 ++ "-"
    ++ time.appendInt "" (time.month t) 2 ++ "-"
    ++ time.appendInt "" (time.day t) 2 ++ "T"
    ++ time.appendInt "" (time.hour t) 2 ++ "%3A"
    ++ time.appendInt "" (time.minute t) 2 ++ "%3A"
    ++ time.appendInt "" (time.second t) 2
    ++ (if zone <? 0 then "-" else "%2B")
    ++ time.appendInt "" (Z.quot (Z.abs zone) 60) 2
    ++ time.appendInt "" (Z.rem (Z.abs zone) 60) 2.
Proof.
  intros zone. unfold time.Format, time.layout_NumTZ.
  cbn [fold_left time.appendStd]. unfold time.appendZone.
  rewrite andb_false_r. fold zone.
  replace (if zone <? 0 then - zone else zone) with (Z.abs zone)
    by (destruct (Z.ltb_spec zone 0); lia).
  rewrite !(appendInt_app (_ ++ _)).
  destruct (zone <? 0);
    rewrite (appendInt_app (time.appendInt _ _ _)), (appendInt_app (_ ++ _));
    rewrite !QueryEscape_app, !QueryEscape_appendInt;
    change ("" ++ ?s) with s; rewrite !string_app_assoc; reflexivity.
Qed.

(** The separators of the query string of [Locations] are its own: the
    text of the query adds none. *)
Lemma V6_Locations_q_separators query locType n :
  let q := url.Values_Encode (V6.Locations_q query locType n) in
  occurrences "&" q = 6%nat /\ occurrences "=" q = 7%nat
  /\ url.contains "?" q = false /\ url.contains "#" q = false.
Proof.
  cbn zeta. rewrite V6_Locations_q_encode.
  pose proof (QueryEscape_query_bytes query) as Hq.
  pose proof (unreserved_query_byte _ (Itoa_unreserved n)) as Hn.
  assert (Hb : forall b, all_bytes query_byte (strconv.FormatBool b) = true)
    by (intros b; apply unreserved_query_byte, FormatBool_unreserved).
  assert (H : forall c, query_byte c = false ->
            (occurrences c (url.QueryEscape query) = O
             /\ occurrences c (strconv.Itoa n) = O
             /\ forall b, occurrences c (strconv.FormatBool b) = O)
            /\ (url.contains c (url.QueryEscape query) = false
                /\ url.contains c (strconv.Itoa n) = false
                /\ forall b, url.contains c (strconv.FormatBool b) = false)).
  { intros c Hc. repeat split; try intros b;
      first [ exact (proj1 (all_bytes_absent query_byte c _ Hc Hq))
            | exact (proj1 (all_bytes_absent query_byte c _ Hc Hn))
            | exact (proj1 (all_bytes_absent query_byte c _ Hc (Hb b)))
            | exact (proj2 (all_bytes_absent query_byte c _ Hc Hq))
            | exact (proj2 (all_bytes_absent query_byte c _ Hc Hn))
            | exact (proj2 (all_bytes_absent query_byte c _ Hc (Hb b))) ]. }
  repeat split.
  - destruct (H "&"%char eq_refl) as [(H1 & H2 & Ho) _].
    rewrite !occurrences_app, H1, H2, !Ho. reflexivity.
  - destruct (H "="%char eq_refl) as [(H1 & H2 & Ho) _].
    rewrite !occurrences_app, H1, H2, !Ho. reflexivity.
  - destruct (H "?"%char eq_refl) as [_ (H1 & H2 & Ho)].
    rewrite !contains_app, H1, H2, !Ho. reflexivity.
  - destruct (H "#"%char eq_refl) as [_ (H1 & H2 & Ho)].
    rewrite !contains_app, H1, H2, !Ho. reflexivity.
Qed.

(** X6: whatever the text of the query, the URL of [Locations] in
    generation B, for an endpoint free of [?] and [#], is cut by
    [url.Parse] into the path [endpoint + "/locations"], the encoded
    values as the whole raw query, and no fragment; and the raw query
    holds seven [=] and six [&], those of its seven parameters: a [&],
    [=], [?] or [#] of the query text is escaped. *)
Theorem Locations_query_confined (endpoint query : string) (locType resultsNum : Z) :
  url.contains "?" endpoint = false ->
  url.contains "#" endpoint = false ->
  let q := url.Values_Encode (V6.Locations_q query locType resultsNum) in
  url.Parse_cut (endpoint ++ "/locations?" ++ q) = (endpoint ++ "/locations", q, "")
  /\ occurrences "&" q = 6%nat
  /\ occurrences "=" q = 7%nat.
Proof.
  intros He1 He2 q.
  destruct (V6_Locations_q_separators query locType resultsNum)
    as (Ha & He & Hq2 & Hq1).
  split; [|split; [exact Ha|exact He]].
  unfold url.Parse_cut. fold q in Hq1, Hq2.
  rewrite (Cut_none "#") by (by rewrite !contains_app, He2, Hq1).
  replace (endpoint ++ "/locations?" ++ q)
    with ((endpoint ++ "/locations") ++ String "?" q)
    by (by rewrite !string_app_assoc).
  rewrite (Cut_app "?") by (by rewrite !contains_app, He1).
  reflexivity.
Qed.

Lemma V6_Departures_q_separators when duration tt :
  let q := url.Values_Encode (V6.Departures_q when duration tt) in
  occurrences "&" q = 9%nat /\ occurrences "=" q = 10%nat
  /\ url.contains "?" q = false /\ url.contains "#" q = false.
Proof.
  cbn zeta. rewrite V6_Departures_q_encode.
  pose proof (QueryEscape_query_bytes (time.Format when time.layout_NumTZ)) as Hq.
  pose proof (unreserved_query_byte _
                (Itoa_unreserved (int_of_float64 (time.Minutes duration)))) as Hn.
  assert (Hb : forall b, all_bytes query_byte (strconv.FormatBool b) = true)
    by (intros b; apply unreserved_query_byte, FormatBool_unreserved).
  assert (H : forall c, query_byte c = false ->
            (occurrences c (url.QueryEscape (time.Format when time.layout_NumTZ)) = O
             /\ occurrences c
                  (strconv.Itoa (int_of_float64 (time.Minutes duration))) = O
             /\ forall b, occurrences c (strconv.FormatBool b) = O)
            /\ (url.contains c (url.QueryEscape (time.Format when time.layout_NumTZ))
                = false
                /\ url.contains c
                     (strconv.Itoa (int_of_float64 (time.Minutes duration))) = false
                /\ forall b, url.contains c (strconv.FormatBool b) = false)).
  { intros c Hc. repeat split; try intros b;
      first [ exact (proj1 (all_bytes_absent query_byte c _ Hc Hq))
            | exact (proj1 (all_bytes_absent query_byte c _ Hc Hn))
            | exact (proj1 (all_bytes_absent query_byte c _ Hc (Hb b)))
            | exact (proj2 (all_bytes_absent query_byte c _ Hc Hq))
            | exact (proj2 (all_bytes_absent query_byte c _ Hc Hn))
            | exact (proj2 (all_bytes_absent query_byte c _ Hc (Hb b))) ]. }
  repeat split.
  - destruct (H "&"%char eq_refl) as [(H1 & H2 & Ho) _].
    rewrite !occurrences_app, H1, H2, !Ho. reflexivity.
  - destruct (H "="%char eq_refl) as [(H1 & H2 & Ho) _].
    rewrite !occurrences_app, H1, H2, !Ho. reflexivity.
  - destruct (H "?"%char eq_refl) as [_ (H1 & H2 & Ho)].
    rewrite !contains_app, H1, H2, !Ho. reflexivity.
  - destruct (H "#"%char eq_refl) as [_ (H1 & H2 & Ho)].
    rewrite !contains_app, H1, H2, !Ho. reflexivity.
Qed.

(** X23: for an endpoint and a stop identifier free of [?] and [#],
    the URL of [Departures] (resp. [Arrivals]) in generation B is cut
    by [url.Parse] into the path
    [endpoint + "/stops/" + stopID + "/departures"] (resp.
    ["/arrivals"]), the encoded values as the whole raw query, and no
    fragment; the raw query is the same for both and holds ten [=] and
    nine [&], those of its ten parameters. *)
Theorem stop_query_confined (endpoint stopID : string)
  (when : time.Time) (duration : time.Duration) (transportTypes : Z) :
  url.contains "?" endpoint = false -> url.contains "#" endpoint = false ->
  url.contains "?" stopID = false -> url.contains "#" stopID = false ->
  let q := url.Values_Encode (V6.Departures_q when duration transportTypes) in
  url.Parse_cut (endpoint ++ "/stops/" ++ stopID ++ "/departures?" ++ q)
  = (endpoint ++ "/stops/" ++ stopID ++ "/departures", q, "")
  /\ url.Parse_cut
       (endpoint ++ "/stops/" ++ stopID ++ "/arrivals?"
          ++ url.Values_Encode (V6.Arrivals_q when duration transportTypes))
     = (endpoint ++ "/stops/" ++ stopID ++ "/arrivals", q, "")
  /\ occurrences "&" q = 9%nat
  /\ occurrences "=" q = 10%nat.
Proof.
  intros He1 He2 Hs1 Hs2 q.
  destruct (V6_Departures_q_separators when duration transportTypes)
    as (Ha & He & Hq2 & Hq1).
  rewrite V6_Arrivals_q_Departures_q. fold q. fold q in Hq1, Hq2.
  assert (Hcut : forall tail : string,
             url.contains "?" tail = false -> url.contains "#" tail = false ->
             url.Parse_cut (endpoint ++ "/stops/" ++ stopID ++ tail ++ "?" ++ q)
             = (endpoint ++ "/stops/" ++ stopID ++ tail, q, "")).
  { intros tail Ht1 Ht2. unfold url.Parse_cut.
    rewrite (Cut_none "#")
      by (by rewrite !contains_app, He2, Hs2, Ht2, Hq1).
    replace (endpoint ++ "/stops/" ++ stopID ++ tail ++ "?" ++ q)
      with ((endpoint ++ "/stops/" ++ stopID ++ tail) ++ String "?" q)
      by (by rewrite !string_app_assoc).
    rewrite (Cut_app "?") by (by rewrite !contains_app, He1, Hs1, Ht1).
    reflexivity. }
  split; [exact (Hcut "/departures" eq_refl eq_refl)|].
  split; [exact (Hcut "/arrivals" eq_refl eq_refl)|].
  split; [exact Ha|exact He].
Qed.

(** ** The location and mode filters *)

Lemma land_pow2 t k :
  0 <= k -> (Z.land t (2 ^ k) =? 0) = negb (Z.testbit t k).
Proof.
  intros Hk. destruct (Z.testbit t k) eqn:E; simpl.
  - apply Z.eqb_neq. intros H.
    apply (f_equal (fun x => Z.testbit x k)) in H.
    rewrite Z.land_spec, E, Z.pow2_bits_true, Z.bits_0 in H by done. discriminate.
  - apply Z.eqb_eq. apply Z.bits_inj'. intros n Hn.
    rewrite Z.land_spec, Z.bits_0, Z.pow2_bits_eqb by done.
    destruct (Z.eqb_spec k n) as [<-|]; [by rewrite E|apply andb_false_r].
Qed.

Lemma has_bit t k : 0 <= k -> V6.has t (Z.shiftl 1 k) = Z.testbit t k.
Proof.
  intros Hk. unfold V6.has. rewrite Z.shiftl_1_l, land_pow2 by done.
  apply negb_involutive.
Qed.

Lemma V5_has_bit t k : 0 <= k -> V5.has t (Z.shiftl 1 k) = Z.testbit t k.
Proof. exact (has_bit t k). Qed.

Lemma lor_eqb_0 a b : (Z.lor a b =? 0) = (a =? 0) && (b =? 0).
Proof.
  destruct (Z.eqb_spec a 0) as [->|Ha]; cbn [andb].
  - by rewrite Z.lor_0_l.
  - apply Z.eqb_neq. rewrite Z.lor_eq_0_iff. tauto.
Qed.

Lemma has_mode t k :
  0 <= k ->
  negb (Z.land t (Z.lor (2 ^ k) (2 ^ 0)) =? 0) = Z.testbit t 0 || Z.testbit t k.
Proof.
  intros Hk.
  rewrite Z.land_lor_distr_r, lor_eqb_0, !land_pow2 by lia.
  by destruct (Z.testbit t 0), (Z.testbit t k).
Qed.

Lemma Locations_q_filter query locType n :
  (V6.Locations_q query locType n !! "stops"
   = Some [strconv.FormatBool (V6.has locType V6.LocationTypeStop)]
   /\ V6.Locations_q query locType n !! "addresss"
      = Some [strconv.FormatBool (V6.has locType V6.LocationTypeAddress)]
   /\ V6.Locations_q query locType n !! "poi"
      = Some [strconv.FormatBool (V6.has locType V6.LocationTypePOI)])
  /\ (V5.Locations_q query locType n !! "stops"
      = Some [strconv.FormatBool (V5.has locType V5.LocationTypeStop)]
      /\ V5.Locations_q query locType n !! "addresss"
         = Some [strconv.FormatBool (V5.has locType V5.LocationTypeAddress)]
      /\ V5.Locations_q query locType n !! "poi"
         = Some [strconv.FormatBool (V5.has locType V5.LocationTypePOI)]).
Proof.
  unfold V6.Locations_q, V5.Locations_q, url.Values_Set. cbn zeta.
  repeat split; by simplify_map_eq.
Qed.

(** X2: the three filter parameters of [Locations] follow the bits of
    the location type, in both generations: [stops] is bit 1, [addresss]
    (the key as the code spells it) is bit 2 and [poi] is bit 3, whatever
    the other bits. So for the union of any of [LocationTypeStop],
    [LocationTypeAddress] and [LocationTypePOI], each parameter is
    ["true"] exactly when its constant is in the union. *)
Theorem LocationType_filter (query : string) (resultsNum : Z) :
  (forall locType : Z,
      (V6.Locations_q query locType resultsNum !! "stops"
       = Some [strconv.FormatBool (Z.testbit locType 1)]
       /\ V6.Locations_q query locType resultsNum !! "addresss"
          = Some [strconv.FormatBool (Z.testbit locType 2)]
       /\ V6.Locations_q query locType resultsNum !! "poi"
          = Some [strconv.FormatBool (Z.testbit locType 3)])
      /\ (V5.Locations_q query locType resultsNum !! "stops"
          = Some [strconv.FormatBool (Z.testbit locType 1)]
          /\ V5.Locations_q query locType resultsNum !! "addresss"
             = Some [strconv.FormatBool (Z.testbit locType 2)]
          /\ V5.Locations_q query locType resultsNum !! "poi"
             = Some [strconv.FormatBool (Z.testbit locType 3)]))
  /\ (forall stops addresses poi : bool,
        let locType :=
          Z.lor (Z.lor (if stops then V6.LocationTypeStop else V6.LocationTypeUnknown)
                   (if addresses then V6.LocationTypeAddress
                    else V6.LocationTypeUnknown))
            (if poi then V6.LocationTypePOI else V6.LocationTypeUnknown) in
        V6.Locations_q query locType resultsNum !! "stops"
        = Some [strconv.FormatBool stops]
        /\ V6.Locations_q query locType resultsNum !! "addresss"
           = Some [strconv.FormatBool addresses]
        /\ V6.Locations_q query locType resultsNum !! "poi"
           = Some [strconv.FormatBool poi]).
Proof.
  assert (Hbits : forall locType : Z,
             (V6.Locations_q query locType resultsNum !! "stops"
              = Some [strconv.FormatBool (Z.testbit locType 1)]
              /\ V6.Locations_q query locType resultsNum !! "addresss"
                 = Some [strconv.FormatBool (Z.testbit locType 2)]
              /\ V6.Locations_q query locType resultsNum !! "poi"
                 = Some [strconv.FormatBool (Z.testbit locType 3)])
             /\ (V5.Locations_q query locType resultsNum !! "stops"
                 = Some [strconv.FormatBool (Z.testbit locType 1)]
                 /\ V5.Locations_q query locType resultsNum !! "addresss"
                    = Some [strconv.FormatBool (Z.testbit locType 2)]
                 /\ V5.Locations_q query locType resultsNum !! "poi"
                    = Some [strconv.FormatBool (Z.testbit locType 3)])).
  { intros locType.
    destruct (Locations_q_filter query locType resultsNum)
      as [(-> & -> & ->) (-> & -> & ->)].
    unfold V6.LocationTypeStop, V6.LocationTypeAddress, V6.LocationTypePOI,
      V5.LocationTypeStop, V5.LocationTypeAddress, V5.LocationTypePOI.
    rewrite ?has_bit, ?V5_has_bit by lia. done. }
  split; [exact Hbits|].
  intros stops addresses poi locType.
  destruct (Hbits locType) as [(-> & -> & ->) _].
  subst locType. by destruct stops, addresses, poi.
Qed.

(** X18: the seven mode parameters as functions of the bits of the mode
    filter. [suburban] is bit 1. Each of the six others is ["true"] when
    its own bit (1 for [subway], 2 for [tram], up to 6 for [regional]) or
    bit 0 is set; and bit 0 is set in every mode constant but
    [SuburbanTrain], so a filter that holds any of them sets all six. *)
Theorem mode_parameters (transportTypes : Z) :
  let q := V6.addTransportTypeParams ∅ transportTypes in
  let others := Z.testbit transportTypes 0 in
  (q !! "suburban" = Some [strconv.FormatBool (Z.testbit transportTypes 1)]
   /\ q !! "subway" = Some [strconv.FormatBool (others || Z.testbit transportTypes 1)]
   /\ q !! "tram" = Some [strconv.FormatBool (others || Z.testbit transportTypes 2)]
   /\ q !! "bus" = Some [strconv.FormatBool (others || Z.testbit transportTypes 3)]
   /\ q !! "ferry" = Some [strconv.FormatBool (others || Z.testbit transportTypes 4)]
   /\ q !! "express"
      = Some [strconv.FormatBool (others || Z.testbit transportTypes 5)]
   /\ q !! "regional"
      = Some [strconv.FormatBool (others || Z.testbit transportTypes 6)])
  /\ Z.testbit V6.SuburbanTrain 0 = false
  /\ Forall (fun mode => Z.testbit mode 0 = true)
       [V6.Subway; V6.Tram; V6.Bus; V6.Ferry; V6.ExpressTrain; V6.RegionalTrain].
Proof.
  intros q others. subst q others. split; [|split; [reflexivity|]].
  - destruct (addTransportTypeParams_lookup transportTypes)
      as (-> & -> & -> & -> & -> & -> & ->).
    unfold V6.has.
    change V6.SuburbanTrain with (2 ^ 1).
    change V6.Subway with (Z.lor (2 ^ 1) (2 ^ 0)).
    change V6.Tram with (Z.lor (2 ^ 2) (2 ^ 0)).
    change V6.Bus with (Z.lor (2 ^ 3) (2 ^ 0)).
    change V6.Ferry with (Z.lor (2 ^ 4) (2 ^ 0)).
    change V6.ExpressTrain with (Z.lor (2 ^ 5) (2 ^ 0)).
    change V6.RegionalTrain with (Z.lor (2 ^ 6) (2 ^ 0)).
    rewrite !has_mode by lia. rewrite land_pow2, negb_involutive by lia.
    done.
  - repeat constructor.
Qed.

(** ** The requests of the operations *)

Section Wire.

Variable Parse : string -> option error.
Variable FormatFloat_shortest : float64 -> string.
Variable Departure_zero5 : V5.Departure.t.
Variable decodeLocation5 : V5.Location.t -> json.value -> option V5.Location.t.
Variable decodeDeparture5 : V5.Departure.t -> json.value -> option V5.Departure.t.
Variable Departure_zero : V6.Departure.t.
Variable decodeDeparture : V6.Departure.t -> json.value -> option V6.Departure.t.
Variable arrival_zero : V6.arrival.t.
Variable decodeArrival : V6.arrival.t -> json.value -> option V6.arrival.t.

Local Abbreviation Locations5 := (V5.Locations Parse decodeLocation5).
Local Abbreviation StopsNearby5 :=
  (V5.StopsNearby Parse FormatFloat_shortest decodeLocation5).
Local Abbreviation Departures5 :=
  (V5.Departures Parse Departure_zero5 decodeDeparture5).
Local Abbreviation Arrivals5 :=
  (V5.Arrivals Parse Departure_zero5 decodeDeparture5).
Local Abbreviation Locations6 := (V6.Locations Parse).
Local Abbreviation StopsNearby6 := (V6.StopsNearby Parse FormatFloat_shortest).
Local Abbreviation Departures6 :=
  (V6.Departures Parse Departure_zero decodeDeparture).
Local Abbreviation Arrivals6 := (V6.Arrivals Parse arrival_zero decodeArrival).

Lemma V5_StopsNearby_q_encode lat lng n :
  url.Values_Encode (V5.StopsNearby_q FormatFloat_shortest lat lng n)
  = "latitude=" ++ url.QueryEscape (FormatFloat_shortest lat)
    ++ "&longitude=" ++ url.QueryEscape (FormatFloat_shortest lng)
    ++ "&pretty=false&results=" ++ strconv.Itoa n.
Proof.
  encode_keys ["latitude"; "longitude"; "pretty"; "results"].
  unfold V5.StopsNearby_q, url.Values_Set. cbn [fold_left].
  simplify_map_eq. cbn [default fold_left].
  rewrite QueryEscape_Itoa.
  rewrite !string_app_assoc. reflexivity.
Qed.

Lemma V6_StopsNearby_q_encode lat lng distance n :
  url.Values_Encode (V6.StopsNearby_q FormatFloat_shortest lat lng distance n)
  = "distance=" ++ strconv.Itoa distance
    ++ "&latitude=" ++ url.QueryEscape (FormatFloat_shortest lat)
    ++ "&longitude=" ++ url.QueryEscape (FormatFloat_shortest lng)
    ++ "&pretty=false&results=" ++ strconv.Itoa n.
Proof.
  encode_keys ["distance"; "latitude"; "longitude"; "pretty"; "results"].
  unfold V6.StopsNearby_q, url.Values_Set. cbn [fold_left].
  simplify_map_eq. cbn [default fold_left].
  rewrite !QueryEscape_Itoa.
  rewrite !string_app_assoc. reflexivity.
Qed.

Lemma V5_Locations_requests cl query locType n :
  fst (Locations5 cl query locType n)
  = fst (V5.sendRequest Parse cl http.MethodGet
           ("/locations?" ++ url.Values_Encode (V5.Locations_q query locType n))).
Proof.
  unfold V5.Locations.
  destruct (V5.sendRequest _ _ _ _) as [reqs [err|data]]; [reflexivity|].
  by destruct (json.Decode _ _).
Qed.

Lemma V6_Locations_requests cl query locType n :
  fst (Locations6 cl query locType n)
  = fst (V6.sendRequest Parse cl http.MethodGet
           ("/locations?" ++ url.Values_Encode (V6.Locations_q query locType n))).
Proof.
  unfold V6.Locations.
  destruct (V6.sendRequest _ _ _ _) as [reqs [err|data]]; [reflexivity|].
  by destruct (json.Decode _ _).
Qed.

Lemma V5_StopsNearby_requests cl lat lng distance n :
  fst (StopsNearby5 cl lat lng distance n)
  = fst (V5.sendRequest Parse cl http.MethodGet
           ("/stops/nearby?"
              ++ url.Values_Encode (V5.StopsNearby_q FormatFloat_shortest lat lng n))).
Proof.
  unfold V5.StopsNearby.
  destruct (V5.sendRequest _ _ _ _) as [reqs [err|data]]; [reflexivity|].
  by destruct (json.Decode _ _).
Qed.

Lemma V6_StopsNearby_requests cl lat lng distance n :
  fst (StopsNearby6 cl lat lng distance n)
  = fst (V6.sendRequest Parse cl http.MethodGet
           ("/locations/nearby?"
              ++ url.Values_Encode
                   (V6.StopsNearby_q FormatFloat_shortest lat lng distance n))).
Proof.
  unfold V6.StopsNearby.
  destruct (V6.sendRequest _ _ _ _) as [reqs [err|data]]; [reflexivity|].
  by destruct (json.Decode _ _).
Qed.

(** X1: the one request of [Locations] is a GET of the endpoint followed
    by [/locations?] and the parameters in the order of their keys:
    [addresss] (as the code spells the key), in generation B [fuzzy],
    then [poi], [pretty], [query] with the text escaped, [results] and
    [stops]. *)
Theorem Locations_request (cl5 : V5.Client) (cl : V6.Client)
  (query : string) (locType resultsNum : Z) :
  asks Parse (Locations5 cl5 query locType resultsNum)
    (V5.endpoint cl5 ++ "/locations?addresss="
       ++ strconv.FormatBool (V5.has locType V5.LocationTypeAddress)
       ++ "&poi=" ++ strconv.FormatBool (V5.has locType V5.LocationTypePOI)
       ++ "&pretty=false&query=" ++ url.QueryEscape query
       ++ "&results=" ++ strconv.Itoa resultsNum
       ++ "&stops=" ++ strconv.FormatBool (V5.has locType V5.LocationTypeStop))
  /\ asks Parse (Locations6 cl query locType resultsNum)
       (V6.endpoint cl ++ "/locations?addresss="
          ++ strconv.FormatBool (V6.has locType V6.LocationTypeAddress)
          ++ "&fuzzy=false&poi="
          ++ strconv.FormatBool (V6.has locType V6.LocationTypePOI)
          ++ "&pretty=false&query=" ++ url.QueryEscape query
          ++ "&results=" ++ strconv.Itoa resultsNum
          ++ "&stops=" ++ strconv.FormatBool (V6.has locType V6.LocationTypeStop)).
Proof.
  unfold asks. split.
  - rewrite V5_Locations_requests, V5_sendRequest_requests, V5_Locations_q_encode.
    reflexivity.
  - rewrite V6_Locations_requests, V6_sendRequest_requests, V6_Locations_q_encode.
    reflexivity.
Qed.

(** X3: the one request of [StopsNearby] is a GET of
    [endpoint + "/stops/nearby?"] in generation A and of
    [endpoint + "/locations/nearby?"] in generation B, followed by the
    parameters in the order of their keys. Generation A sends no
    distance: its outcome is the same for every distance. *)
Theorem StopsNearby_request (cl5 : V5.Client) (cl : V6.Client)
  (lat lng : float64) (distance resultsNum : Z) :
  asks Parse (StopsNearby5 cl5 lat lng distance resultsNum)
    (V5.endpoint cl5 ++ "/stops/nearby?latitude="
       ++ url.QueryEscape (FormatFloat_shortest lat)
       ++ "&longitude=" ++ url.QueryEscape (FormatFloat_shortest lng)
       ++ "&pretty=false&results=" ++ strconv.Itoa resultsNum)
  /\ (forall distance' : Z,
        StopsNearby5 cl5 lat lng distance' resultsNum
        = StopsNearby5 cl5 lat lng distance resultsNum)
  /\ asks Parse (StopsNearby6 cl lat lng distance resultsNum)
       (V6.endpoint cl ++ "/locations/nearby?distance=" ++ strconv.Itoa distance
          ++ "&latitude=" ++ url.QueryEscape (FormatFloat_shortest lat)
          ++ "&longitude=" ++ url.QueryEscape (FormatFloat_shortest lng)
          ++ "&pretty=false&results=" ++ strconv.Itoa resultsNum).
Proof.
  unfold asks. split; [|split].
  - rewrite V5_StopsNearby_requests, V5_sendRequest_requests,
      V5_StopsNearby_q_encode.
    reflexivity.
  - reflexivity.
  - rewrite V6_StopsNearby_requests, V6_sendRequest_requests,
      V6_StopsNearby_q_encode.
    reflexivity.
Qed.

(** X4: in generation B the one request of [Departures] (resp.
    [Arrivals]) is a GET of
    [endpoint + "/stops/" + stopID + "/departures?"] (resp.
    ["/arrivals?"]) followed by the same ten parameters in the order of
    their keys: [bus], [duration], [express], [ferry], [pretty],
    [regional], [suburban], [subway], [tram] and [when], the time
    escaped. *)
Theorem V6_stop_request (cl : V6.Client) (stopID : string)
  (when : time.Time) (duration : time.Duration) (transportTypes : Z) :
  let q :=
    "bus=" ++ strconv.FormatBool (V6.has transportTypes V6.Bus)
    ++ "&duration=" ++ strconv.Itoa (int_of_float64 (time.Minutes duration))
    ++ "&express=" ++ strconv.FormatBool (V6.has transportTypes V6.ExpressTrain)
    ++ "&ferry=" ++ strconv.FormatBool (V6.has transportTypes V6.Ferry)
    ++ "&pretty=false&regional="
    ++ strconv.FormatBool (V6.has transportTypes V6.RegionalTrain)
    ++ "&suburban=" ++ strconv.FormatBool (V6.has transportTypes V6.SuburbanTrain)
    ++ "&subway=" ++ strconv.FormatBool (V6.has transportTypes V6.Subway)
    ++ "&tram=" ++ strconv.FormatBool (V6.has transportTypes V6.Tram)
    ++ "&when=" ++ url.QueryEscape (time.Format when time.layout_NumTZ) in
  asks Parse (Departures6 cl stopID when duration transportTypes)
    (V6.endpoint cl ++ "/stops/" ++ stopID ++ "/departures?" ++ q)
  /\ asks Parse (Arrivals6 cl stopID when duration transportTypes)
       (V6.endpoint cl ++ "/stops/" ++ stopID ++ "/arrivals?" ++ q).
Proof.
  intros q. unfold asks. split.
  - rewrite V6_Departures_requests, V6_sendRequest_requests,
      V6_Departures_q_encode.
    reflexivity.
  - rewrite V6_Arrivals_requests, V6_sendRequest_requests,
      V6_Arrivals_q_Departures_q, V6_Departures_q_encode.
    reflexivity.
Qed.

(** ** Errors and bodies *)

Lemma V5_sendRequest_rejected cl method u err :
  Parse (V5.endpoint cl ++ u) = Some err ->
  V5.sendRequest Parse cl method u
  = ([], inl (Errorf ("failed to create request to " ++ u) err)).
Proof. intros H. unfold V5.sendRequest, http.NewRequest. by rewrite H. Qed.

Lemma V6_sendRequest_rejected cl method u err :
  Parse (V6.endpoint cl ++ u) = Some err ->
  V6.sendRequest Parse cl method u
  = ([], inl (Errorf ("failed to create request to " ++ u) err)).
Proof. intros H. unfold V6.sendRequest, http.NewRequest. by rewrite H. Qed.

Ltac unfold_operations :=
  unfold V5.Locations, V5.StopsNearby, V5.Departures, V5.Arrivals,
    V6.Locations, V6.StopsNearby, V6.Departures, V6.Arrivals.


(** X7: when [url.Parse] rejects the URLs of a client's endpoint, no
    operation makes a request, and each returns its own error around
    ["failed to create request to "] followed by the path and the query,
    without the endpoint, around the error of [url.Parse]. *)
Theorem rejected_URL_is_not_requested (cl5 : V5.Client) (cl : V6.Client)
  (reject5 reject : string -> error)
  (query : string) (locType resultsNum distance : Z) (lat lng : float64)
  (stopID : string) (when : time.Time) (duration : time.Duration) (tt : Z) :
  (forall u, Parse (V5.endpoint cl5 ++ u) = Some (reject5 u)) ->
  (forall u, Parse (V6.endpoint cl ++ u) = Some (reject u)) ->
  let failed {A : Type} (rej : string -> error) (msg u : string)
    : list http.Request * (error + A) :=
    ([], inl (Errorf msg (Errorf ("failed to create request to " ++ u) (rej u)))) in
  (Locations5 cl5 query locType resultsNum
   = failed reject5 "failed to retrieve locations"
       ("/locations?" ++ url.Values_Encode (V5.Locations_q query locType resultsNum))
   /\ StopsNearby5 cl5 lat lng distance resultsNum
      = failed reject5 "failed to retrieve stops nearby"
          ("/stops/nearby?"
             ++ url.Values_Encode
                  (V5.StopsNearby_q FormatFloat_shortest lat lng resultsNum))
   /\ Departures5 cl5 stopID when duration tt
      = failed reject5 ("failed to retrieve departures for " ++ stopID)
          ("/stops/" ++ stopID ++ "/departures")
   /\ Arrivals5 cl5 stopID when duration tt
      = failed reject5 ("failed to retrieve arrivals for " ++ stopID)
          ("/stops/" ++ stopID ++ "/arrivals"))
  /\ (Locations6 cl query locType resultsNum
      = failed reject "failed to retrieve locations"
          ("/locations?" ++ url.Values_Encode (V6.Locations_q query locType resultsNum))
      /\ StopsNearby6 cl lat lng distance resultsNum
         = failed reject "failed to retrieve stops nearby"
             ("/locations/nearby?"
                ++ url.Values_Encode
                     (V6.StopsNearby_q FormatFloat_shortest lat lng distance
                        resultsNum))
      /\ Departures6 cl stopID when duration tt
         = failed reject ("failed to retrieve departures for " ++ stopID)
             ("/stops/" ++ stopID ++ "/departures?"
                ++ url.Values_Encode (V6.Departures_q when duration tt))
      /\ Arrivals6 cl stopID when duration tt
         = failed reject ("failed to retrieve arrivals for " ++ stopID)
             ("/stops/" ++ stopID ++ "/arrivals?"
                ++ url.Values_Encode (V6.Arrivals_q when duration tt))).
Proof.
  intros H5 H6 failed. subst failed. unfold_operations.
  repeat split;
    first [ by rewrite (V5_sendRequest_rejected _ _ _ _ (H5 _))
          | by rewrite (V6_sendRequest_rejected _ _ _ _ (H6 _)) ].
Qed.



(** ** The elements of a result *)

(** An array decoded into an empty slice: each element is decoded into
    a zero value, in order. *)
Lemma decode_elems_Forall2 {A : Type} (zero : A)
  (dec : A -> json.value -> option A) (elems : list json.value) (r : list A) :
  json.decode_elems zero dec [] elems = Some r
  <-> Forall2 (fun v a => dec zero v = Some a) elems r.
Proof.
  revert r. induction elems as [|v elems IH]; intros r; cbn [json.decode_elems hd tl].
  - split.
    + intros [= <-]. constructor.
    + intros H. by inversion H.
  - split.
    + destruct (dec zero v) as [a|] eqn:Ea; [|discriminate].
      destruct (json.decode_elems zero dec [] elems) as [r'|] eqn:Er; [|discriminate].
      intros [= <-]. constructor; [exact Ea|by apply IH].
    + intros H. inversion H as [|v' a elems' r' Ha Hr]; subst.
      rewrite Ha. apply IH in Hr. by rewrite Hr.
Qed.



Lemma decodeLocation_UnmarshalJSON old v loc :
  V6.decodeLocation old v = Some loc <-> V6.UnmarshalJSON v = inr loc.
Proof.
  unfold V6.decodeLocation. destruct (V6.UnmarshalJSON v); split; congruence.
Qed.

Lemma UnmarshalJSON_Distance v loc :
  V6.UnmarshalJSON v = inr loc -> V6.Location.Distance loc = 0.
Proof.
  unfold V6.UnmarshalJSON.
  destruct (V6.Unmarshal_hafasLocation v) as [h|]; [|discriminate].
  destruct (V6.hafasLocation.Location h); by intros [= <-].
Qed.

Lemma Forall2_decodeLocation elems locs :
  Forall2 (fun v a => V6.decodeLocation V6.Location_zero v = Some a) elems locs
  <-> Forall2 (fun v loc => V6.UnmarshalJSON v = inr loc) elems locs.
Proof.
  split; intros H; induction H; constructor; try done;
    by apply (decodeLocation_UnmarshalJSON V6.Location_zero).
Qed.


(** X11: no location that [Locations] or [StopsNearby] of generation B
    returns has a distance: the field [Distance] is 0 whatever the
    server answers. *)
Theorem Distance_is_never_set (cl : V6.Client)
  (query : string) (locType resultsNum distance : Z) (lat lng : float64)
  (locs : list V6.Location.t) :
  snd (Locations6 cl query locType resultsNum) = inr locs
  \/ snd (StopsNearby6 cl lat lng distance resultsNum) = inr locs ->
  Forall (fun loc => V6.Location.Distance loc = 0) locs.
Proof.
  assert (Hdec : forall data,
             json.Decode (json.decode_slice V6.Location_zero V6.decodeLocation [])
               data = Some locs ->
             Forall (fun loc => V6.Location.Distance loc = 0) locs).
  { intros [[]|]; cbn [json.Decode json.decode_slice]; try discriminate.
    - intros [= <-]. constructor.
    - intros H. apply decode_elems_Forall2, Forall2_decodeLocation in H.
      induction H as [|v loc elems' locs' Hv _ IH]; constructor; [|exact IH].
      exact (UnmarshalJSON_Distance v loc Hv). }
  unfold_operations. intros [H|H];
    destruct (V6.sendRequest _ _ _ _) as [reqs [err|data]]; try discriminate;
    destruct (json.Decode _ data) as [r|] eqn:E; try discriminate;
    cbn [snd] in H; injection H as ->; exact (Hdec data E).
Qed.


End Wire.

(** ** Generation B: what UnmarshalJSON reads *)

Lemma store_unknown h k v :
  names_field k = false -> V6.store_hafasLocation h (k, v) = Some h.
Proof.
  unfold names_field. cbn [existsb]. intros H.
  repeat (apply orb_false_iff in H as [? H]).
  destruct h. unfold V6.store_hafasLocation.
  repeat match goal with E : json.names k _ = false |- _ => rewrite E; clear E end.
  reflexivity.
Qed.

(** Once a member is refused, the object is. *)
Lemma fold_store_None ms :
  fold_left (fun acc kv => h ← acc; V6.store_hafasLocation h kv) ms None = None.
Proof. induction ms as [|kv ms IH]; [reflexivity|exact IH]. Qed.

(** X12: a member whose key names none of the fields of [hafasLocation]
    is skipped by [UnmarshalJSON], whatever its value and its place in
    the object: the object reads as it does without the member. *)
Theorem unknown_members_are_skipped (ms1 ms2 : list (string * json.value))
  (k : string) (v : json.value) :
  names_field k = false ->
  V6.UnmarshalJSON (json.JObject (ms1 ++ (k, v) :: ms2))
  = V6.UnmarshalJSON (json.JObject (ms1 ++ ms2)).
Proof.
  intros Hk. unfold V6.UnmarshalJSON, V6.Unmarshal_hafasLocation.
  rewrite !fold_left_app. cbn [fold_left].
  destruct (fold_left _ ms1 _) as [h|]; [|reflexivity].
  cbn [mbind option_bind]. by rewrite (store_unknown h k v Hk).
Qed.

(** X13: the coordinates of the nested location take precedence over
    the latitude and longitude of the object itself, on whichever side
    of them the nested location stands; the latitude and longitude of
    the object are the location's only when no nested location was
    read. The kind, identifier, name and address are not touched. *)
Theorem nested_coordinates_win (ms : list (string * json.value))
  (h : V6.hafasLocation.t) (x y x' y' : float64) :
  V6.Unmarshal_hafasLocation (json.JObject ms) = Some h ->
  let nested :=
    ("location",
      json.JObject [("latitude", json.JNumber x); ("longitude", json.JNumber y)]) in
  let flat := [("latitude", json.JNumber x'); ("longitude", json.JNumber y')] in
  let located (la lo : float64) : error + V6.Location.t :=
    inr {| V6.Location.Type_ := V6.hafasLocation.Type_ h;
           V6.Location.ID := V6.hafasLocation.ID h;
           V6.Location.Name := V6.hafasLocation.Name h;
           V6.Location.Address := V6.hafasLocation.Address h;
           V6.Location.Latitude := la;
           V6.Location.Longitude := lo;
           V6.Location.Distance := 0 |} in
  V6.UnmarshalJSON (json.JObject (ms ++ flat ++ [nested])) = located x y
  /\ V6.UnmarshalJSON (json.JObject (ms ++ nested :: flat)) = located x y
  /\ V6.UnmarshalJSON (json.JObject (ms ++ flat))
     = match V6.hafasLocation.Location h with
       | Some p => located (V6.point.Latitude p) (V6.point.Longitude p)
       | None => located x' y'
       end.
Proof.
  intros Hms nested flat located. subst nested flat located.
  unfold V6.UnmarshalJSON, V6.Unmarshal_hafasLocation in *.
  rewrite !fold_left_app, Hms.
  destruct h as [ty id name addr [[pty pla plo]|] la lo poi];
    repeat split; reflexivity.
Qed.

(** X15: [UnmarshalJSON] fails, with ["failed to unmarshal location"]
    around the error of the decoder, on a value that is neither [null]
    nor an object, and on an object with a member, at any place, whose
    key names [Type], [ID], [Name] or [Address] and whose value is
    neither a string nor [null]. *)
Theorem UnmarshalJSON_type_error :
  (forall data,
      match data with json.JNull | json.JObject _ => False | _ => True end ->
      V6.UnmarshalJSON data = inl (Errorf "failed to unmarshal location" JSONError))
  /\ (forall ms1 ms2 k v,
        json.names k "Type" || json.names k "ID" || json.names k "Name"
        || json.names k "Address" = true ->
        is_text v = false ->
        V6.UnmarshalJSON (json.JObject (ms1 ++ (k, v) :: ms2))
        = inl (Errorf "failed to unmarshal location" JSONError)).
Proof.
  split.
  - by intros [].
  - intros ms1 ms2 k v Hk Hv. unfold V6.UnmarshalJSON, V6.Unmarshal_hafasLocation.
    rewrite fold_left_app. cbn [fold_left].
    destruct (fold_left _ ms1 _) as [h|]; cbn [mbind option_bind];
      [|by rewrite fold_store_None].
    assert (E : V6.store_hafasLocation h (k, v) = None).
    { destruct h. unfold V6.store_hafasLocation.
      destruct (json.names k "Type"); [by destruct v|].
      destruct (json.names k "ID"); [by destruct v|].
      destruct (json.names k "Name"); [by destruct v|].
      destruct (json.names k "Address"); [by destruct v|].
      discriminate. }
    by rewrite E, fold_store_None.
Qed.

Lemma store_same_but_POI h1 h2 kv :
  forget_POI h1 = forget_POI h2 ->
  same_but_POI (V6.store_hafasLocation h1 kv) (V6.store_hafasLocation h2 kv).
Proof.
  destruct h1 as [ty id name addr loc la lo poi1],
    h2 as [ty2 id2 name2 addr2 loc2 la2 lo2 poi2].
  unfold forget_POI. cbn. intros [= <- <- <- <- <- <- <-].
  destruct kv as [k v]. unfold V6.store_hafasLocation.
  destruct (json.names k "Type"); [by destruct (json.store_string ty v)|].
  destruct (json.names k "ID"); [by destruct (json.store_string id v)|].
  destruct (json.names k "Name"); [by destruct (json.store_string name v)|].
  destruct (json.names k "Address"); [by destruct (json.store_string addr v)|].
  destruct (json.names k "Location"); [by destruct (V6.store_Location loc v)|].
  destruct (json.names k "Latitude"); [by destruct (json.store_float64 la v)|].
  destruct (json.names k "Longitude"); [by destruct (json.store_float64 lo v)|].
  destruct (json.names k "POI"); [by destruct v|].
  reflexivity.
Qed.

Lemma fold_same_but_POI ms o1 o2 :
  same_but_POI o1 o2 ->
  same_but_POI
    (fold_left (fun acc kv => h ← acc; V6.store_hafasLocation h kv) ms o1)
    (fold_left (fun acc kv => h ← acc; V6.store_hafasLocation h kv) ms o2).
Proof.
  revert o1 o2. induction ms as [|kv ms IH]; intros o1 o2 R; [exact R|].
  cbn [fold_left]. apply IH.
  destruct o1 as [h1|], o2 as [h2|]; try done.
  exact (store_same_but_POI h1 h2 kv R).
Qed.

(** A key that folds to [POI] names the field [POI] and no other. *)
Lemma names_POI k :
  json.foldName k = "POI" ->
  json.names k "POI" = true
  /\ Forall (fun field => json.names k field = false)
       ["Type"; "ID"; "Name"; "Address"; "Location"; "Latitude"; "Longitude"].
Proof.
  intros Hk. unfold json.names. rewrite Hk. split.
  - apply orb_true_r.
  - repeat constructor;
      (apply orb_false_iff; split; [|reflexivity]);
      apply String.eqb_neq; intros ->; vm_compute in Hk; discriminate.
Qed.

(** X24: [UnmarshalJSON] reads the boolean member [poi] (under any
    spelling of the key that differs in case only) and discards it: the
    object is read exactly as it is without the member, whether the
    boolean is true or false. *)
Theorem POI_member_is_discarded (ms1 ms2 : list (string * json.value))
  (k : string) (b : bool) :
  json.foldName k = "POI" ->
  V6.UnmarshalJSON (json.JObject (ms1 ++ (k, json.JBool b) :: ms2))
  = V6.UnmarshalJSON (json.JObject (ms1 ++ ms2)).
Proof.
  intros Hk. destruct (names_POI k Hk) as (HP & Ho).
  assert (R : same_but_POI
                (V6.Unmarshal_hafasLocation
                   (json.JObject (ms1 ++ (k, json.JBool b) :: ms2)))
                (V6.Unmarshal_hafasLocation (json.JObject (ms1 ++ ms2)))).
  { unfold V6.Unmarshal_hafasLocation. rewrite !fold_left_app. cbn [fold_left].
    apply fold_same_but_POI.
    destruct (fold_left _ ms1 _) as [h|]; [|exact I].
    cbn [mbind option_bind]. destruct h. unfold V6.store_hafasLocation.
    repeat match goal with
           | H : Forall _ (_ :: _) |- _ =>
               apply Forall_cons in H as [E H]; rewrite E; clear E
           end.
    rewrite HP. reflexivity. }
  unfold V6.UnmarshalJSON.
  destruct (V6.Unmarshal_hafasLocation (json.JObject (ms1 ++ _ :: ms2)))
    as [[? ? ? ? ? ? ? ?]|],
    (V6.Unmarshal_hafasLocation (json.JObject (ms1 ++ ms2)))
    as [[? ? ? ? ? ? ? ?]|]; try done.
  unfold same_but_POI, forget_POI in R. cbn in R.
  by injection R as -> -> -> -> -> -> ->.
Qed.

(** ** Generation B: locations that are not stops *)

(** X14: a location whose kind is not ["stop"] is always encoded by
    [MarshalJSON], whatever its coordinates, and the encoding holds no
    coordinate: neither a nested location nor a latitude or longitude.
    So [UnmarshalJSON] of the encoding is the location with its kind,
    identifier, name and address as the encoder writes them, and with
    latitude, longitude and distance 0. When the four strings are valid
    UTF-8 they come back as they are. *)
Theorem not_stop_round_trip (loc : V6.Location.t) :
  V6.Location.Type_ loc <> "stop" ->
  exists data,
    V6.MarshalJSON loc = inr data
    /\ json.lookup "Location" data = None
    /\ json.lookup "Latitude" data = None
    /\ json.lookup "Longitude" data = None
    /\ V6.UnmarshalJSON data
       = inr {| V6.Location.Type_ := json.appendString (V6.Location.Type_ loc);
                V6.Location.ID := json.appendString (V6.Location.ID loc);
                V6.Location.Name := json.appendString (V6.Location.Name loc);
                V6.Location.Address := json.appendString (V6.Location.Address loc);
                V6.Location.Latitude := S754_zero false;
                V6.Location.Longitude := S754_zero false;
                V6.Location.Distance := 0 |}
    /\ (utf8.ValidString (V6.Location.Type_ loc) = true ->
        utf8.ValidString (V6.Location.ID loc) = true ->
        utf8.ValidString (V6.Location.Name loc) = true ->
        utf8.ValidString (V6.Location.Address loc) = true ->
        V6.UnmarshalJSON data
        = inr {| V6.Location.Type_ := V6.Location.Type_ loc;
                 V6.Location.ID := V6.Location.ID loc;
                 V6.Location.Name := V6.Location.Name loc;
                 V6.Location.Address := V6.Location.Address loc;
                 V6.Location.Latitude := S754_zero false;
                 V6.Location.Longitude := S754_zero false;
                 V6.Location.Distance := 0 |}).
Proof.
  intros Hty. apply String.eqb_neq in Hty.
  rewrite (MarshalJSON_not_stop loc Hty). eexists. split; [reflexivity|].
  destruct loc as [ty id name addr lat lng dist]. cbn [V6.Location.Type_
    V6.Location.ID V6.Location.Name V6.Location.Address] in *.
  assert (Hread :
            V6.UnmarshalJSON
              (json.JObject
                 ([("Type", json.JString (json.appendString ty));
                   ("ID", json.JString (json.appendString id));
                   ("Name", json.JString (json.appendString name))]
                  ++ (if String.eqb addr "" then []
                      else [("Address", json.JString (json.appendString addr))])
                  ++ (if String.eqb ty "poi" then [("POI", json.JBool true)]
                      else [])))
            = inr {| V6.Location.Type_ := json.appendString ty;
                     V6.Location.ID := json.appendString id;
                     V6.Location.Name := json.appendString name;
                     V6.Location.Address := json.appendString addr;
                     V6.Location.Latitude := S754_zero false;
                     V6.Location.Longitude := S754_zero false;
                     V6.Location.Distance := 0 |}).
  { destruct (String.eqb addr "") eqn:Ea; destruct (String.eqb ty "poi");
      try (apply String.eqb_eq in Ea; subst addr); reflexivity. }
  split; [by destruct (String.eqb addr ""), (String.eqb ty "poi")|].
  split; [by destruct (String.eqb addr ""), (String.eqb ty "poi")|].
  split; [by destruct (String.eqb addr ""), (String.eqb ty "poi")|].
  split; [exact Hread|].
  intros Hty' Hid Hname Haddr. rewrite Hread.
  rewrite (appendString_valid ty Hty'), (appendString_valid id Hid),
    (appendString_valid name Hname), (appendString_valid addr Haddr).
  reflexivity.
Qed.

(** X20: [MarshalJSON] returns an error exactly for a stop one of whose
    coordinates is a NaN or an infinity; the error is the encoder's. *)
Theorem MarshalJSON_error_iff (loc : V6.Location.t) :
  ((exists err, V6.MarshalJSON loc = inl err)
   <-> V6.Location.Type_ loc = "stop"
       /\ float64_finite (V6.Location.Latitude loc)
          && float64_finite (V6.Location.Longitude loc) = false)
  /\ forall err, V6.MarshalJSON loc = inl err -> err = JSONError.
Proof.
  destruct (String.eqb (V6.Location.Type_ loc) "stop") eqn:E.
  - apply String.eqb_eq in E. rewrite (MarshalJSON_stop loc E).
    destruct (float64_finite _ && float64_finite _); split.
    + split; [by intros [err ?]|by intros [_ ?]].
    + discriminate.
    + split; [done|]. intros _. by eexists.
    + by intros err [= <-].
  - rewrite (MarshalJSON_not_stop loc E). apply String.eqb_neq in E. split.
    + split; [by intros [err ?]|by intros [? _]].
    + discriminate.
Qed.

(** X22: the members that [MarshalJSON] writes are, in this order,
    [Type], [ID] and [Name], then [Address] unless the address is
    empty, then [Location] for a stop, then [POI] for a point of
    interest; the keys are the names of the Go fields, and neither the
    distance nor a latitude or longitude is a member. *)
Theorem MarshalJSON_keys (loc : V6.Location.t) (data : json.value) :
  V6.MarshalJSON loc = inr data ->
  exists members,
    data = json.JObject members
    /\ map fst members
       = (["Type"; "ID"; "Name"]
            ++ (if String.eqb (V6.Location.Address loc) "" then [] else ["Address"])
            ++ (if String.eqb (V6.Location.Type_ loc) "stop" then ["Location"] else [])
            ++ (if String.eqb (V6.Location.Type_ loc) "poi" then ["POI"] else []))%list.
Proof.
  intros H.
  destruct (String.eqb (V6.Location.Type_ loc) "stop") eqn:Estop.
  - apply String.eqb_eq in Estop.
    rewrite (MarshalJSON_stop loc Estop) in H.
    destruct (float64_finite _ && float64_finite _); [|discriminate].
    injection H as <-. rewrite Estop. eexists. split; [reflexivity|].
    by destruct (String.eqb (V6.Location.Address loc) "").
  - rewrite (MarshalJSON_not_stop loc Estop) in H. injection H as <-.
    eexists. split; [reflexivity|].
    by destruct (String.eqb (V6.Location.Address loc) ""),
         (String.eqb (V6.Location.Type_ loc) "poi").
Qed.

(** X21: what [MarshalJSON] writes is read back and written again
    unchanged: for every location that is encoded, [UnmarshalJSON] reads
    the encoding as a location whose kind, identifier, name and address
    are the ones of the location as the encoder writes them, and whose
    own encoding is the same JSON value. *)
Theorem encoding_is_stable (loc : V6.Location.t) (data : json.value) :
  V6.MarshalJSON loc = inr data ->
  exists loc',
    V6.UnmarshalJSON data = inr loc'
    /\ V6.MarshalJSON loc' = inr data
    /\ V6.Location.Type_ loc' = json.appendString (V6.Location.Type_ loc)
    /\ V6.Location.ID loc' = json.appendString (V6.Location.ID loc)
    /\ V6.Location.Name loc' = json.appendString (V6.Location.Name loc)
    /\ V6.Location.Address loc' = json.appendString (V6.Location.Address loc).
Proof.
  intros H.
  destruct (String.eqb (V6.Location.Type_ loc) "stop") eqn:Estop.
  - apply String.eqb_eq in Estop.
    rewrite (MarshalJSON_stop loc Estop) in H.
    destruct (float64_finite (V6.Location.Latitude loc)) eqn:Hla; [|discriminate].
    destruct (float64_finite (V6.Location.Longitude loc)) eqn:Hlo; [|discriminate].
    injection H as <-.
    destruct loc as [ty id name addr lat lng dist]. cbn in Estop, Hla, Hlo. subst ty.
    set (loc' := {| V6.Location.Type_ := "stop";
                    V6.Location.ID := json.appendString id;
                    V6.Location.Name := json.appendString name;
                    V6.Location.Address := json.appendString addr;
                    V6.Location.Latitude := lat; V6.Location.Longitude := lng;
                    V6.Location.Distance := 0 |}).
    exists loc'. rewrite (MarshalJSON_stop loc' eq_refl). subst loc'.
    cbn [V6.Location.Type_ V6.Location.ID V6.Location.Name V6.Location.Address
         V6.Location.Latitude V6.Location.Longitude].
    rewrite Hla, Hlo, !appendString_idempotent, (appendString_eqb addr "" eq_refl).
    destruct (String.eqb addr "") eqn:Ea;
      try (apply String.eqb_eq in Ea; subst addr); repeat split; reflexivity.
  - rewrite (MarshalJSON_not_stop loc Estop) in H. injection H as <-.
    destruct loc as [ty id name addr lat lng dist]. cbn in Estop.
    set (loc' := {| V6.Location.Type_ := json.appendString ty;
                    V6.Location.ID := json.appendString id;
                    V6.Location.Name := json.appendString name;
                    V6.Location.Address := json.appendString addr;
                    V6.Location.Latitude := S754_zero false;
                    V6.Location.Longitude := S754_zero false;
                    V6.Location.Distance := 0 |}).
    assert (Estop' : String.eqb (V6.Location.Type_ loc') "stop" = false).
    { subst loc'. cbn [V6.Location.Type_].
      by rewrite (appendString_eqb ty "stop" eq_refl). }
    exists loc'. rewrite (MarshalJSON_not_stop loc' Estop'). subst loc'.
    cbn [V6.Location.Type_ V6.Location.ID V6.Location.Name V6.Location.Address].
    rewrite !appendString_idempotent, (appendString_eqb addr "" eq_refl),
      (appendString_eqb ty "poi" eq_refl).
    destruct (String.eqb addr "") eqn:Ea; destruct (String.eqb ty "poi");
      try (apply String.eqb_eq in Ea; subst addr); repeat split; reflexivity.
Qed.

(** ** The two generations on one location *)





(** ** The statements at the sample inputs *)

Example Values_Encode_sample :
  url.Values_Encode (V6.Departures_q sample.cet (10 * time.Minute) V6.Bus)
  = "bus=true&duration=10&express=true&ferry=true&pretty=false&regional=true&suburban=false&subway=true&tram=true&when=2024-01-02T15%3A04%3A05%2B0100".
Proof. by vm_compute. Qed.

Example QueryEscape_reserved :
  url.QueryEscape "900/1?x=1#f" = "900%2F1%3Fx%3D1%23f".
Proof. reflexivity. Qed.

(** C3 at a sample: the request of generation A for the departures of
    stop 900100001 has no [?], and the duration of ten minutes is in the
    values that are not sent. *)
Lemma V5_query_never_sent_witness :
  (url.contains "?" V5.BaseURL = false /\ url.contains "?" "900100001" = false)
  /\ url.contains "?" (V5.BaseURL ++ "/stops/" ++ "900100001" ++ "/departures")
     = false
  /\ V5.Departures_q sample.cet (10 * time.Minute) V5.AllTransport !! "duration"
     = Some ["10"]
  /\ fst (V5.Departures sample.Parse sample.Departure_zero5
            sample.decodeDeparture5 (sample.client5 200 (json.JArray []))
            "900100001" sample.cet (10 * time.Minute) V5.AllTransport)
     = [{| http.Method := "GET";
           http.URL := "https://v5.vbb.transport.rest/stops/900100001/departures" |}].
Proof.
  pose proof (V5_query_never_sent sample.Parse sample.Departure_zero5
                sample.decodeDeparture5 (sample.client5 200 (json.JArray []))
                "900100001" sample.cet (10 * time.Minute) V5.AllTransport) as H.
  cbv zeta in H. destruct H as (_ & Hval & Hreq & _ & _ & Hq).
  split; [split; reflexivity|]. split; [|split].
  - apply Hq; reflexivity.
  - destruct (Hval _ (or_introl eq_refl)) as (_ & Hd & _). exact Hd.
  - exact Hreq.
Defined.

(** C5 and C9 at a sample: the two records of [sample.arrivals]. *)
Lemma Arrivals_direction_fallback_witness :
  exists ds,
    snd (V6.Arrivals sample.Parse sample.arrival_zero sample.decodeArrival
           (sample.client 200 sample.arrivals) "900100001" sample.cet
           (10 * time.Minute) V6.AllTransport) = inr ds
    /\ forall i a,
         sample.records !! i = Some a ->
         exists d,
           ds !! i = Some d
           /\ (V6.Departure.Direction (V6.arrival.Departure a) = "" ->
               V6.Departure.Direction d = V6.arrival.Provenance a)
           /\ (V6.Departure.Direction (V6.arrival.Departure a) <> "" ->
               V6.Departure.Direction d
               = V6.Departure.Direction (V6.arrival.Departure a)).
Proof.
  apply (Arrivals_direction_fallback sample.Parse sample.arrival_zero
           sample.decodeArrival (sample.client 200 sample.arrivals)
           "900100001" sample.cet (10 * time.Minute) V6.AllTransport
           (Some sample.arrivals) sample.records); reflexivity.
Defined.

Lemma Arrivals_frame_witness :
  exists ds,
    snd (V6.Arrivals sample.Parse sample.arrival_zero sample.decodeArrival
           (sample.client 200 sample.arrivals) "900100001" sample.cet
           (10 * time.Minute) V6.AllTransport) = inr ds
    /\ length ds = length sample.records
    /\ forall i a,
         sample.records !! i = Some a ->
         exists d,
           ds !! i = Some d
           /\ V6.Departure.When d = V6.Departure.When (V6.arrival.Departure a)
           /\ V6.Departure.PlannedWhen d
              = V6.Departure.PlannedWhen (V6.arrival.Departure a)
           /\ V6.Departure.Delay d = V6.Departure.Delay (V6.arrival.Departure a)
           /\ V6.Departure.Platform d
              = V6.Departure.Platform (V6.arrival.Departure a)
           /\ V6.Departure.PlannedPlatform d
              = V6.Departure.PlannedPlatform (V6.arrival.Departure a)
           /\ V6.Departure.Line d = V6.Departure.Line (V6.arrival.Departure a).
Proof.
  apply (Arrivals_frame sample.Parse sample.arrival_zero
           sample.decodeArrival (sample.client 200 sample.arrivals)
           "900100001" sample.cet (10 * time.Minute) V6.AllTransport
           (Some sample.arrivals) sample.records); reflexivity.
Defined.

Example Arrivals_sample :
  snd (V6.Arrivals sample.Parse sample.arrival_zero sample.decodeArrival
         (sample.client 200 sample.arrivals) "900100001" sample.cet
         (10 * time.Minute) V6.AllTransport)
  = inr (exposed <$> sample.records)
  /\ V6.Departure.Direction <$> (exposed <$> sample.records)
     = ["Platform 3 area"; "S Potsdam Hbf"].
Proof. split; reflexivity. Qed.

(** C10 at a sample: the stop identifier [900100001?x=1]. *)
Lemma stopID_spliced_verbatim_witness :
  (url.contains "?" "900100001" = false /\ url.contains "#" "900100001" = false
   /\ url.contains "?" V6.BaseURL = false /\ url.contains "#" V6.BaseURL = false)
  /\ fst (fst (url.Parse_cut
                 (V6.BaseURL ++ "/stops/" ++ "900100001?x=1" ++ "/departures?"
                    ++ url.Values_Encode
                         (V6.Departures_q sample.cet (10 * time.Minute) V6.Bus))))
     = V6.BaseURL ++ "/stops/" ++ "900100001".
Proof.
  pose proof (stopID_spliced_verbatim sample.Parse sample.Departure_zero5
                sample.decodeDeparture5 sample.Departure_zero
                sample.decodeDeparture sample.arrival_zero sample.decodeArrival
                (sample.client5 200 (json.JArray []))
                (sample.client 200 (json.JArray []))
                "900100001?x=1" sample.cet (10 * time.Minute) V6.Bus) as H.
  cbv zeta in H. destruct H as (_ & H & _).
  split; [repeat split; reflexivity|].
  destruct (H "900100001" "x=1" "?"%char eq_refl (or_introl eq_refl)
              eq_refl eq_refl) as (_ & H6).
  destruct (H6 eq_refl eq_refl) as (Hdep & _). exact Hdep.
Defined.



(** C4, as stated, at a sample: a stop whose latitude is NaN has no
    encoding. *)
Lemma stop_nan_not_encoded :
  V6.Location.Type_ sample.stop_nan = "stop"
  /\ V6.MarshalJSON sample.stop_nan = inl JSONError.
Proof. split; reflexivity. Qed.

(** C4, as stated, at another sample: a stop whose identifier is not
    valid UTF-8 is encoded, and comes back with another identifier, the
    replacement character. *)
Example stop_invalid_UTF8_not_restored :
  utf8.ValidString (V6.Location.ID sample.stop_ff) = false
  /\ exists data loc,
       V6.MarshalJSON sample.stop_ff = inr data
       /\ V6.UnmarshalJSON data = inr loc
       /\ V6.Location.ID loc = utf8.RuneError
       /\ V6.Location.ID loc <> V6.Location.ID sample.stop_ff.
Proof.
  split; [reflexivity|]. eexists. eexists.
  split; [reflexivity|]. split; [reflexivity|]. split; [reflexivity|discriminate].
Qed.

(** C4 as the code has it, at a sample. *)
Lemma stop_round_trip_witness :
  (V6.Location.Type_ sample.stop = "stop"
   /\ float64_finite (V6.Location.Latitude sample.stop) = true
   /\ float64_finite (V6.Location.Longitude sample.stop) = true
   /\ utf8.ValidString (V6.Location.ID sample.stop) = true
   /\ utf8.ValidString (V6.Location.Name sample.stop) = true
   /\ utf8.ValidString (V6.Location.Address sample.stop) = true)
  /\ exists data,
       V6.MarshalJSON sample.stop = inr data
       /\ json.lookup "Location" data
          = Some (json.JObject
                    [("Type", json.JString "location");
                     ("Latitude", json.JNumber (V6.Location.Latitude sample.stop));
                     ("Longitude", json.JNumber (V6.Location.Longitude sample.stop))])
       /\ V6.UnmarshalJSON data
          = inr {| V6.Location.Type_ := V6.Location.Type_ sample.stop;
                   V6.Location.ID := V6.Location.ID sample.stop;
                   V6.Location.Name := V6.Location.Name sample.stop;
                   V6.Location.Address := V6.Location.Address sample.stop;
                   V6.Location.Latitude := V6.Location.Latitude sample.stop;
                   V6.Location.Longitude := V6.Location.Longitude sample.stop;
                   V6.Location.Distance := 0 |}.
Proof.
  split; [repeat split; reflexivity|].
  destruct (stop_round_trip sample.stop eq_refl eq_refl eq_refl)
    as (data & Hm & Hl & _ & Hv).
  exists data. split; [exact Hm|]. split; [exact Hl|].
  exact (Hv eq_refl eq_refl eq_refl).
Defined.

(** C7, as stated, at a sample: the encoding of an address has no member
    [POI], so no boolean false is written for it. *)
Lemma address_has_no_POI_member :
  exists data,
    V6.MarshalJSON sample.address = inr data
    /\ data = json.JObject
                [("Type", json.JString "address"); ("ID", json.JString "");
                 ("Name", json.JString "");
                 ("Address", json.JString "Unter den Linden 1")]
    /\ json.lookup "POI" data = None
    /\ json.lookup "POI" data <> Some (json.JBool false).
Proof. eexists. repeat split; [reflexivity..|discriminate]. Qed.

(** C7 as the code has it, at a sample. *)
Lemma MarshalJSON_members_witness :
  V6.MarshalJSON sample.address
  = inr (json.JObject
           [("Type", json.JString "address"); ("ID", json.JString "");
            ("Name", json.JString "");
            ("Address", json.JString "Unter den Linden 1")])
  /\ (V6.Location.Type_ sample.address <> "poi" ->
      json.lookup "POI"
        (json.JObject
           [("Type", json.JString "address"); ("ID", json.JString "");
            ("Name", json.JString "");
            ("Address", json.JString "Unter den Linden 1")]) = None).
Proof.
  split; [reflexivity|].
  destruct (MarshalJSON_members sample.address _ eq_refl) as (_ & _ & H & _).
  exact H.
Defined.


(** Outside the years 0 to 9999 the year has more than four bytes. *)
Example Format_year_10000 :
  time.Format
    {| time.year := 10000; time.month := 1; time.day := 2; time.hour := 15;
       time.minute := 4; time.second := 5; time.offset := 3600 |}
    time.layout_NumTZ
  = "10000-01-02T15:04:05+0100"
  /\ time.matches_NumTZ "10000-01-02T15:04:05+0100" = false.
Proof. split; by vm_compute. Qed.


(** C8, as stated, at samples: in generation A a duration of 90 seconds
    gives 2 where the truncation gives 1; in generation B a duration of
    one nanosecond less than 262145 minutes gives 262145. *)
Lemma duration_rounded_not_truncated :
  V5.Departures_q sample.cet (90 * time.Second) V5.AllTransport !! "duration"
  = Some ["2"]
  /\ V5.Arrivals_q sample.cet (90 * time.Second) V5.AllTransport !! "duration"
     = Some ["2"]
  /\ strconv.Itoa (Z.quot (90 * time.Second) time.Minute) = "1"
  /\ V6.Departures_q sample.cet (262145 * time.Minute - 1) V6.AllTransport
       !! "duration" = Some ["262145"]
  /\ strconv.Itoa (Z.quot (262145 * time.Minute - 1) time.Minute) = "262144".
Proof. repeat split; by vm_compute. Qed.

(** From 2^18 minutes on, the float64 that [Minutes] returns is too
    coarse for the last nanosecond: within the minute that follows, one
    nanosecond more than half a minute is not rounded up in generation
    A, and one nanosecond less than a minute is not cut off in
    generation B. *)
Example duration_from_2_18_minutes :
  V5.Departures_q sample.cet (262144 * time.Minute + 30 * time.Second + 1)
    V5.AllTransport !! "duration" = Some ["262144"]
  /\ strconv.Itoa (nearest_minute (262144 * time.Minute + 30 * time.Second + 1))
     = "262145"
  /\ V6.Departures_q sample.cet (262144 * time.Minute + 60 * time.Second - 1)
       V6.AllTransport !! "duration" = Some ["262145"]
  /\ strconv.Itoa
       (Z.quot (262144 * time.Minute + 60 * time.Second - 1) time.Minute)
     = "262144".
Proof. repeat split; by vm_compute. Qed.

(** C8 as the code has it, at a sample: one nanosecond less than 2^18
    minutes. *)
Lemma duration_parameter_witness :
  - (2 ^ 18 * time.Minute) < 262144 * time.Minute - 1 < 2 ^ 18 * time.Minute
  /\ V6.Departures_q sample.cet (262144 * time.Minute - 1) V6.AllTransport
       !! "duration"
     = Some [strconv.Itoa (Z.quot (262144 * time.Minute - 1) time.Minute)]
  /\ strconv.Itoa (Z.quot (262144 * time.Minute - 1) time.Minute) = "262143"
  /\ V5.Departures_q sample.cet (262144 * time.Minute - 1) V6.AllTransport
       !! "duration"
     = Some [(if 262144 * time.Minute - 1 <? 0 then "-" else "")
             ++ strconv.Itoa (nearest_minute (Z.abs (262144 * time.Minute - 1)))]
  /\ (if 262144 * time.Minute - 1 <? 0 then "-" else "")
       ++ strconv.Itoa (nearest_minute (Z.abs (262144 * time.Minute - 1)))
     = "262144".
Proof.
  assert (H : - (2 ^ 18 * time.Minute) < 262144 * time.Minute - 1
              < 2 ^ 18 * time.Minute)
    by (split; reflexivity).
  split; [exact H|].
  destruct (duration_parameter sample.cet (262144 * time.Minute - 1)
              V6.AllTransport H)
    as ((Hdep & _) & (Hdep5 & _)).
  split; [exact Hdep|]. split; [reflexivity|]. split; [exact Hdep5|reflexivity].
Defined.

(** ** The further statements at the sample inputs *)

Example Locations_request_sample :
  fst (V6.Locations sample.Parse (sample.client 200 (json.JArray []))
         "Zoo & Tierpark?" V6.LocationTypeStop 5)
  = [{| http.Method := "GET";
        http.URL := "https://v6.vbb.transport.rest/locations?addresss=false&fuzzy=false&poi=false&pretty=false&query=Zoo+%26+Tierpark%3F&results=5&stops=true" |}].
Proof. by vm_compute. Qed.

(** X6 at a sample: a query text that holds all four separators. *)
Lemma Locations_query_confined_witness :
  (url.contains "?" V6.BaseURL = false /\ url.contains "#" V6.BaseURL = false)
  /\ let q := url.Values_Encode (V6.Locations_q "a&b=c#d?" V6.LocationTypeAny 5) in
     url.Parse_cut (V6.BaseURL ++ "/locations?" ++ q)
     = (V6.BaseURL ++ "/locations", q, "")
     /\ occurrences "&" q = 6%nat
     /\ occurrences "=" q = 7%nat.
Proof.
  split; [split; reflexivity|].
  exact (Locations_query_confined V6.BaseURL "a&b=c#d?" V6.LocationTypeAny 5
           eq_refl eq_refl).
Defined.

(** X7 at a sample: an endpoint that is a colon alone. *)
Lemma rejected_URL_is_not_requested_witness :
  (forall u, sample.Parse_scheme (":" ++ u)
             = Some (TransportError "missing protocol scheme"))
  /\ V6.Departures sample.Parse_scheme sample.Departure_zero sample.decodeDeparture
       {| V6.endpoint := ":"; V6.c := http.answering 200 (Some (json.JArray [])) |}
       "900100001" sample.cet (10 * time.Minute) V6.Bus
     = ([], inl (Errorf "failed to retrieve departures for 900100001"
                   (Errorf
                      ("failed to create request to "
                         ++ "/stops/900100001/departures?"
                         ++ url.Values_Encode
                              (V6.Departures_q sample.cet (10 * time.Minute) V6.Bus))
                      (TransportError "missing protocol scheme")))).
Proof.
  assert (H : forall u, sample.Parse_scheme (":" ++ u)
                        = Some (TransportError "missing protocol scheme"))
    by reflexivity.
  split; [exact H|].
  pose proof (rejected_URL_is_not_requested sample.Parse_scheme
                sample.FormatFloat_shortest sample.Departure_zero5
                sample.decodeLocation5 sample.decodeDeparture5
                sample.Departure_zero sample.decodeDeparture sample.arrival_zero
                sample.decodeArrival
                {| V5.endpoint := ":";
                   V5.c := http.answering 200 (Some (json.JArray [])) |}
                {| V6.endpoint := ":";
                   V6.c := http.answering 200 (Some (json.JArray [])) |}
                (fun _ => TransportError "missing protocol scheme")
                (fun _ => TransportError "missing protocol scheme")
                "Alexanderplatz" V6.LocationTypeAny 5 300
                (float64_of_int 52) (float64_of_int 13) "900100001" sample.cet
                (10 * time.Minute) V6.Bus H H) as T.
  cbv zeta in T. destruct T as (_ & _ & _ & Hdep & _). exact Hdep.
Defined.




Lemma Distance_is_never_set_witness :
  snd (V6.StopsNearby sample.Parse sample.FormatFloat_shortest
         (sample.client 200 sample.nearby)
         (float64_of_int 52) (float64_of_int 13) 300 5)
  = inr [sample.stop]
  /\ json.lookup "distance" sample.nearby_stop
     = Some (json.JNumber (float64_of_int 120))
  /\ Forall (fun loc => V6.Location.Distance loc = 0) [sample.stop].
Proof.
  assert (H : snd (V6.StopsNearby sample.Parse sample.FormatFloat_shortest
                     (sample.client 200 sample.nearby)
                     (float64_of_int 52) (float64_of_int 13) 300 5)
              = inr [sample.stop]) by reflexivity.
  split; [exact H|]. split; [reflexivity|].
  exact (Distance_is_never_set sample.Parse sample.FormatFloat_shortest
           (sample.client 200 sample.nearby) "Alexanderplatz"
           V6.LocationTypeAny 5 300 (float64_of_int 52) (float64_of_int 13)
           [sample.stop] (or_intror H)).
Defined.


(** X12 at a sample: the products of a stop are skipped. *)
Lemma unknown_members_are_skipped_witness :
  names_field "products" = false
  /\ V6.UnmarshalJSON
       (json.JObject
          ([("type", json.JString "stop")]
             ++ ("products", json.JObject [("suburban", json.JBool true)])
                  :: [("id", json.JString "900100001")]))
     = V6.UnmarshalJSON
         (json.JObject
            ([("type", json.JString "stop")] ++ [("id", json.JString "900100001")])).
Proof.
  split; [reflexivity|].
  exact (unknown_members_are_skipped [("type", json.JString "stop")]
           [("id", json.JString "900100001")] "products"
           (json.JObject [("suburban", json.JBool true)]) eq_refl).
Defined.

(** X13 at a sample: a stop with coordinates on both levels. *)
Lemma nested_coordinates_win_witness :
  V6.Unmarshal_hafasLocation (json.JObject [("type", json.JString "stop")])
  = Some {| V6.hafasLocation.Type_ := "stop"; V6.hafasLocation.ID := "";
            V6.hafasLocation.Name := ""; V6.hafasLocation.Address := "";
            V6.hafasLocation.Location := None;
            V6.hafasLocation.Latitude := S754_zero false;
            V6.hafasLocation.Longitude := S754_zero false;
            V6.hafasLocation.POI := false |}
  /\ V6.UnmarshalJSON
       (json.JObject
          ([("type", json.JString "stop")]
             ++ ("location",
                  json.JObject [("latitude", json.JNumber (float64_of_int 52));
                                ("longitude", json.JNumber (float64_of_int 13))])
                  :: [("latitude", json.JNumber (float64_of_int 1));
                      ("longitude", json.JNumber (float64_of_int 2))]))
     = inr {| V6.Location.Type_ := "stop"; V6.Location.ID := "";
              V6.Location.Name := ""; V6.Location.Address := "";
              V6.Location.Latitude := float64_of_int 52;
              V6.Location.Longitude := float64_of_int 13;
              V6.Location.Distance := 0 |}.
Proof.
  split; [reflexivity|].
  pose proof (nested_coordinates_win [("type", json.JString "stop")] _
                (float64_of_int 52) (float64_of_int 13)
                (float64_of_int 1) (float64_of_int 2) eq_refl) as T.
  cbv zeta in T. destruct T as (_ & H & _). exact H.
Defined.

(** X15 at a sample: an identifier that is a number. *)
Lemma UnmarshalJSON_type_error_witness :
  (json.names "id" "Type" || json.names "id" "ID" || json.names "id" "Name"
   || json.names "id" "Address" = true
   /\ is_text (json.JNumber (float64_of_int 900100001)) = false)
  /\ V6.UnmarshalJSON
       (json.JObject
          ([("type", json.JString "stop")]
             ++ ("id", json.JNumber (float64_of_int 900100001))
                  :: [("name", json.JString "S+U Friedrichstr.")]))
     = inl (Errorf "failed to unmarshal location" JSONError)
  /\ V6.UnmarshalJSON (json.JArray [])
     = inl (Errorf "failed to unmarshal location" JSONError).
Proof.
  split; [split; reflexivity|].
  destruct UnmarshalJSON_type_error as (Hkind & Hmember).
  split.
  - exact (Hmember [("type", json.JString "stop")]
             [("name", json.JString "S+U Friedrichstr.")] "id"
             (json.JNumber (float64_of_int 900100001)) eq_refl eq_refl).
  - exact (Hkind (json.JArray []) I).
Defined.

(** X14 at a sample: the address loses its coordinates. *)
Lemma not_stop_round_trip_witness :
  V6.Location.Type_ sample.address <> "stop"
  /\ V6.Location.Latitude sample.address = float64_of_int 52
  /\ utf8.ValidString (V6.Location.Address sample.address) = true
  /\ exists data,
       V6.MarshalJSON sample.address = inr data
       /\ json.lookup "Location" data = None
       /\ json.lookup "Latitude" data = None
       /\ json.lookup "Longitude" data = None
       /\ V6.UnmarshalJSON data
          = inr {| V6.Location.Type_ := V6.Location.Type_ sample.address;
                   V6.Location.ID := V6.Location.ID sample.address;
                   V6.Location.Name := V6.Location.Name sample.address;
                   V6.Location.Address := V6.Location.Address sample.address;
                   V6.Location.Latitude := S754_zero false;
                   V6.Location.Longitude := S754_zero false;
                   V6.Location.Distance := 0 |}.
Proof.
  assert (H : V6.Location.Type_ sample.address <> "stop") by discriminate.
  split; [exact H|]. split; [reflexivity|]. split; [reflexivity|].
  destruct (not_stop_round_trip sample.address H)
    as (data & Hm & H1 & H2 & H3 & _ & Hv).
  exists data. split; [exact Hm|]. split; [exact H1|]. split; [exact H2|].
  split; [exact H3|]. exact (Hv eq_refl eq_refl eq_refl eq_refl).
Defined.

(** X20 at a sample: the stop whose latitude is not a number. *)
Lemma MarshalJSON_error_iff_witness :
  (V6.Location.Type_ sample.stop_nan = "stop"
   /\ float64_finite (V6.Location.Latitude sample.stop_nan)
      && float64_finite (V6.Location.Longitude sample.stop_nan) = false)
  /\ exists err, V6.MarshalJSON sample.stop_nan = inl err.
Proof.
  assert (H : V6.Location.Type_ sample.stop_nan = "stop"
              /\ float64_finite (V6.Location.Latitude sample.stop_nan)
                 && float64_finite (V6.Location.Longitude sample.stop_nan) = false)
    by (split; reflexivity).
  split; [exact H|].
  exact (proj2 (proj1 (MarshalJSON_error_iff sample.stop_nan)) H).
Defined.


(** X21 at a sample: the encoding of [sample.stop]. *)
Lemma encoding_is_stable_witness :
  exists data,
    V6.MarshalJSON sample.stop = inr data
    /\ exists loc',
         V6.UnmarshalJSON data = inr loc'
         /\ V6.MarshalJSON loc' = inr data
         /\ V6.Location.Type_ loc' = V6.Location.Type_ sample.stop
         /\ V6.Location.ID loc' = V6.Location.ID sample.stop
         /\ V6.Location.Name loc' = V6.Location.Name sample.stop
         /\ V6.Location.Address loc' = V6.Location.Address sample.stop.
Proof.
  eexists. split; [reflexivity|].
  exact (encoding_is_stable sample.stop _ eq_refl).
Defined.

(** X22 at a sample: the members of the encoding of [sample.address]. *)
Lemma MarshalJSON_keys_witness :
  exists data,
    V6.MarshalJSON sample.address = inr data
    /\ exists members,
         data = json.JObject members
         /\ map fst members = ["Type"; "ID"; "Name"; "Address"].
Proof.
  eexists. split; [reflexivity|].
  exact (MarshalJSON_keys sample.address _ eq_refl).
Defined.

(** X23 at a sample: the departures of stop 900100001. *)
Lemma stop_query_confined_witness :
  (url.contains "?" V6.BaseURL = false /\ url.contains "#" V6.BaseURL = false
   /\ url.contains "?" "900100001" = false /\ url.contains "#" "900100001" = false)
  /\ let q :=
       url.Values_Encode (V6.Departures_q sample.cet (10 * time.Minute) V6.Bus) in
     url.Parse_cut (V6.BaseURL ++ "/stops/" ++ "900100001" ++ "/departures?" ++ q)
     = (V6.BaseURL ++ "/stops/" ++ "900100001" ++ "/departures", q, "").
Proof.
  split; [repeat split; reflexivity|].
  pose proof (stop_query_confined V6.BaseURL "900100001" sample.cet
                (10 * time.Minute) V6.Bus eq_refl eq_refl eq_refl eq_refl) as T.
  cbv zeta in T. destruct T as (H & _). exact H.
Defined.

(** X24 at a sample: a point of interest as the service writes it. *)
Lemma POI_member_is_discarded_witness :
  json.foldName "poi" = "POI"
  /\ V6.UnmarshalJSON
       (json.JObject
          ([("type", json.JString "location"); ("name", json.JString "Zoo")]
             ++ ("poi", json.JBool true) :: [("id", json.JString "900980709")]))
     = V6.UnmarshalJSON
         (json.JObject
            ([("type", json.JString "location"); ("name", json.JString "Zoo")]
               ++ [("id", json.JString "900980709")])).
Proof.
  split; [reflexivity|].
  exact (POI_member_is_discarded
           [("type", json.JString "location"); ("name", json.JString "Zoo")]
           [("id", json.JString "900980709")] "poi" true eq_refl).
Defined.
